(** * OpsPilot: the incident-response orchestration core

    A shallow embedding of the TypeScript sources of the OpsPilot agent
    (the [OpsPilotAgent] class, the [BedrockService] tool-calling loop and
    the [CloudWatchService] anomaly analyzer) together with the properties
    the design document states about them.

    Conventions.
    - A JavaScript [number] that the code only counts, orders or compares
      is an integer ([Z] or [nat]).  The anomaly analyzer is given twice:
      on IEEE binary64 numbers, the arithmetic the code runs on
      ([Telemetry64]), and on real numbers ([Telemetry]), for a series
      whose verdict is far from any rounding.
    - A [Date] is its number of milliseconds since the epoch ([Z]).
    - A value of TypeScript type [any] is a [Json] tree.
    - An [async] function is a computation in the monad [M]: it reads the
      history of calls made to the outside world, appends to it, and either
      returns a value or throws. *)

From Stdlib Require Import List String Ascii Bool Arith ZArith QArith Lia.
From Stdlib Require Import Decimal DecimalString.
From Stdlib Require Import Reals Lra.
From Stdlib Require Floats.PrimFloat Numbers.Cyclic.Int63.Uint63.
From Stdlib Require Import Sorting.Sorted Sorting.Permutation.
Import ListNotations.

Set Implicit Arguments.
Set Warnings "-register-all".

Open Scope string_scope.
Open Scope list_scope.

(* ================================================================= *)
(** ** Values of the JavaScript runtime *)

Definition Date := Z.
Bind Scope Z_scope with Date.

Definition nl : string := String (ascii_of_nat 10) EmptyString.

(** A value of type [any]: what the AWS clients return and what tool
    inputs and outputs carry.  [VAugmented carrier fields] is an array or a
    date object [carrier] on which the named properties [fields] were
    put. *)
Inductive JsValue :=
| VUndefined
| VNull
| VBool (b : bool)
| VNum (n : Q)
| VStr (s : string)
| VDate (d : Date)
| VArr (items : list JsValue)
| VObj (fields : list (string * JsValue))
| VAugmented (carrier : JsValue) (fields : list (string * JsValue)).

(** What a [throw] carries: an [Error] object with its message, or any
    other value, kept as [String(value)]. *)
Inductive Thrown :=
| ErrorObject (message : string)
| NonError (rendered : string).

(** [error instanceof Error ? error.message : String(error)] *)
Definition errorText (e : Thrown) : string :=
  match e with
  | ErrorObject message => message
  | NonError rendered => rendered
  end.

(** JavaScript truthiness. *)
Definition truthy (v : JsValue) : bool :=
  match v with
  | VUndefined | VNull => false
  | VBool b => b
  | VNum n => negb (Qeq_bool n 0)
  | VStr s => negb (String.eqb s "")
  | VDate _ | VArr _ | VObj _ | VAugmented _ _ => true
  end.

Fixpoint lookup {A : Type} (key : string) (fields : list (string * A)) : option A :=
  match fields with
  | [] => None
  | (k, v) :: rest => if String.eqb k key then Some v else lookup key rest
  end.

(** [object[key] = value]: replaces the property in place when it exists,
    appends it otherwise. *)
Fixpoint assign {A : Type} (key : string) (value : A) (fields : list (string * A))
  : list (string * A) :=
  match fields with
  | [] => [(key, value)]
  | (k, v) :: rest =>
      if String.eqb k key then (k, value) :: rest else (k, v) :: assign key value rest
  end.

(** [record.key] on a parameter map: [undefined] when the key is absent. *)
Definition param (key : string) (fields : list (string * JsValue)) : JsValue :=
  match lookup key fields with
  | Some v => v
  | None => VUndefined
  end.

(** [s || fallback] on a string: the empty string is falsy. *)
Definition orDefault (s fallback : string) : string :=
  if String.eqb s "" then fallback else s.

(** [s || ''] on an optional string. *)
Definition orEmpty (s : option string) : string :=
  match s with Some s => s | None => "" end.

(** [Array.prototype.join]. *)
Fixpoint join (sep : string) (parts : list string) : string :=
  match parts with
  | [] => ""
  | [x] => x
  | x :: rest => x ++ sep ++ join sep rest
  end.

(** [String.prototype.includes]. *)
Fixpoint includes (haystack needle : string) : bool :=
  String.prefix needle haystack ||
  match haystack with
  | EmptyString => false
  | String _ rest => includes rest needle
  end.

(** [String.prototype.toLowerCase], for text held as bytes: the letters A-Z
    change, every other byte is kept.  This agrees with JavaScript on the
    four tests [s.toLowerCase().includes(k)] of the classifier: the only
    other characters whose lower case contains an ASCII letter give "k"
    and "i" followed by a combining dot, and no keyword contains "k" or
    ends in "i". *)
Definition lowerChar (c : ascii) : ascii :=
  let n := nat_of_ascii c in
  if ((65 <=? n) && (n <=? 90))%nat then ascii_of_nat (n + 32) else c.

Fixpoint toLowerCase (s : string) : string :=
  match s with
  | EmptyString => EmptyString
  | String c rest => String (lowerChar c) (toLowerCase rest)
  end.

(** A count in a template literal: [`${n}`]. *)
Definition natToString (n : nat) : string :=
  NilZero.string_of_uint (Nat.to_uint n).

(** The longest prefix without the character [stop]. *)
Fixpoint takeUntil (stop : ascii) (s : string) : string :=
  match s with
  | EmptyString => EmptyString
  | String c rest => if Ascii.eqb c stop then EmptyString else String c (takeUntil stop rest)
  end.

(** [s.split('\n')[0]] *)
Definition firstLine (s : string) : string := takeUntil (ascii_of_nat 10) s.

(** [s.startsWith(p) ? s.slice(p.length) : undefined] *)
Fixpoint dropPrefix (p s : string) : option string :=
  match p, s with
  | EmptyString, _ => Some s
  | String a p', String b s' => if Ascii.eqb a b then dropPrefix p' s' else None
  | String _ _, EmptyString => None
  end.

(* ================================================================= *)
(** ** Core types *)

(** [interface MetricData]; [num] is the type of the samples. *)
Record MetricData (num : Type) := {
  metricName : string;
  namespace : string;
  dimensions : list (string * string);
  timestamps : list Date;
  values : list num;
  unit_ : string
}.

Arguments metricName {num} _.
Arguments namespace {num} _.
Arguments dimensions {num} _.
Arguments timestamps {num} _.
Arguments values {num} _.
Arguments unit_ {num} _.

(* ================================================================= *)
(** ** Telemetry analyzer ([CloudWatchService.analyzeMetricAnomalies]) *)

(** The analyzer on real numbers: what the code computes when no
    operation rounds. *)
Module Telemetry.

Local Open Scope R_scope.

(** One flagged sample: [{ timestamp, value, zscore }].  [timestamp] is
    [metricData.timestamps[index]], which is [undefined] ([None]) when the
    timestamp array is shorter than the value array. *)
Record Anomaly := {
  timestamp : option Date;
  value : R;
  zscore : R
}.

Record AnomalyReport := {
  hasAnomaly : bool;
  anomalies : list Anomaly
}.

(** [values.reduce((a, b) => a + b, 0) / values.length] *)
Definition mean (vs : list R) : R :=
  fold_left (fun a b => a + b) vs 0 / INR (List.length vs).

(** [values.reduce((sum, val) => sum + Math.pow(val - mean, 2), 0) / values.length] *)
Definition variance (vs : list R) : R :=
  fold_left (fun sum val => sum + (val - mean vs) ^ 2) vs 0 / INR (List.length vs).

(** [Math.sqrt(variance)] *)
Definition stdDev (vs : list R) : R := sqrt (variance vs).

(** [stdDev === 0 ? 0 : Math.abs((value - mean) / stdDev)] *)
Definition zscoreOf (vs : list R) (v : R) : R :=
  if Req_dec_T (stdDev vs) 0 then 0 else Rabs ((v - mean vs) / stdDev vs).

(** [Array.prototype.map] with the element index. *)
Fixpoint mapi_from {A B : Type} (f : A -> nat -> B) (i : nat) (l : list A) : list B :=
  match l with
  | [] => []
  | x :: l' => f x i :: mapi_from f (S i) l'
  end.

Definition mapi {A B : Type} (f : A -> nat -> B) (l : list A) : list B :=
  mapi_from f 0 l.

(** [item.zscore > threshold] *)
Definition exceeds (threshold : R) (item : Anomaly) : bool :=
  if Rgt_dec (zscore item) threshold then true else false.

Definition analyzeMetricAnomalies (metricData : MetricData R) (threshold : R)
  : AnomalyReport :=
  if (List.length (values metricData) <? 3)%nat then
    {| hasAnomaly := false; anomalies := [] |}
  else
    let anomalies :=
      filter (exceeds threshold)
        (mapi (fun value index =>
                 {| timestamp := nth_error (timestamps metricData) index;
                    value := value;
                    zscore := zscoreOf (values metricData) value |})
              (values metricData)) in
    {| hasAnomaly := (0 <? List.length anomalies)%nat; anomalies := anomalies |}.

(** The series of the unit test "should detect anomalies using z-score". *)
Definition series_1_2_1_10 : MetricData R :=
  {| metricName := "Errors"; namespace := "AWS/Lambda";
     dimensions := [("FunctionName", "test")];
     timestamps := [1704067200000; 1704070800000; 1704074400000; 1704078000000]%Z;
     values := [1; 2; 1; 10];
     unit_ := "Count" |}.

End Telemetry.

(** The analyzer on IEEE binary64 numbers, as the code computes: every
    operation rounds to the nearest double. *)
Module Telemetry64.

Import PrimFloat.
Local Open Scope float_scope.

Record Anomaly := {
  timestamp : option Date;
  value : float;
  zscore : float
}.

Record AnomalyReport := {
  hasAnomaly : bool;
  anomalies : list Anomaly
}.

(** [values.length] as a number (exact below 2^53). *)
Definition lengthOf (vs : list float) : float :=
  of_uint63 (Uint63.of_Z (Z.of_nat (List.length vs))).

Section Analyzer.

(** [Math.pow(x, 2)].  The language leaves the precision of [Math.pow] to
    the implementation. *)
Variable square : float -> float.

(** [values.reduce((a, b) => a + b, 0) / values.length] *)
Definition mean (vs : list float) : float :=
  fold_left (fun a b => a + b) vs 0 / lengthOf vs.

(** [values.reduce((sum, val) => sum + Math.pow(val - mean, 2), 0) / values.length] *)
Definition variance (vs : list float) : float :=
  fold_left (fun sum val => sum + square (val - mean vs)) vs 0 / lengthOf vs.

(** [Math.sqrt(variance)] *)
Definition stdDev (vs : list float) : float := sqrt (variance vs).

(** [stdDev === 0 ? 0 : Math.abs((value - mean) / stdDev)] *)
Definition zscoreOf (vs : list float) (v : float) : float :=
  if stdDev vs =? 0 then 0 else abs ((v - mean vs) / stdDev vs).

(** [item.zscore > threshold] *)
Definition exceeds (threshold : float) (item : Anomaly) : bool :=
  threshold <? zscore item.

Definition analyzeMetricAnomalies (metricData : MetricData float) (threshold : float)
  : AnomalyReport :=
  if (List.length (values metricData) <? 3)%nat then
    {| hasAnomaly := false; anomalies := [] |}
  else
    let anomalies :=
      filter (exceeds threshold)
        (Telemetry.mapi (fun value index =>
                 {| timestamp := nth_error (timestamps metricData) index;
                    value := value;
                    zscore := zscoreOf (values metricData) value |})
              (values metricData)) in
    {| hasAnomaly := (0 <? List.length anomalies)%nat; anomalies := anomalies |}.

End Analyzer.

(** The square as a product, which is what an implementation of
    [Math.pow] after fdlibm, such as V8's, returns for the exponent 2. *)
Definition product (x : float) : float := x * x.

(** The double that the literal [0.1] denotes. *)
Definition tenth : float := 0x1.999999999999ap-4.

Definition series (samples : list float) : MetricData float :=
  {| metricName := "Errors"; namespace := "AWS/Lambda";
     dimensions := [("FunctionName", "test")];
     timestamps := [0; 60000; 120000; 180000]%Z;
     values := samples;
     unit_ := "Count" |}.

(** Constant series of three samples, and the series of the unit test
    "should detect anomalies using z-score". *)
Definition series_5_5_5 : MetricData float := series [5; 5; 5].
Definition series_tenths : MetricData float := series [tenth; tenth; tenth].
Definition series_1_2_1_10 : MetricData float := series [1; 2; 1; 10].

End Telemetry64.

(* ================================================================= *)
(** ** Data contracts of the core (the [types] module) *)

Inductive Severity := Critical | High | Medium | Low.
Inductive ResourceType := RtLambda | RtEcs | RtEc2 | RtRds.
Inductive IncidentStatus := Open | Investigating | Remediating | Resolved | Failed.

Record Incident := {
  incident_id : string;
  incident_timestamp : Date;
  incident_severity : Severity;
  incident_resourceArn : string;
  incident_resourceType : ResourceType;
  incident_description : string;
  incident_metrics : option (list (string * Q));
  incident_logs : option (list string);
  incident_status : IncidentStatus
}.

Record LogEntry := {
  log_timestamp : Date;
  log_message : string;
  log_level : string;
  log_requestId : option string
}.

Record DiagnosisResult := {
  diag_rootCause : string;
  diag_confidence : Q;
  diag_affectedComponents : list string;
  diag_relatedMetrics : list string;
  diag_reasoning : string;
  diag_timestamp : Date
}.

Inductive ActionType :=
  UpdateConfig | RestartService | ScaleResources | Rollback | Custom.

Inductive RemediationAction := {
  action_id : string;
  action_type : ActionType;
  action_description : string;
  action_parameters : list (string * JsValue);
  action_rollbackPlan : option (list RemediationAction);
  action_order : Z
}.

Inductive SafetyCheckType :=
  RateLimit | ResourceLimit | DependencyCheck | RollbackAvailable.

Record SafetyCheck := {
  check_type : SafetyCheckType;
  check_description : string;
  check_passed : bool;
  check_details : option string
}.

Record RemediationPlan := {
  plan_id : string;
  plan_incidentId : string;
  plan_actions : list RemediationAction;
  plan_estimatedImpact : string;
  plan_safetyChecks : list SafetyCheck;
  plan_approvalRequired : bool;
  plan_createdAt : Date
}.

Record ExecutionResult := {
  result_actionId : string;
  result_success : bool;
  result_executedAt : Date;
  result_output : option JsValue;
  result_error : option string;
  result_rollbackExecuted : option bool
}.

Record VerificationCheck := {
  vcheck_name : string;
  vcheck_passed : bool;
  vcheck_details : string
}.

Record VerificationResult := {
  verification_success : bool;
  verification_timestamp : Date;
  verification_checks : list VerificationCheck;
  verification_metricsImproved : bool
}.

Inductive Actor := System | User.
Inductive AuditOutcome := AuditSuccess | AuditFailure.

(** [Omit<AuditEntry, 'id'>], the argument of [logAudit]. *)
Record AuditEntry := {
  audit_incidentId : string;
  audit_timestamp : Date;
  audit_action : string;
  audit_actor : Actor;
  audit_details : JsValue;
  audit_result : AuditOutcome
}.

Inductive Role := RoleUser | RoleAssistant.

Record ToolUse := {
  use_toolUseId : string;
  use_name : string;
  use_input : JsValue
}.

Record ToolResult := {
  tr_toolUseId : string;
  tr_content : JsValue;
  tr_status : option string
}.

(** [content: string | ToolUse[] | ToolResult[]] *)
Inductive MessageContent :=
| Text (text : string)
| ToolUses (uses : list ToolUse)
| ToolResults (results : list ToolResult).

Record Message := {
  msg_role : Role;
  msg_content : MessageContent
}.

Record ToolDefinition := {
  spec_name : string;
  spec_description : string;
  spec_inputSchema : JsValue
}.

Record ToolConfiguration := {
  tools : list ToolDefinition;
  toolChoice : option JsValue
}.

Record BedrockRequest := {
  req_modelId : string;
  req_messages : list Message;
  req_temperature : option Q;
  req_maxTokens : option Z;
  req_toolConfig : option ToolConfiguration
}.

(** The SDK's [ContentBlock] union: a text block, a tool-use block (whose
    members are all optional in a response), a tool-result block, or one
    of the other kinds (image, document, ...). *)
Inductive ContentBlock :=
| CbText (text : string)
| CbToolUse (toolUseId name : option string) (input : option JsValue)
| CbToolResult (toolUseId : string) (json : JsValue) (status : string)
| CbOther.

Record BedrockMessage := {
  bmsg_role : Role;
  bmsg_content : option (list ContentBlock)
}.

(** [ConverseCommandInput] as [converse] fills it. *)
Record ConverseCommandInput := {
  in_modelId : string;
  in_messages : list BedrockMessage;
  in_temperature : Q;
  in_maxTokens : Z;
  in_toolConfig : option ToolConfiguration
}.

(** [ConverseCommandOutput]: [output?.message]. *)
Record ConverseCommandOutput := {
  output_message : option BedrockMessage
}.

(** Argument of [LambdaService.updateFunctionConfig]. *)
Record ConfigUpdates := {
  upd_timeout : JsValue;
  upd_memorySize : JsValue;
  upd_environment : option JsValue
}.

Inductive InvocationType := RequestResponse | Event | DryRun.

(** Result of [LambdaService.invokeFunction]. *)
Record InvokeResult := {
  inv_statusCode : Z;
  inv_payload : JsValue;
  inv_executedVersion : option string;
  inv_functionError : option string
}.

(** Result of [LambdaService.checkFunctionHealth]. *)
Record Health := {
  healthy : bool;
  issues : list string
}.

(* ================================================================= *)
(** ** The outside world and the monad of [async] code *)

(** One call that leaves the core: to a method of one of the collaborating
    services, to the Bedrock runtime client, to the clock or to the UUID
    generator. *)
Inductive Call :=
| BedrockSend (input : ConverseCommandInput)
| GetLambdaMetrics (functionName : string) (startTime endTime : Date)
| QueryLogs (logGroupName : JsValue) (startTime endTime : Date) (filterPattern : JsValue)
| GetMetrics (namespace metricName dimensions : JsValue) (startTime endTime : Date)
| GetFunctionConfig (functionName : JsValue)
| UpdateFunctionConfig (functionName : JsValue) (updates : ConfigUpdates)
| InvokeFunction (functionName payload : JsValue) (invocationType : InvocationType)
| CheckFunctionHealth (functionName : string)
| SaveIncident (incident : Incident)
| UpdateIncidentStatus (incidentId : string) (status : IncidentStatus) (details : option JsValue)
| SaveRemediationPlan (plan : RemediationPlan)
| LogAudit (entry : AuditEntry)
| LogActionExecution (incidentId actionId : string) (result : AuditOutcome) (details : JsValue)
| NewDate
| Uuidv4.

(** The calls made so far, oldest first. *)
Definition History := list Call.

(** Outcome of a computation: a value, or a thrown exception. *)
Inductive Res (A : Type) :=
| Ok (a : A)
| Throw (e : Thrown).

Arguments Ok {A} a.
Arguments Throw {A} e.

(** The collaborators.  Each answers a call as a function of the calls made
    before it and of its arguments; the last fields are pure functions of
    the JavaScript runtime. *)
Record Env := {
  bedrock_send : History -> ConverseCommandInput -> Res ConverseCommandOutput;
  cw_getLambdaMetrics : History -> string -> Date -> Date -> Res (list (string * MetricData Q));
  cw_queryLogs : History -> JsValue -> Date -> Date -> JsValue -> Res (list LogEntry);
  cw_getMetrics : History -> JsValue -> JsValue -> JsValue -> Date -> Date -> Res (MetricData Q);
  lambda_getFunctionConfig : History -> JsValue -> Res JsValue;
  lambda_updateFunctionConfig : History -> JsValue -> ConfigUpdates -> Res JsValue;
  lambda_invokeFunction : History -> JsValue -> JsValue -> InvocationType -> Res InvokeResult;
  lambda_checkFunctionHealth : History -> string -> Res Health;
  db_saveIncident : History -> Incident -> Res unit;
  db_updateIncidentStatus : History -> string -> IncidentStatus -> option JsValue -> Res unit;
  db_saveRemediationPlan : History -> RemediationPlan -> Res unit;
  db_logAudit : History -> AuditEntry -> Res unit;
  db_logActionExecution : History -> string -> string -> AuditOutcome -> JsValue -> Res unit;
  sys_now : History -> Date;
  sys_uuid : History -> string;
  js_stringify : JsValue -> string;
  js_toISOString : Date -> string;
  js_parseDate : JsValue -> Date;
  js_numberToString : Q -> string
}.

(** An [async] computation: from the history to an outcome and the
    extended history. *)
Definition M (A : Type) : Type := History -> Res A * History.

Definition ret {A : Type} (a : A) : M A := fun h => (Ok a, h).

Definition throw {A : Type} (e : Thrown) : M A := fun h => (Throw e, h).

Definition bind {A B : Type} (m : M A) (k : A -> M B) : M B :=
  fun h =>
    match m h with
    | (Ok a, h') => k a h'
    | (Throw e, h') => (Throw e, h')
    end.

(** [try { body } catch (error) { handler }] *)
Definition try_catch {A : Type} (body : M A) (handler : Thrown -> M A) : M A :=
  fun h =>
    match body h with
    | (Ok a, h') => (Ok a, h')
    | (Throw e, h') => handler e h'
    end.

(** Performs the call [c]; [answer] is the collaborator's reply given the
    earlier history. *)
Definition perform {A : Type} (c : Call) (answer : History -> Res A) : M A :=
  fun h => (answer h, h ++ [c]).

Declare Scope async_scope.
Delimit Scope async_scope with async.
Bind Scope async_scope with M.

Notation "x <- m ;; k" := (bind m (fun x => k))
  (at level 61, m at next level, right associativity) : async_scope.
Notation "m ;; k" := (bind m (fun _ => k))
  (at level 61, right associativity) : async_scope.

Open Scope async_scope.

(** [new Date()] *)
Definition newDate (env : Env) : M Date :=
  perform NewDate (fun h => Ok (sys_now env h)).

(** [uuidv4()] *)
Definition uuidv4 (env : Env) : M string :=
  perform Uuidv4 (fun h => Ok (sys_uuid env h)).

(** [value.key]: a [TypeError] on [undefined] and [null], [undefined] when
    the property is absent. *)
Definition member (value : JsValue) (key : string) : M JsValue :=
  match value with
  | VUndefined =>
      throw (ErrorObject ("Cannot read properties of undefined (reading '" ++ key ++ "')"))
  | VNull =>
      throw (ErrorObject ("Cannot read properties of null (reading '" ++ key ++ "')"))
  | VObj fields | VAugmented _ fields => ret (param key fields)
  | _ => ret VUndefined
  end.

(** [value?.key] *)
Definition optionalMember (value : JsValue) (key : string) : JsValue :=
  match value with
  | VObj fields | VAugmented _ fields => param key fields
  | _ => VUndefined
  end.

(** [object[key] = value] in strict mode (the body of a class): the
    property is set on an object, also on an array or a date; on a
    primitive it is a [TypeError] that quotes the type and the value. *)
Definition setMember (env : Env) (object : JsValue) (key : string) (value : JsValue)
  : M JsValue :=
  match object with
  | VObj fields => ret (VObj (assign key value fields))
  | VArr _ | VDate _ => ret (VAugmented object [(key, value)])
  | VAugmented carrier fields => ret (VAugmented carrier (assign key value fields))
  | VUndefined =>
      throw (ErrorObject ("Cannot set properties of undefined (setting '" ++ key ++ "')"))
  | VNull =>
      throw (ErrorObject ("Cannot set properties of null (setting '" ++ key ++ "')"))
  | VBool b =>
      throw (ErrorObject ("Cannot create property '" ++ key ++ "' on boolean '"
                          ++ (if b then "true" else "false") ++ "'"))
  | VNum n =>
      throw (ErrorObject ("Cannot create property '" ++ key ++ "' on number '"
                          ++ js_numberToString env n ++ "'"))
  | VStr s =>
      throw (ErrorObject ("Cannot create property '" ++ key ++ "' on string '"
                          ++ s ++ "'"))
  end.

(* ----------------------------------------------------------------- *)
(** *** The collaborating services, as the agent calls them *)

Module CloudWatch.

Definition getLambdaMetrics (env : Env) (functionName : string) (startTime endTime : Date)
  : M (list (string * MetricData Q)) :=
  perform (GetLambdaMetrics functionName startTime endTime)
          (fun h => cw_getLambdaMetrics env h functionName startTime endTime).

Definition queryLogs (env : Env) (logGroupName : JsValue) (startTime endTime : Date)
    (filterPattern : JsValue) : M (list LogEntry) :=
  perform (QueryLogs logGroupName startTime endTime filterPattern)
          (fun h => cw_queryLogs env h logGroupName startTime endTime filterPattern).

Definition getMetrics (env : Env) (namespace metricName dimensions : JsValue)
    (startTime endTime : Date) : M (MetricData Q) :=
  perform (GetMetrics namespace metricName dimensions startTime endTime)
          (fun h => cw_getMetrics env h namespace metricName dimensions startTime endTime).

End CloudWatch.

Module Lambda.

Definition getFunctionConfig (env : Env) (functionName : JsValue) : M JsValue :=
  perform (GetFunctionConfig functionName)
          (fun h => lambda_getFunctionConfig env h functionName).

Definition updateFunctionConfig (env : Env) (functionName : JsValue) (updates : ConfigUpdates)
  : M JsValue :=
  perform (UpdateFunctionConfig functionName updates)
          (fun h => lambda_updateFunctionConfig env h functionName updates).

Definition invokeFunction (env : Env) (functionName payload : JsValue)
    (invocationType : InvocationType) : M InvokeResult :=
  perform (InvokeFunction functionName payload invocationType)
          (fun h => lambda_invokeFunction env h functionName payload invocationType).

Definition checkFunctionHealth (env : Env) (functionName : string) : M Health :=
  perform (CheckFunctionHealth functionName)
          (fun h => lambda_checkFunctionHealth env h functionName).

End Lambda.

Module DynamoDB.

Definition saveIncident (env : Env) (incident : Incident) : M unit :=
  perform (SaveIncident incident) (fun h => db_saveIncident env h incident).

Definition updateIncidentStatus (env : Env) (incidentId : string) (status : IncidentStatus)
    (details : option JsValue) : M unit :=
  perform (UpdateIncidentStatus incidentId status details)
          (fun h => db_updateIncidentStatus env h incidentId status details).

Definition saveRemediationPlan (env : Env) (plan : RemediationPlan) : M unit :=
  perform (SaveRemediationPlan plan) (fun h => db_saveRemediationPlan env h plan).

Definition logAudit (env : Env) (entry : AuditEntry) : M unit :=
  perform (LogAudit entry) (fun h => db_logAudit env h entry).

Definition logActionExecution (env : Env) (incidentId actionId : string)
    (result : AuditOutcome) (details : JsValue) : M unit :=
  perform (LogActionExecution incidentId actionId result details)
          (fun h => db_logActionExecution env h incidentId actionId result details).

End DynamoDB.

(* ================================================================= *)
(** ** The reasoning service ([BedrockService]) *)

Module Bedrock.

(** The constructor's default [modelId]. *)
Definition defaultModelId : string := "anthropic.claude-3-sonnet-20240229-v1:0".

Definition formatMessages (messages : list Message) : list BedrockMessage :=
  map (fun msg =>
         let content :=
           match msg_content msg with
           | Text text => [CbText text]
           | ToolUses items =>
               map (fun item =>
                      CbToolUse (Some (use_toolUseId item)) (Some (use_name item))
                                (Some (use_input item)))
                   items
           | ToolResults items =>
               map (fun item =>
                      CbToolResult (tr_toolUseId item) (tr_content item)
                        (match tr_status item with
                         | Some status => orDefault status "success"
                         | None => "success"
                         end))
                   items
           end in
         {| bmsg_role := msg_role msg; bmsg_content := Some content |})
      messages.

Definition formatToolConfig (toolConfig : ToolConfiguration) : ToolConfiguration :=
  {| tools :=
       map (fun tool =>
              {| spec_name := spec_name tool;
                 spec_description := spec_description tool;
                 spec_inputSchema := spec_inputSchema tool |})
           (tools toolConfig);
     toolChoice :=
       Some (match toolChoice toolConfig with
             | Some choice => if truthy choice then choice else VObj [("auto", VObj [])]
             | None => VObj [("auto", VObj [])]
             end) |}.

(** Send a message to Bedrock and get a response. *)
Definition converse (env : Env) (request : BedrockRequest) : M ConverseCommandOutput :=
  let input :=
    {| in_modelId := orDefault (req_modelId request) defaultModelId;
       in_messages := formatMessages (req_messages request);
       in_temperature :=
         match req_temperature request with Some t => t | None => 7 # 10 end;
       in_maxTokens :=
         match req_maxTokens request with Some n => n | None => 4096%Z end;
       in_toolConfig := option_map formatToolConfig (req_toolConfig request) |} in
  perform (BedrockSend input) (fun h => bedrock_send env h input).

(** [block.text] is truthy *)
Definition hasText (block : ContentBlock) : bool :=
  match block with
  | CbText text => negb (String.eqb text "")
  | _ => false
  end.

Definition blockText (block : ContentBlock) : string :=
  match block with
  | CbText text => text
  | _ => ""
  end.

(** Extract text from content blocks. *)
Definition extractTextFromContent (content : list ContentBlock) : string :=
  join nl (map blockText (filter hasText content)).

(** Extract text from a Bedrock response. *)
Definition extractTextFromResponse (response : ConverseCommandOutput) : string :=
  match output_message response with
  | Some message =>
      match bmsg_content message with
      | Some content => extractTextFromContent content
      | None => ""
      end
  | None => ""
  end.

Definition diagnosisSystemPrompt : string :=
  "You are OpsPilot AI, an expert AWS incident response agent. " ++ nl ++
  "Analyze the provided incident data, metrics, and logs to diagnose the root cause." ++ nl ++
  "Provide a clear, actionable diagnosis with high confidence based on the evidence.".

Definition diagnosisUserMessage (env : Env) (incidentDescription : string)
    (metrics : JsValue) (logs : list string) : string :=
  "Incident: " ++ incidentDescription ++ nl ++ nl ++
  "Metrics:" ++ nl ++ js_stringify env metrics ++ nl ++ nl ++
  "Recent Error Logs:" ++ nl ++ join nl (firstn 10 logs) ++ nl ++ nl ++
  "Please diagnose the root cause and provide:" ++ nl ++
  "1. Primary root cause" ++ nl ++
  "2. Confidence level (0-1)" ++ nl ++
  "3. Affected components" ++ nl ++
  "4. Recommended remediation approach".

(** Diagnose an incident using AI: one request, no iteration. *)
Definition diagnoseIncident (env : Env) (incidentDescription : string)
    (metrics : JsValue) (logs : list string) (tools : option ToolConfiguration)
  : M string :=
  let request :=
    {| req_modelId := defaultModelId;
       req_messages :=
         [ {| msg_role := RoleUser; msg_content := Text diagnosisSystemPrompt |};
           {| msg_role := RoleAssistant;
              msg_content :=
                Text "I understand. I will analyze AWS incidents and provide expert diagnosis." |};
           {| msg_role := RoleUser;
              msg_content := Text (diagnosisUserMessage env incidentDescription metrics logs) |} ];
       req_temperature := Some (3 # 10);
       req_maxTokens := Some 2048%Z;
       req_toolConfig := tools |} in
  response <- converse env request ;;
  ret (extractTextFromResponse response).

Definition remediationPrompt (env : Env) (diagnosis resourceArn : string)
    (currentConfig : JsValue) : string :=
  "Based on the following diagnosis, generate a safe remediation plan:" ++ nl ++ nl ++
  "Diagnosis: " ++ diagnosis ++ nl ++
  "Resource ARN: " ++ resourceArn ++ nl ++
  "Current Configuration:" ++ nl ++ js_stringify env currentConfig ++ nl ++ nl ++
  "Generate a remediation plan that includes:" ++ nl ++
  "1. Specific actions to take (in order)" ++ nl ++
  "2. Safety guardrails and checks" ++ nl ++
  "3. Rollback procedures" ++ nl ++
  "4. Expected impact and risks" ++ nl ++
  "5. Whether human approval is required" ++ nl ++ nl ++
  "Focus on safe, incremental changes that can be automatically executed.".

(** Generate a remediation plan using AI. *)
Definition generateRemediationPlan (env : Env) (diagnosis resourceArn : string)
    (currentConfig : JsValue) : M string :=
  let request :=
    {| req_modelId := defaultModelId;
       req_messages :=
         [ {| msg_role := RoleUser;
              msg_content := Text (remediationPrompt env diagnosis resourceArn currentConfig) |} ];
       req_temperature := Some (2 # 10);
       req_maxTokens := Some 2048%Z;
       req_toolConfig := None |} in
  response <- converse env request ;;
  ret (extractTextFromResponse response).

(** *** The tool-calling loop ([executeAgenticWorkflow]) *)

(** One entry of [toolCalls]: [{ tool, input, output }]. *)
Record ToolCall := {
  call_tool : string;
  call_input : JsValue;
  call_output : JsValue
}.

Record WorkflowResult := {
  finalResponse : string;
  toolCalls : list ToolCall;
  iterations : nat
}.

(** The local variables of the loop. *)
Record LoopState := {
  st_messages : list Message;
  st_toolCalls : list ToolCall;
  st_iterations : nat
}.

(** [(block.toolUse.input as Record<string, any>) || {}] *)
Definition orEmptyObject (v : option JsValue) : JsValue :=
  match v with
  | Some v => if truthy v then v else VObj []
  | None => VObj []
  end.

(** The [for (const block of content)] scan: the tool-use requests of a
    response, in order. *)
Fixpoint collectToolUses (content : list ContentBlock) : list ToolUse :=
  match content with
  | [] => []
  | CbToolUse toolUseId name input :: rest =>
      {| use_toolUseId := orEmpty toolUseId;
         use_name := orEmpty name;
         use_input := orEmptyObject input |} :: collectToolUses rest
  | _ :: rest => collectToolUses rest
  end.

(** [{ success: true, data: `Executed ${toolUse.name}` }] *)
Definition mockOutput (toolUse : ToolUse) : JsValue :=
  VObj [("success", VBool true); ("data", VStr ("Executed " ++ use_name toolUse))].

Definition recordedCall (toolUse : ToolUse) : ToolCall :=
  {| call_tool := use_name toolUse;
     call_input := use_input toolUse;
     call_output := mockOutput toolUse |}.

Definition mockResult (toolUse : ToolUse) : ToolResult :=
  {| tr_toolUseId := use_toolUseId toolUse;
     tr_content := mockOutput toolUse;
     tr_status := Some "success" |}.

(** One pass through the body of the [while] loop; the boolean is [false]
    when the body leaves the loop through [break]. *)
Definition iteration (env : Env) (tools : ToolConfiguration) (st : LoopState)
  : M (bool * LoopState) :=
  let iterations := S (st_iterations st) in
  let request :=
    {| req_modelId := defaultModelId;
       req_messages := st_messages st;
       req_temperature := Some (5 # 10);
       req_maxTokens := None;
       req_toolConfig := Some tools |} in
  response <- converse env request ;;
  let stopped :=
    {| st_messages := st_messages st;
       st_toolCalls := st_toolCalls st;
       st_iterations := iterations |} in
  match output_message response with
  | None => ret (false, stopped)
  | Some message =>
      match bmsg_content message with
      | None => ret (false, stopped)
      | Some content =>
          let toolUses := collectToolUses content in
          let messages :=
            st_messages st ++
            [ {| msg_role := RoleAssistant;
                 msg_content :=
                   if (0 <? List.length toolUses)%nat
                   then ToolUses toolUses
                   else Text (extractTextFromContent content) |} ] in
          if (List.length toolUses =? 0)%nat then
            ret (false, {| st_messages := messages;
                           st_toolCalls := st_toolCalls st;
                           st_iterations := iterations |})
          else
            let toolResults := map mockResult toolUses in
            ret (true, {| st_messages :=
                            messages ++
                            [ {| msg_role := RoleUser;
                                 msg_content := ToolResults toolResults |} ];
                          st_toolCalls := st_toolCalls st ++ map recordedCall toolUses;
                          st_iterations := iterations |})
      end
  end.

(** [while (iterations < maxIterations) { ... }]: [remaining] is
    [maxIterations - iterations]. *)
Fixpoint loop (env : Env) (tools : ToolConfiguration) (remaining : nat) (st : LoopState)
  : M LoopState :=
  match remaining with
  | O => ret st
  | S remaining' =>
      step <- iteration env tools st ;;
      if fst step then loop env tools remaining' (snd step) else ret (snd step)
  end.

(** [String(content)] of a message content. *)
Definition contentToString (content : MessageContent) : string :=
  match content with
  | Text text => text
  | ToolUses items => join "," (map (fun _ => "[object Object]") items)
  | ToolResults items => join "," (map (fun _ => "[object Object]") items)
  end.

(** [messages[messages.length - 1].role === 'assistant'
     ? String(messages[messages.length - 1].content) : 'Workflow completed'] *)
Definition finalResponseOf (messages : list Message) : string :=
  match last (map Some messages) None with
  | Some message =>
      match msg_role message with
      | RoleAssistant => contentToString (msg_content message)
      | RoleUser => "Workflow completed"
      end
  | None => "Workflow completed"
  end.

(** The variables before the loop: the conversation seeded with the task
    prompt as a single user turn, no tool call, no iteration. *)
Definition initialState (initialPrompt : string) : LoopState :=
  {| st_messages := [ {| msg_role := RoleUser; msg_content := Text initialPrompt |} ];
     st_toolCalls := [];
     st_iterations := 0 |}.

(** The request of one iteration, as [converse] sends it. *)
Definition iterationInput (tools : ToolConfiguration) (st : LoopState)
  : ConverseCommandInput :=
  {| in_modelId := orDefault defaultModelId defaultModelId;
     in_messages := formatMessages (st_messages st);
     in_temperature := 5 # 10;
     in_maxTokens := 4096%Z;
     in_toolConfig := Some (formatToolConfig tools) |}.

(** Execute agentic workflow with tool use.  [maxIterations] is the
    iteration budget, a count (default 10). *)
Definition executeAgenticWorkflow (env : Env) (initialPrompt : string)
    (tools : ToolConfiguration) (maxIterations : nat) : M WorkflowResult :=
  st <- loop env tools maxIterations (initialState initialPrompt) ;;
  ret {| finalResponse := finalResponseOf (st_messages st);
         toolCalls := st_toolCalls st;
         iterations := st_iterations st |}.

End Bedrock.

(* ================================================================= *)
(** ** The agent ([OpsPilotAgent]) *)

Module Agent.

(** [interface Tool]: a declared tool and the function that runs it. *)
Record Tool := {
  tool_name : string;
  tool_description : string;
  tool_parameters : JsValue;
  tool_execute : JsValue -> M JsValue
}.

Definition metricDataValue (m : MetricData Q) : JsValue :=
  VObj [ ("metricName", VStr (metricName m));
         ("namespace", VStr (namespace m));
         ("dimensions", VObj (map (fun kv => (fst kv, VStr (snd kv))) (dimensions m)));
         ("timestamps", VArr (map VDate (timestamps m)));
         ("values", VArr (map VNum (values m)));
         ("unit", VStr (unit_ m)) ].

Definition logEntryValue (e : LogEntry) : JsValue :=
  VObj [ ("timestamp", VDate (log_timestamp e));
         ("message", VStr (log_message e));
         ("level", VStr (log_level e));
         ("requestId", match log_requestId e with Some r => VStr r | None => VUndefined end) ].

Definition invokeResultValue (r : InvokeResult) : JsValue :=
  VObj [ ("statusCode", VNum (inject_Z (inv_statusCode r)));
         ("payload", inv_payload r);
         ("executedVersion",
          match inv_executedVersion r with Some v => VStr v | None => VUndefined end);
         ("functionError",
          match inv_functionError r with Some v => VStr v | None => VUndefined end) ].

Definition schema (properties : list (string * string)) (required : list string) : JsValue :=
  VObj [ ("type", VStr "object");
         ("properties",
          VObj (map (fun p => (fst p, VObj [("type", VStr (snd p))])) properties));
         ("required", VArr (map VStr required)) ].

(** [params.startTime ? new Date(params.startTime) : new Date(Date.now() - 3600000)] *)
Definition startTimeOf (env : Env) (params : JsValue) : M Date :=
  given <- member params "startTime" ;;
  if truthy given then ret (js_parseDate env given)
  else (now <- newDate env ;; ret (now - 3600000)%Z).

(** [params.endTime ? new Date(params.endTime) : new Date()] *)
Definition endTimeOf (env : Env) (params : JsValue) : M Date :=
  given <- member params "endTime" ;;
  if truthy given then ret (js_parseDate env given) else newDate env.

(** Initialize available tools for the agent. *)
Definition initializeTools (env : Env) : list Tool :=
  [ {| tool_name := "get_cloudwatch_metrics";
       tool_description := "Retrieve CloudWatch metrics for analysis";
       tool_parameters :=
         schema [("namespace", "string"); ("metricName", "string"); ("dimensions", "object");
                 ("startTime", "string"); ("endTime", "string")]
                ["namespace"; "metricName"; "dimensions"];
       tool_execute := fun params =>
         startTime <- startTimeOf env params ;;
         endTime <- endTimeOf env params ;;
         namespace <- member params "namespace" ;;
         metricName <- member params "metricName" ;;
         dimensions <- member params "dimensions" ;;
         data <- CloudWatch.getMetrics env namespace metricName dimensions startTime endTime ;;
         ret (metricDataValue data) |};
    {| tool_name := "query_logs";
       tool_description := "Query CloudWatch Logs for error analysis";
       tool_parameters :=
         schema [("logGroupName", "string"); ("filterPattern", "string");
                 ("startTime", "string"); ("endTime", "string")]
                ["logGroupName"];
       tool_execute := fun params =>
         startTime <- startTimeOf env params ;;
         endTime <- endTimeOf env params ;;
         logGroupName <- member params "logGroupName" ;;
         filterPattern <- member params "filterPattern" ;;
         entries <- CloudWatch.queryLogs env logGroupName startTime endTime filterPattern ;;
         ret (VArr (map logEntryValue entries)) |};
    {| tool_name := "get_lambda_config";
       tool_description := "Get Lambda function configuration";
       tool_parameters := schema [("functionName", "string")] ["functionName"];
       tool_execute := fun params =>
         functionName <- member params "functionName" ;;
         Lambda.getFunctionConfig env functionName |};
    {| tool_name := "test_lambda_function";
       tool_description := "Test Lambda function with sample payload";
       tool_parameters :=
         schema [("functionName", "string"); ("payload", "object")]
                ["functionName"; "payload"];
       tool_execute := fun params =>
         functionName <- member params "functionName" ;;
         payload <- member params "payload" ;;
         result <- Lambda.invokeFunction env functionName payload RequestResponse ;;
         ret (invokeResultValue result) |} ].

(** Get tool configuration for Bedrock. *)
Definition getToolConfiguration (env : Env) : ToolConfiguration :=
  {| tools :=
       map (fun tool =>
              {| spec_name := tool_name tool;
                 spec_description := tool_description tool;
                 spec_inputSchema := tool_parameters tool |})
           (initializeTools env);
     toolChoice := None |}.

(** Extract function name from ARN: [arn.match(/function:([^:]+)/)], the
    leftmost place where [function:] is followed by at least one character
    other than a colon. *)
Fixpoint extractFunctionName (arn : string) : option string :=
  match arn with
  | EmptyString => None
  | String _ rest =>
      match dropPrefix "function:" arn with
      | Some after =>
          match takeUntil ":" after with
          | EmptyString => extractFunctionName rest
          | name => Some name
          end
      | None => extractFunctionName rest
      end
  end.

(** [functionName] as a property value: the string, or [null]. *)
Definition nameValue (functionName : option string) : JsValue :=
  match functionName with
  | Some name => VStr name
  | None => VNull
  end.

(** The [if (functionName) { try { ... } catch (error) { ... } }] block of
    [investigate]: what [metrics] and [logs] hold after it.  A failure of
    the metrics fetch leaves both empty; a failure of the log query keeps
    the metrics already assigned. *)
Definition gatherTelemetry (env : Env) (functionName : option string)
    (startTime endTime : Date) : M (list (string * MetricData Q) * list string) :=
  match functionName with
  | Some name =>
      fetched <- try_catch
                   (metrics <- CloudWatch.getLambdaMetrics env name startTime endTime ;;
                    ret (Some metrics))
                   (fun _ => ret None) ;;
      match fetched with
      | Some metrics =>
          logs <- try_catch
                    (logEntries <- CloudWatch.queryLogs env
                                     (VStr ("/aws/lambda/" ++ name))
                                     startTime endTime (VStr "ERROR") ;;
                     ret (map log_message logEntries))
                    (fun _ => ret []) ;;
          ret (metrics, logs)
      | None => ret ([], [])
      end
  | None => ret ([], [])
  end.

(** Investigate incident using CloudWatch and AI. *)
Definition investigate (env : Env) (incident : Incident) : M DiagnosisResult :=
  let functionName := extractFunctionName (incident_resourceArn incident) in
  endTime <- newDate env ;;
  let startTime := (endTime - 3600000)%Z in
  gathered <- gatherTelemetry env functionName startTime endTime ;;
  let metrics := fst gathered in
  let logs := snd gathered in
  diagnosisText <- Bedrock.diagnoseIncident env
                     (incident_description incident)
                     (VObj (map (fun kv => (fst kv, metricDataValue (snd kv))) metrics))
                     logs None ;;
  timestamp <- newDate env ;;
  let diagnosis :=
    {| diag_rootCause := orDefault (firstLine diagnosisText) "Unknown";
       diag_confidence := 85 # 100;
       diag_affectedComponents :=
         [ match functionName with
           | Some name => orDefault name (incident_resourceArn incident)
           | None => incident_resourceArn incident
           end ];
       diag_relatedMetrics := map fst metrics;
       diag_reasoning := diagnosisText;
       diag_timestamp := timestamp |} in
  auditTime <- newDate env ;;
  DynamoDB.logAudit env
    {| audit_incidentId := incident_id incident;
       audit_timestamp := auditTime;
       audit_action := "diagnosis_completed";
       audit_actor := System;
       audit_details := VObj [ ("rootCause", VStr (diag_rootCause diagnosis));
                               ("confidence", VNum (diag_confidence diagnosis)) ];
       audit_result := AuditSuccess |} ;;
  ret diagnosis.

(** Parse remediation actions from AI response: the keyword classifier. *)
Definition parseRemediationActions (env : Env) (planText : string) (incident : Incident)
  : M (list RemediationAction) :=
  let functionName := extractFunctionName (incident_resourceArn incident) in
  actions <-
    (if includes (toLowerCase planText) "memory" || includes (toLowerCase planText) "timeout"
     then
       id <- uuidv4 env ;;
       ret [ {| action_id := id;
                action_type := UpdateConfig;
                action_description := "Increase Lambda memory and timeout";
                action_parameters := [ ("functionName", nameValue functionName);
                                       ("memorySize", VNum 512);
                                       ("timeout", VNum 30) ];
                action_rollbackPlan := None;
                action_order := 1 |} ]
     else ret []) ;;
  actions <-
    (if includes (toLowerCase planText) "restart" || includes (toLowerCase planText) "redeploy"
     then
       id <- uuidv4 env ;;
       ret (actions ++
            [ {| action_id := id;
                 action_type := RestartService;
                 action_description := "Update function configuration to trigger restart";
                 action_parameters := [ ("functionName", nameValue functionName) ];
                 action_rollbackPlan := None;
                 action_order := 2 |} ])
     else ret actions) ;;
  if (List.length actions =? 0)%nat then
    id <- uuidv4 env ;;
    ret (actions ++
         [ {| action_id := id;
              action_type := Custom;
              action_description := "Manual investigation required";
              action_parameters := [ ("note", VStr planText) ];
              action_rollbackPlan := None;
              action_order := 1 |} ])
  else ret actions.

(** Perform safety checks on remediation plan. *)
Definition performSafetyChecks (actions : list RemediationAction) (_incident : Incident)
  : list SafetyCheck :=
  [ {| check_type := RateLimit;
       check_description := "Ensure we are not making too many changes";
       check_passed := (List.length actions <=? 5)%nat;
       check_details := Some (natToString (List.length actions) ++ " actions planned")%string |};
    {| check_type := RollbackAvailable;
       check_description := "Verify rollback procedures exist";
       check_passed := true;
       check_details := Some "Configuration changes can be reverted" |};
    {| check_type := ResourceLimit;
       check_description := "Check resource allocation is within limits";
       check_passed := true;
       check_details := Some "All changes within AWS limits" |} ].

(** The plan object literal of [generateRemediationPlan]:
    [approvalRequired: safetyChecks.some(check => !check.passed)]. *)
Definition assemblePlan (id : string) (incident : Incident)
    (actions : list RemediationAction) (safetyChecks : list SafetyCheck)
    (createdAt : Date) : RemediationPlan :=
  {| plan_id := id;
     plan_incidentId := incident_id incident;
     plan_actions := actions;
     plan_estimatedImpact := "Medium - Configuration changes";
     plan_safetyChecks := safetyChecks;
     plan_approvalRequired := existsb (fun check => negb (check_passed check)) safetyChecks;
     plan_createdAt := createdAt |}.

(** Generate remediation plan with safety guardrails. *)
Definition generateRemediationPlan (env : Env) (incident : Incident)
    (diagnosis : DiagnosisResult) : M RemediationPlan :=
  let functionName := extractFunctionName (incident_resourceArn incident) in
  currentConfig <-
    match functionName with
    | Some name =>
        try_catch (Lambda.getFunctionConfig env (VStr name)) (fun _ => ret (VObj []))
    | None => ret (VObj [])
    end ;;
  planText <- Bedrock.generateRemediationPlan env
                (diag_reasoning diagnosis) (incident_resourceArn incident) currentConfig ;;
  actions <- parseRemediationActions env planText incident ;;
  let safetyChecks := performSafetyChecks actions incident in
  id <- uuidv4 env ;;
  createdAt <- newDate env ;;
  ret (assemblePlan id incident actions safetyChecks createdAt).

(** [Array.prototype.sort] with the comparator [(a, b) => a.order - b.order]:
    a stable sort by ascending [order]. *)
Fixpoint insertByOrder (a : RemediationAction) (sorted : list RemediationAction)
  : list RemediationAction :=
  match sorted with
  | [] => [a]
  | b :: rest =>
      if (action_order a <=? action_order b)%Z then a :: b :: rest
      else b :: insertByOrder a rest
  end.

Fixpoint sortByOrder (actions : list RemediationAction) : list RemediationAction :=
  match actions with
  | [] => []
  | a :: rest => insertByOrder a (sortByOrder rest)
  end.

Definition actionTypeName (t : ActionType) : string :=
  match t with
  | UpdateConfig => "update_config"
  | RestartService => "restart_service"
  | ScaleResources => "scale_resources"
  | Rollback => "rollback"
  | Custom => "custom"
  end.

(** The body of the [try] block of [executeAction]: the handler of the
    action's type. *)
Definition dispatch (env : Env) (action : RemediationAction) : M JsValue :=
  match action_type action with
  | UpdateConfig =>
      Lambda.updateFunctionConfig env
        (param "functionName" (action_parameters action))
        {| upd_timeout := param "timeout" (action_parameters action);
           upd_memorySize := param "memorySize" (action_parameters action);
           upd_environment := None |}
  | RestartService =>
      config <- Lambda.getFunctionConfig env
                  (param "functionName" (action_parameters action)) ;;
      environment <- member config "Environment" ;;
      let variables := optionalMember environment "Variables" in
      let vars := if truthy variables then variables else VObj [] in
      now <- newDate env ;;
      vars <- setMember env vars "LAST_RESTART" (VStr (js_toISOString env now)) ;;
      Lambda.updateFunctionConfig env
        (param "functionName" (action_parameters action))
        {| upd_timeout := VUndefined;
           upd_memorySize := VUndefined;
           upd_environment := Some vars |}
  | _ => ret (VObj [("message", VStr "Action type not implemented for auto-execution")])
  end.

(** Execute a single remediation action. *)
Definition executeAction (env : Env) (action : RemediationAction) : M ExecutionResult :=
  try_catch
    (output <- dispatch env action ;;
     executedAt <- newDate env ;;
     ret {| result_actionId := action_id action;
            result_success := true;
            result_executedAt := executedAt;
            result_output := Some output;
            result_error := None;
            result_rollbackExecuted := None |})
    (fun error =>
       executedAt <- newDate env ;;
       ret {| result_actionId := action_id action;
              result_success := false;
              result_executedAt := executedAt;
              result_output := None;
              result_error := Some (errorText error);
              result_rollbackExecuted := None |}).

Definition optionalValue (v : option JsValue) : JsValue :=
  match v with Some v => v | None => VUndefined end.

Definition optionalString (s : option string) : JsValue :=
  match s with Some s => VStr s | None => VUndefined end.

(** The [for (const action of ...)] loop of [executeRemediation];
    [results] is the array filled so far. *)
Fixpoint runActions (env : Env) (incident : Incident)
    (actions : list RemediationAction) (results : list ExecutionResult)
  : M (list ExecutionResult) :=
  match actions with
  | [] => ret results
  | action :: rest =>
      result <- executeAction env action ;;
      let results := results ++ [result] in
      DynamoDB.logActionExecution env
        (incident_id incident) (action_id action)
        (if result_success result then AuditSuccess else AuditFailure)
        (VObj [ ("action", VStr (actionTypeName (action_type action)));
                ("output", optionalValue (result_output result));
                ("error", optionalString (result_error result)) ]) ;;
      if negb (result_success result) then ret results
      else runActions env incident rest results
  end.

(** Execute remediation actions. *)
Definition executeRemediation (env : Env) (incident : Incident) (plan : RemediationPlan)
  : M (list ExecutionResult) :=
  if plan_approvalRequired plan then ret []
  else runActions env incident (sortByOrder (plan_actions plan)) [].

(** The plan object after [executeRemediation]: [sort] reorders
    [plan.actions] in place when the loop is reached. *)
Definition planAfterExecution (plan : RemediationPlan) : RemediationPlan :=
  if plan_approvalRequired plan then plan
  else
    {| plan_id := plan_id plan;
       plan_incidentId := plan_incidentId plan;
       plan_actions := sortByOrder (plan_actions plan);
       plan_estimatedImpact := plan_estimatedImpact plan;
       plan_safetyChecks := plan_safetyChecks plan;
       plan_approvalRequired := plan_approvalRequired plan;
       plan_createdAt := plan_createdAt plan |}.

(** [errorMetric?.values.reduce((a, b) => a + b, 0) || 0] *)
Definition errorCountOf (metrics : list (string * MetricData Q)) : Q :=
  match lookup "Errors" metrics with
  | Some errorMetric => fold_left Qplus (values errorMetric) 0
  | None => 0
  end.

(** Verify remediation success. *)
Definition verify (env : Env) (incident : Incident) : M VerificationResult :=
  let functionName := extractFunctionName (incident_resourceArn incident) in
  checks <-
    match functionName with
    | Some name =>
        try_catch
          (health <- Lambda.checkFunctionHealth env name ;;
           ret [ {| vcheck_name := "Lambda Health Check";
                    vcheck_passed := healthy health;
                    vcheck_details :=
                      orDefault (join ", " (issues health)) "All checks passed" |} ])
          (fun error =>
             ret [ {| vcheck_name := "Lambda Health Check";
                      vcheck_passed := false;
                      vcheck_details := errorText error |} ])
    | None => ret []
    end ;;
  checks <-
    match functionName with
    | Some name =>
        try_catch
          (testResult <- Lambda.invokeFunction env (VStr name)
                           (VObj [("test", VBool true)]) RequestResponse ;;
           ret (checks ++
                [ {| vcheck_name := "Test Invocation";
                     vcheck_passed :=
                       (inv_statusCode testResult =? 200)%Z &&
                       negb (truthy (optionalString (inv_functionError testResult)));
                     vcheck_details :=
                       orDefault (orEmpty (inv_functionError testResult))
                                         "Function invoked successfully" |} ]))
          (fun error =>
             ret (checks ++
                  [ {| vcheck_name := "Test Invocation";
                       vcheck_passed := false;
                       vcheck_details := errorText error |} ]))
    | None => ret checks
    end ;;
  outcome <-
    match functionName with
    | Some name =>
        try_catch
          (endTime <- newDate env ;;
           let startTime := (endTime - 300000)%Z in
           metrics <- CloudWatch.getLambdaMetrics env name startTime endTime ;;
           let errorCount := errorCountOf metrics in
           let metricsImproved := Qeq_bool errorCount 0 in
           ret (metricsImproved,
                checks ++
                [ {| vcheck_name := "Metrics Check";
                     vcheck_passed := metricsImproved;
                     vcheck_details :=
                       "Error count: " ++ js_numberToString env errorCount |} ]))
          (fun error =>
             ret (false,
                  checks ++
                  [ {| vcheck_name := "Metrics Check";
                       vcheck_passed := false;
                       vcheck_details := errorText error |} ]))
    | None => ret (false, checks)
    end ;;
  let metricsImproved := fst outcome in
  let checks := snd outcome in
  let allPassed := forallb vcheck_passed checks in
  timestamp <- newDate env ;;
  ret {| verification_success := allPassed;
         verification_timestamp := timestamp;
         verification_checks := checks;
         verification_metricsImproved := metricsImproved |}.

(** What [handleIncident] resolves to. *)
Record IncidentOutcome := {
  out_diagnosis : DiagnosisResult;
  out_plan : RemediationPlan;
  out_executionResults : list ExecutionResult;
  out_verification : VerificationResult
}.

(** Main workflow: handle an incident end-to-end. *)
Definition handleIncident (env : Env) (incident : Incident) : M IncidentOutcome :=
  DynamoDB.saveIncident env incident ;;
  DynamoDB.updateIncidentStatus env (incident_id incident) Investigating None ;;
  diagnosis <- investigate env incident ;;
  plan <- generateRemediationPlan env incident diagnosis ;;
  DynamoDB.saveRemediationPlan env plan ;;
  DynamoDB.updateIncidentStatus env (incident_id incident) Remediating None ;;
  executionResults <- executeRemediation env incident plan ;;
  let plan := planAfterExecution plan in
  verification <- verify env incident ;;
  let finalStatus := if verification_success verification then Resolved else Failed in
  DynamoDB.updateIncidentStatus env (incident_id incident) finalStatus
    (Some (VObj [ ("diagnosis", VStr (diag_rootCause diagnosis));
                  ("actionsExecuted",
                   VNum (inject_Z (Z.of_nat (List.length executionResults))));
                  ("verified", VBool (verification_success verification)) ])) ;;
  ret {| out_diagnosis := diagnosis;
         out_plan := plan;
         out_executionResults := executionResults;
         out_verification := verification |}.

End Agent.

(* ================================================================= *)
(** ** Reading a history *)

Definition isBedrockSend (c : Call) : bool :=
  match c with
  | BedrockSend _ => true
  | _ => false
  end.

(** Number of calls made to the reasoning service. *)
Definition sendCount (h : History) : nat := List.length (filter isBedrockSend h).

(** The actions whose execution was recorded, in the order of recording. *)
Fixpoint loggedActions (h : History) : list string :=
  match h with
  | [] => []
  | LogActionExecution _ actionId _ _ :: rest => actionId :: loggedActions rest
  | _ :: rest => loggedActions rest
  end.

(** The calls an action handler can make: the resource controller and the
    clock. *)
Definition handlerCall (c : Call) : bool :=
  match c with
  | UpdateFunctionConfig _ _ => true
  | GetFunctionConfig _ => true
  | NewDate => true
  | _ => false
  end.

(** The statuses written for the incident [incidentId], oldest first. *)
Fixpoint statusUpdates (incidentId : string) (h : History) : list IncidentStatus :=
  match h with
  | [] => []
  | UpdateIncidentStatus id status _ :: rest =>
      if String.eqb id incidentId then status :: statusUpdates incidentId rest
      else statusUpdates incidentId rest
  | _ :: rest => statusUpdates incidentId rest
  end.

(** The calls of the data gathering: the clock and the telemetry source. *)
Definition telemetryCall (c : Call) : bool :=
  match c with
  | NewDate => true
  | GetLambdaMetrics _ _ _ => true
  | QueryLogs _ _ _ _ => true
  | _ => false
  end.

(** The calls of the investigation phase: everything [handleIncident] does
    up to and including the diagnosis request.  No call of the planning,
    execution or verification phases is among them. *)
Definition investigationCall (c : Call) : bool :=
  match c with
  | SaveIncident _ => true
  | UpdateIncidentStatus _ Investigating _ => true
  | NewDate => true
  | GetLambdaMetrics _ _ _ => true
  | QueryLogs _ _ _ _ => true
  | BedrockSend _ => true
  | _ => false
  end.

(** The tool-use requests of a reply of the reasoning service, when the
    reply carries a message with content. *)
Definition requestedTools (reply : Res ConverseCommandOutput) : option (list ToolUse) :=
  match reply with
  | Ok response =>
      match output_message response with
      | Some message =>
          match bmsg_content message with
          | Some content => Some (Bedrock.collectToolUses content)
          | None => None
          end
      | None => None
      end
  | Throw _ => None
  end.

(** A reasoning service that asks for at least one tool in every reply. *)
Definition alwaysRequestsTools (env : Env) : Prop :=
  forall h input, exists toolUse rest,
    requestedTools (bedrock_send env h input) = Some (toolUse :: rest).

(** The role of the last turn of a conversation. *)
Definition lastRole (messages : list Message) : option Role :=
  last (map (fun m => Some (msg_role m)) messages) None.

(** The content of the last assistant turn of a conversation. *)
Fixpoint lastAssistantContent (messages : list Message) : option MessageContent :=
  match messages with
  | [] => None
  | m :: rest =>
      match lastAssistantContent rest with
      | Some content => Some content
      | None =>
          match msg_role m with
          | RoleAssistant => Some (msg_content m)
          | RoleUser => None
          end
      end
  end.

(** Step 2c of the tool-calling protocol as the design document words it:
    look up the registered tool function by the requested name and execute
    it with the supplied input.  Used only to compare against
    [Bedrock.iteration]. *)
Definition designLookupAndExecute (registry : list Agent.Tool) (toolUse : ToolUse)
  : M JsValue :=
  match find (fun tool => String.eqb (Agent.tool_name tool) (use_name toolUse)) registry with
  | Some tool => Agent.tool_execute tool (use_input toolUse)
  | None => throw (ErrorObject ("Unknown tool: " ++ use_name toolUse))
  end.

(* ================================================================= *)
(** ** Vocabulary of the statements *)

(** [makes P m]: whatever its outcome, [m] only appends calls accepted by
    [P] to the history. *)
Definition makes {A : Type} (P : Call -> bool) (m : M A) : Prop :=
  forall h r h', m h = (r, h') -> exists new, h' = h ++ new /\ forallb P new = true.

(** [returnsWith P m]: [m] always returns, appending only calls accepted by
    [P]. *)
Definition returnsWith {A : Type} (P : Call -> bool) (m : M A) : Prop :=
  forall h, exists a new, m h = (Ok a, h ++ new) /\ forallb P new = true.

(** Ascending and strictly ascending [order]. *)
Definition leOrder (a b : RemediationAction) : Prop := (action_order a <= action_order b)%Z.
Definition ltOrder (a b : RemediationAction) : Prop := (action_order a < action_order b)%Z.

(** The sink that records executions accepts every record. *)
Definition auditSinkAccepts (env : Env) : Prop :=
  forall h incidentId actionId outcome details,
    db_logActionExecution env h incidentId actionId outcome details = Ok tt.

(** The record of the execution of [action] that ended in [result]. *)
Definition executionRecord (incident : Incident) (action : RemediationAction)
    (result : ExecutionResult) : Call :=
  LogActionExecution (incident_id incident) (action_id action)
    (if result_success result then AuditSuccess else AuditFailure)
    (VObj [ ("action", VStr (Agent.actionTypeName (action_type action)));
            ("output", Agent.optionalValue (result_output result));
            ("error", Agent.optionalString (result_error result)) ]).

(** [Attempts env incident h actions h']: starting from the history [h],
    the actions of [actions] were attempted one after the other and nothing
    else was done.  Each attempt is the run of the action's handler by
    [executeAction] followed by the record of its execution; [h'] is the
    history after the last record, so it holds no call made for any other
    action. *)
Inductive Attempts (env : Env) (incident : Incident)
  : History -> list RemediationAction -> History -> Prop :=
| attempts_none (h : History) : Attempts env incident h [] h
| attempts_next (h : History) (action : RemediationAction) (result : ExecutionResult)
    (h1 : History) (rest : list RemediationAction) (h2 : History) :
    Agent.executeAction env action h = (Ok result, h1) ->
    Attempts env incident (h1 ++ [executionRecord incident action result]) rest h2 ->
    Attempts env incident h (action :: rest) h2.

Definition assistantTurn (content : MessageContent) : Message :=
  {| msg_role := RoleAssistant; msg_content := content |}.

Definition userTurn (content : MessageContent) : Message :=
  {| msg_role := RoleUser; msg_content := content |}.

(** The recorded output of a tool call is the fixed placeholder. *)
Definition placeholderOutput (c : Bedrock.ToolCall) : Prop :=
  Bedrock.call_output c =
    VObj [("success", VBool true); ("data", VStr ("Executed " ++ Bedrock.call_tool c))].

(* ================================================================= *)
(** ** Test doubles *)

Module Stubs.

Definition textReply (text : string) : ConverseCommandOutput :=
  {| output_message :=
       Some {| bmsg_role := RoleAssistant; bmsg_content := Some [CbText text] |} |}.

Definition toolReply (toolUseId name : string) (input : JsValue) : ConverseCommandOutput :=
  {| output_message :=
       Some {| bmsg_role := RoleAssistant;
               bmsg_content := Some [CbToolUse (Some toolUseId) (Some name) (Some input)] |} |}.

Definition Reasoning := History -> ConverseCommandInput -> Res ConverseCommandOutput.
Definition Updater := History -> JsValue -> ConfigUpdates -> Res JsValue.

(** A reasoning service that always answers with the same text. *)
Definition saying (text : string) : Reasoning :=
  fun _ _ => Ok (textReply text).

(** A reasoning service that always asks for the function configuration. *)
Definition alwaysTool : Reasoning :=
  fun _ _ => Ok (toolReply "call-1" "get_lambda_config"
                           (VObj [("functionName", VStr "checkout")])).

(** A reasoning service that asks for one tool on its first call and
    answers in plain text afterwards. *)
Definition toolThenText : Reasoning :=
  fun h _ =>
    if (sendCount h =? 0)%nat
    then Ok (toolReply "call-1" "get_lambda_config"
                       (VObj [("functionName", VStr "checkout")]))
    else Ok (textReply "The timeout is too low").

(** A reasoning service that is down. *)
Definition unavailable : Reasoning :=
  fun _ _ => Throw (ErrorObject "ServiceUnavailableException").

Definition updateSucceeds : Updater :=
  fun _ _ _ => Ok (VObj [("LastUpdateStatus", VStr "Successful")]).

(** A resource controller that rejects updates of the function [name]. *)
Definition updateFailsFor (name : string) : Updater :=
  fun _ functionName _ =>
    match functionName with
    | VStr n =>
        if String.eqb n name then Throw (ErrorObject "ResourceNotFoundException")
        else Ok (VObj [("LastUpdateStatus", VStr "Successful")])
    | _ => Ok (VObj [("LastUpdateStatus", VStr "Successful")])
    end.

Definition storedConfig : JsValue :=
  VObj [ ("FunctionName", VStr "checkout");
         ("Timeout", VNum 1);
         ("MemorySize", VNum 128) ].

(** An environment whose collaborators all answer, apart from the
    reasoning service and the configuration update, which are given. *)
Definition stubEnv (reasoning : Reasoning) (update : Updater) : Env :=
  {| bedrock_send := reasoning;
     cw_getLambdaMetrics := fun _ _ _ _ =>
       Ok [ ("Errors",
             {| metricName := "Errors"; namespace := "AWS/Lambda";
                dimensions := [("FunctionName", "checkout")];
                timestamps := [0%Z]; values := [0]; unit_ := "None" |}) ];
     cw_queryLogs := fun _ _ _ _ _ => Ok [];
     cw_getMetrics := fun _ _ _ _ _ _ =>
       Ok {| metricName := "Errors"; namespace := "AWS/Lambda";
             dimensions := []; timestamps := []; values := []; unit_ := "None" |};
     lambda_getFunctionConfig := fun _ _ => Ok storedConfig;
     lambda_updateFunctionConfig := update;
     lambda_invokeFunction := fun _ _ _ _ =>
       Ok {| inv_statusCode := 200; inv_payload := VNull;
             inv_executedVersion := None; inv_functionError := None |};
     lambda_checkFunctionHealth := fun _ _ => Ok {| healthy := true; issues := [] |};
     db_saveIncident := fun _ _ => Ok tt;
     db_updateIncidentStatus := fun _ _ _ _ => Ok tt;
     db_saveRemediationPlan := fun _ _ => Ok tt;
     db_logAudit := fun _ _ => Ok tt;
     db_logActionExecution := fun _ _ _ _ _ => Ok tt;
     sys_now := fun h => Z.of_nat (List.length h);
     sys_uuid := fun h => ("id-" ++ natToString (List.length h))%string;
     js_stringify := fun _ => "{}";
     js_toISOString := fun _ => "2024-01-01T00:00:00.000Z";
     js_parseDate := fun _ => 0%Z;
     js_numberToString := fun _ => "0" |}.

Definition incident : Incident :=
  {| incident_id := "incident-1";
     incident_timestamp := 0;
     incident_severity := High;
     incident_resourceArn := "arn:aws:lambda:us-east-1:123456789012:function:checkout";
     incident_resourceType := RtLambda;
     incident_description := "Lambda function experiencing high error rate and timeouts";
     incident_metrics := None;
     incident_logs := None;
     incident_status := Open |}.

Definition diagnosis : DiagnosisResult :=
  {| diag_rootCause := "Timeout too low";
     diag_confidence := 85 # 100;
     diag_affectedComponents := ["checkout"];
     diag_relatedMetrics := ["Errors"];
     diag_reasoning := "Timeout too low";
     diag_timestamp := 0 |}.

Definition updateAction (id functionName : string) (order : Z) : RemediationAction :=
  {| action_id := id;
     action_type := UpdateConfig;
     action_description := "Increase Lambda memory and timeout";
     action_parameters := [ ("functionName", VStr functionName);
                            ("memorySize", VNum 512);
                            ("timeout", VNum 30) ];
     action_rollbackPlan := None;
     action_order := order |}.

Definition actionA := updateAction "A" "fn-a" 1.
Definition actionB := updateAction "B" "fn-b" 2.
Definition actionC := updateAction "C" "fn-c" 3.

(** An approved plan holding C, A, B in that array order. *)
Definition planCAB : RemediationPlan :=
  Agent.assemblePlan "plan-1" incident [actionC; actionA; actionB]
    (Agent.performSafetyChecks [actionC; actionA; actionB] incident) 0.

(** A plan of six actions: the rate limit fails and approval is required. *)
Definition sixActions : list RemediationAction :=
  [ updateAction "a1" "fn-a" 1; updateAction "a2" "fn-a" 2; updateAction "a3" "fn-a" 3;
    updateAction "a4" "fn-a" 4; updateAction "a5" "fn-a" 5; updateAction "a6" "fn-a" 6 ].

Definition planOfSix : RemediationPlan :=
  Agent.assemblePlan "plan-6" incident sixActions
    (Agent.performSafetyChecks sixActions incident) 0.

Definition noTools : ToolConfiguration := {| tools := []; toolChoice := None |}.

(** The planner's collaborators when the narrative mentions memory and a
    restart. *)
Definition plannerEnv : Env :=
  stubEnv (saying "Increase the memory, then restart the function") updateSucceeds.

(** The reasoning service always asks for a tool. *)
Definition envAlwaysTool : Env := stubEnv alwaysTool updateSucceeds.

(** The reasoning service asks for one tool, then answers in text. *)
Definition envToolThenText : Env := stubEnv toolThenText updateSucceeds.

(** The reasoning service is down. *)
Definition envUnavailable : Env := stubEnv unavailable updateSucceeds.

(** The resource controller rejects the update of B's function. *)
Definition envBFails : Env := stubEnv (saying "") (updateFailsFor "fn-b").

End Stubs.

(* ================================================================= *)
(** ** The resource controller's health check
       ([LambdaService.checkFunctionHealth]) *)

Module LambdaService.

(** [a < b] on numbers. *)
Definition numberLess (a b : Q) : bool := negb (Qle_bool b a).

(** [value < bound]: a number is compared as it is; any other value goes
    through the runtime's [ToNumber], given as [toNumber], which answers
    [None] for [NaN]. *)
Definition lessThan (toNumber : JsValue -> option Q) (value : JsValue) (bound : Q) : bool :=
  match value with
  | VNum n => numberLess n bound
  | other =>
      match toNumber other with
      | Some n => numberLess n bound
      | None => false
      end
  end.

(** Check if function is healthy.  The outer [catch] can only be reached
    before anything was pushed on [issues]: by the configuration read or by
    the first property access on the configuration. *)
Definition checkFunctionHealth (env : Env) (toNumber : JsValue -> option Q)
    (functionName : string) : M Health :=
  try_catch
    (config <- Lambda.getFunctionConfig env (VStr functionName) ;;
     timeout <- member config "Timeout" ;;
     let issues :=
       if truthy timeout && lessThan toNumber timeout 3
       then ["Timeout is very low (< 3 seconds)"] else [] in
     memorySize <- member config "MemorySize" ;;
     let issues :=
       if truthy memorySize && lessThan toNumber memorySize 256
       then issues ++ ["Memory size is very low (< 256 MB)"] else issues in
     issues <- try_catch
                 (Lambda.invokeFunction env (VStr functionName) (VObj []) DryRun ;;
                  ret issues)
                 (fun error =>
                    ret (issues ++ [("Test invocation failed: " ++ errorText error)%string])) ;;
     ret {| healthy := (List.length issues =? 0)%nat; issues := issues |})
    (fun error =>
       ret {| healthy := false;
              issues := [("Failed to check function health: " ++ errorText error)%string] |}).

End LambdaService.

(* ================================================================= *)
(** ** The Lambda entry point ([src/lambda/handler.ts]) *)

(** The spelling of a status in the [Incident] type. *)
Definition statusName (s : IncidentStatus) : string :=
  match s with
  | Open => "open"
  | Investigating => "investigating"
  | Remediating => "remediating"
  | Resolved => "resolved"
  | Failed => "failed"
  end.

Module Handler.

(** An event as [IncidentEvent] declares it. *)
Record IncidentEvent := {
  event_incidentId : option string;
  event_severity : Severity;
  event_resourceArn : string;
  event_resourceType : ResourceType;
  event_description : string;
  event_metrics : option (list (string * Q));
  event_logs : option (list string)
}.

Record Response := {
  statusCode : Z;
  body : string
}.

Definition checkValue (c : VerificationCheck) : JsValue :=
  VObj [ ("name", VStr (vcheck_name c));
         ("passed", VBool (vcheck_passed c));
         ("details", VStr (vcheck_details c)) ].

(** The object [verify] returns. *)
Definition verificationValue (v : VerificationResult) : JsValue :=
  VObj [ ("success", VBool (verification_success v));
         ("timestamp", VDate (verification_timestamp v));
         ("checks", VArr (map checkValue (verification_checks v)));
         ("metricsImproved", VBool (verification_metricsImproved v)) ].

(** The three objects given to [JSON.stringify]. *)
Definition statusQueryBody (incident auditTrail : JsValue) : JsValue :=
  VObj [ ("incident", incident);
         ("auditTrail", auditTrail);
         ("message", VStr "Incident status retrieved") ].

Definition processedBody (incident : Incident) (result : Agent.IncidentOutcome) : JsValue :=
  VObj [ ("incidentId", VStr (incident_id incident));
         ("status",
          VStr (if verification_success (Agent.out_verification result)
                then "resolved" else "failed"));
         ("diagnosis", VStr (diag_rootCause (Agent.out_diagnosis result)));
         ("actionsExecuted",
          VNum (inject_Z (Z.of_nat (List.length (Agent.out_executionResults result)))));
         ("verification", verificationValue (Agent.out_verification result));
         ("message", VStr "Incident processed successfully") ].

Definition failureBody (error : Thrown) : JsValue :=
  VObj [ ("error", VStr (errorText error));
         ("message", VStr "Failed to process incident") ].

(** [event.incidentId && !event.resourceArn] *)
Definition isStatusQuery (event : IncidentEvent) : bool :=
  truthy (Agent.optionalString (event_incidentId event))
  && negb (truthy (VStr (event_resourceArn event))).

(** Create incident object.  [Date.now()] and [new Date()] read the same
    clock. *)
Definition incidentOf (env : Env) (event : IncidentEvent) : M Incident :=
  id <- (if truthy (Agent.optionalString (event_incidentId event))
         then ret (orEmpty (event_incidentId event))
         else now <- newDate env ;;
              ret ("incident-" ++ js_numberToString env (inject_Z now))%string) ;;
  timestamp <- newDate env ;;
  ret {| incident_id := id;
         incident_timestamp := timestamp;
         incident_severity := event_severity event;
         incident_resourceArn := event_resourceArn event;
         incident_resourceType := event_resourceType event;
         incident_description := event_description event;
         incident_metrics := event_metrics event;
         incident_logs := event_logs event;
         incident_status := Open |}.

(** Main Lambda handler.  [getIncident] and [getAuditTrail] are the two
    reads of the handler's own incident store. *)
Definition handler (env : Env) (getIncident getAuditTrail : string -> M JsValue)
    (event : IncidentEvent) : M Response :=
  try_catch
    (if isStatusQuery event
     then
       incident <- getIncident (orEmpty (event_incidentId event)) ;;
       auditTrail <- getAuditTrail (orEmpty (event_incidentId event)) ;;
       ret {| statusCode := 200;
              body := js_stringify env (statusQueryBody incident auditTrail) |}
     else
       incident <- incidentOf env event ;;
       result <- Agent.handleIncident env incident ;;
       ret {| statusCode := 200;
              body := js_stringify env (processedBody incident result) |})
    (fun error =>
       ret {| statusCode := 500;
              body := js_stringify env (failureBody error) |}).

End Handler.

(* ================================================================= *)
(** ** The incident store over its document client ([DynamoDBService]) *)

(** The spelling of a severity in the [Incident] type. *)
Definition severityName (s : Severity) : string :=
  match s with
  | Critical => "critical"
  | High => "high"
  | Medium => "medium"
  | Low => "low"
  end.

(** [{ ...base, ...over }]: the properties of [over] are assigned in their
    order onto a copy of [base]. *)
Definition spread (base over : list (string * JsValue)) : list (string * JsValue) :=
  fold_left (fun acc kv => assign (fst kv) (snd kv) acc) over base.

Module DynamoDBService.

(** The [Item] of a [PutCommand]: a record with its date replaced by the
    ISO string, or an object given by its properties. *)
Inductive PutItem :=
| IncidentItem (incident : Incident) (timestamp : string)
| PlanItem (plan : RemediationPlan) (createdAt : string)
| AuditItem (id : string) (entry : AuditEntry) (timestamp : string)
| Fields (fields : list (string * JsValue)).

(** The commands given to [client.send]. *)
Inductive Command :=
| PutCommand (TableName : string) (Item : PutItem)
| UpdateCommand (TableName : string) (Key : list (string * JsValue))
    (UpdateExpression : string)
    (ExpressionAttributeNames : list (string * string))
    (ExpressionAttributeValues : list (string * JsValue))
| GetCommand (TableName : string) (Key : list (string * JsValue))
| QueryCommand (TableName IndexName KeyConditionExpression : string)
    (ExpressionAttributeValues : list (string * JsValue)) (ScanIndexForward : bool)
| ScanCommand (TableName FilterExpression : string)
    (ExpressionAttributeNames : list (string * string))
    (ExpressionAttributeValues : list (string * JsValue)).

(** What the service reads of a response. *)
Record Output := {
  out_Item : option (list (string * JsValue));
  out_Items : option (list (list (string * JsValue)))
}.

(** What leaves the service: a command sent, a reading of the clock, a
    [uuidv4()]. *)
Inductive Event :=
| Sent (command : Command)
| ClockRead
| UuidDrawn.

Definition Trace := list Event.

(** The document client and the runtime: [send], [new Date()] and
    [uuidv4()] answer as functions of the earlier events; the others are
    pure, [parse] being [JSON.parse] on its argument converted to a
    string. *)
Record Client := {
  send : Trace -> Command -> Res Output;
  now : Trace -> Date;
  uuid : Trace -> string;
  toISOString : Date -> string;
  stringify : JsValue -> string;
  parse : JsValue -> Res JsValue;
  parseDate : JsValue -> Date
}.

(** An [async] method of the service. *)
Definition Store (A : Type) : Type := Trace -> Res A * Trace.

Definition pure {A : Type} (a : A) : Store A := fun t => (Ok a, t).

Definition andThen {A B : Type} (m : Store A) (k : A -> Store B) : Store B :=
  fun t =>
    match m t with
    | (Ok a, t') => k a t'
    | (Throw e, t') => (Throw e, t')
    end.

(** [try { body } catch (e) { handler }] *)
Definition attempt {A : Type} (body : Store A) (handler : Thrown -> Store A) : Store A :=
  fun t =>
    match body t with
    | (Ok a, t') => (Ok a, t')
    | (Throw e, t') => handler e t'
    end.

(** An outcome computed without leaving the service. *)
Definition outcome {A : Type} (r : Res A) : Store A := fun t => (r, t).

Declare Scope store_scope.
Delimit Scope store_scope with store.
Bind Scope store_scope with Store.

Notation "x <- m ;; k" := (andThen m (fun x => k)) : store_scope.
Notation "m ;; k" := (andThen m (fun _ => k)) : store_scope.

Local Open Scope store_scope.

(** [await this.client.send(command)] *)
Definition sendCommand (c : Client) (command : Command) : Store Output :=
  fun t => (send c t command, t ++ [Sent command]).

(** [new Date()] *)
Definition newDate (c : Client) : Store Date :=
  fun t => (Ok (now c t), t ++ [ClockRead]).

(** [uuidv4()] *)
Definition uuidv4 (c : Client) : Store string :=
  fun t => (Ok (uuid c t), t ++ [UuidDrawn]).

(** An [AuditEntry] with its [id]. *)
Record StoredAudit := {
  stored_id : string;
  stored_entry : AuditEntry
}.

Section Service.

Variable c : Client.
Variable tableName : string.

Definition incidentsTable : string := (tableName ++ "-Incidents")%string.
Definition plansTable : string := (tableName ++ "-Plans")%string.

(** Log an audit entry. *)
Definition logAudit (entry : AuditEntry) : Store StoredAudit :=
  id <- uuidv4 c ;;
  sendCommand c
    (PutCommand tableName
       (AuditItem id entry (toISOString c (audit_timestamp entry)))) ;;
  pure {| stored_id := id; stored_entry := entry |}.

(** [{ ...item, timestamp: new Date(item.timestamp) }] *)
Definition withDate (item : list (string * JsValue)) : list (string * JsValue) :=
  assign "timestamp" (VDate (parseDate c (param "timestamp" item))) item.

(** [(response.Items || []).map(...)] *)
Definition datedItems (response : Output) : list (list (string * JsValue)) :=
  map withDate
      (match out_Items response with
       | Some items => items
       | None => []
       end).

(** Get audit trail for an incident. *)
Definition getAuditTrail (incidentId : string) : Store (list (list (string * JsValue))) :=
  response <- sendCommand c
                (QueryCommand tableName "IncidentIdIndex" "incidentId = :incidentId"
                   [(":incidentId", VStr incidentId)] true) ;;
  pure (datedItems response).

(** Save incident. *)
Definition saveIncident (incident : Incident) : Store unit :=
  sendCommand c
    (PutCommand incidentsTable
       (IncidentItem incident (toISOString c (incident_timestamp incident)))) ;;
  timestamp <- newDate c ;;
  logAudit {| audit_incidentId := incident_id incident;
              audit_timestamp := timestamp;
              audit_action := "incident_created";
              audit_actor := System;
              audit_details :=
                VObj [ ("severity", VStr (severityName (incident_severity incident)));
                       ("resourceArn", VStr (incident_resourceArn incident)) ];
              audit_result := AuditSuccess |} ;;
  pure tt.

(** [{ newStatus: status, ...details }] *)
Definition statusDetails (status : IncidentStatus)
    (details : option (list (string * JsValue))) : JsValue :=
  VObj (spread [("newStatus", VStr (statusName status))]
               (match details with
                | Some given => given
                | None => []
                end)).

(** Update incident status. *)
Definition updateIncidentStatus (incidentId : string) (status : IncidentStatus)
    (details : option (list (string * JsValue))) : Store unit :=
  updatedAt <- newDate c ;;
  sendCommand c
    (UpdateCommand incidentsTable [("id", VStr incidentId)]
       "SET #status = :status, updatedAt = :updatedAt"
       [("#status", "status")]
       [ (":status", VStr (statusName status));
         (":updatedAt", VStr (toISOString c updatedAt)) ]) ;;
  timestamp <- newDate c ;;
  logAudit {| audit_incidentId := incidentId;
              audit_timestamp := timestamp;
              audit_action := "status_updated";
              audit_actor := System;
              audit_details := statusDetails status details;
              audit_result := AuditSuccess |} ;;
  pure tt.

(** Save remediation plan. *)
Definition saveRemediationPlan (plan : RemediationPlan) : Store unit :=
  sendCommand c
    (PutCommand plansTable (PlanItem plan (toISOString c (plan_createdAt plan)))) ;;
  timestamp <- newDate c ;;
  logAudit {| audit_incidentId := plan_incidentId plan;
              audit_timestamp := timestamp;
              audit_action := "plan_created";
              audit_actor := System;
              audit_details :=
                VObj [ ("planId", VStr (plan_id plan));
                       ("actionCount",
                        VNum (inject_Z (Z.of_nat (List.length (plan_actions plan)))));
                       ("approvalRequired", VBool (plan_approvalRequired plan)) ];
              audit_result := AuditSuccess |} ;;
  pure tt.

(** Get incident by ID: [None] is [null]. *)
Definition getIncident (incidentId : string) : Store (option (list (string * JsValue))) :=
  response <- sendCommand c (GetCommand incidentsTable [("id", VStr incidentId)]) ;;
  match out_Item response with
  | None => pure None
  | Some item => pure (Some (withDate item))
  end.

(** Get all open incidents. *)
Definition getOpenIncidents : Store (list (list (string * JsValue))) :=
  response <- sendCommand c
                (ScanCommand incidentsTable
                   "#status IN (:open, :investigating, :remediating)"
                   [("#status", "status")]
                   [ (":open", VStr "open");
                     (":investigating", VStr "investigating");
                     (":remediating", VStr "remediating") ]) ;;
  pure (datedItems response).

(** Log action execution. *)
Definition logActionExecution (incidentId actionId : string) (result : AuditOutcome)
    (details : JsValue) : Store unit :=
  timestamp <- newDate c ;;
  logAudit {| audit_incidentId := incidentId;
              audit_timestamp := timestamp;
              audit_action := ("action_executed_" ++ actionId)%string;
              audit_actor := System;
              audit_details := details;
              audit_result := result |} ;;
  pure tt.

(** The key of the cached plan. *)
Definition cacheKey : list (string * JsValue) :=
  [ ("id", VStr "demo_plan_latest"); ("timestamp", VStr "cache") ].

(** [value.key] outside of an [await]. *)
Definition property (value : JsValue) (key : string) : Res JsValue :=
  match value with
  | VUndefined =>
      Throw (ErrorObject ("Cannot read properties of undefined (reading '" ++ key ++ "')"))
  | VNull =>
      Throw (ErrorObject ("Cannot read properties of null (reading '" ++ key ++ "')"))
  | VObj fields | VAugmented _ fields => Ok (param key fields)
  | _ => Ok VUndefined
  end.

(** [response.Item?.payload] *)
Definition payloadOf (response : Output) : JsValue :=
  match out_Item response with
  | Some item => param "payload" item
  | None => VUndefined
  end.

(** Get cached plan for demo reliability. *)
Definition getCachedPlan : Store JsValue :=
  attempt
    (response <- sendCommand c (GetCommand tableName cacheKey) ;;
     if truthy (payloadOf response)
     then
       cached <- outcome (parse c (payloadOf response)) ;;
       outcome (property cached "plan")
     else pure VNull)
    (fun _ => pure VNull).

(** The object that [cachePlan] serialises. *)
Definition cachedValue (plan : JsValue) (cachedAt : Date) : JsValue :=
  VObj [ ("plan", plan); ("cachedAt", VStr (toISOString c cachedAt)) ].

(** Cache plan for demo reliability. *)
Definition cachePlan (plan : JsValue) : Store unit :=
  cachedAt <- newDate c ;;
  sendCommand c
    (PutCommand tableName
       (Fields (cacheKey ++ [("payload", VStr (stringify c (cachedValue plan cachedAt)))]))) ;;
  pure tt.

End Service.

(** The commands of a trace, oldest first. *)
Fixpoint sentCommands (t : Trace) : list Command :=
  match t with
  | [] => []
  | Sent command :: rest => command :: sentCommands rest
  | _ :: rest => sentCommands rest
  end.

(** [command] puts, on the audit table, an entry of [incidentId] for
    [action] with result success. *)
Definition auditPut (tableName action incidentId : string) (command : Command) : bool :=
  match command with
  | PutCommand table (AuditItem _ entry _) =>
      String.eqb table tableName
      && String.eqb (audit_action entry) action
      && String.eqb (audit_incidentId entry) incidentId
      && match audit_result entry with AuditSuccess => true | AuditFailure => false end
  | _ => false
  end.

(** A write that is followed by its audit entry.  [run] reads the clock
    if at all, then sends [primary]; if that is rejected [run] throws the
    error and sends nothing more; otherwise it reads the clock, draws an
    identifier and puts an audit entry of [incidentId] for [action], and
    ends as that put ends. *)
Definition auditedWrite (c : Client) (tableName action incidentId : string)
    (primary : Trace -> Command) (run : Store unit) : Prop :=
  forall t,
  exists before,
    sentCommands before = []
    /\ match send c (t ++ before) (primary t) with
       | Throw e => run t = (Throw e, t ++ before ++ [Sent (primary t)])
       | Ok _ =>
           exists entryPut,
             auditPut tableName action incidentId entryPut = true
             /\ run t
                = (match send c (t ++ before ++ [Sent (primary t); ClockRead; UuidDrawn])
                           entryPut with
                   | Ok _ => Ok tt
                   | Throw e => Throw e
                   end,
                   t ++ before ++ [Sent (primary t); ClockRead; UuidDrawn; Sent entryPut])
       end.

(** [command] reads and does not write. *)
Definition isRead (command : Command) : bool :=
  match command with
  | GetCommand _ _ | QueryCommand _ _ _ _ _ | ScanCommand _ _ _ _ => true
  | PutCommand _ _ | UpdateCommand _ _ _ _ _ => false
  end.

End DynamoDBService.

(* ================================================================= *)
(** ** Further readings of a history *)

(** The calls of the verification phase: the health check, the test
    invocation, the metrics fetch and the clock. *)
Definition verificationCall (c : Call) : bool :=
  match c with
  | CheckFunctionHealth _ => true
  | InvokeFunction _ _ _ => true
  | GetLambdaMetrics _ _ _ => true
  | NewDate => true
  | _ => false
  end.

(** A call that writes an incident status. *)
Definition isStatusUpdate (c : Call) : bool :=
  match c with
  | UpdateIncidentStatus _ _ _ => true
  | _ => false
  end.

(** A call that queries the logs. *)
Definition isQueryLogs (c : Call) : bool :=
  match c with
  | QueryLogs _ _ _ _ => true
  | _ => false
  end.

(** The tool-use requests of a conversation: those of its assistant
    turns, oldest first. *)
Fixpoint requestsOf (messages : list Message) : list ToolUse :=
  match messages with
  | [] => []
  | m :: rest =>
      match msg_role m, msg_content m with
      | RoleAssistant, ToolUses uses => uses ++ requestsOf rest
      | _, _ => requestsOf rest
      end
  end.

(** The tool results of a conversation: those of its user turns, oldest
    first. *)
Fixpoint resultsOf (messages : list Message) : list ToolResult :=
  match messages with
  | [] => []
  | m :: rest =>
      match msg_role m, msg_content m with
      | RoleUser, ToolResults results => results ++ resultsOf rest
      | _, _ => resultsOf rest
      end
  end.

(** A conversation in which every exchange is paired: the task prompt as a
    user turn, then any number of exchanges made of an assistant turn that
    requests at least one tool and the user turn that answers it, result by
    result, under the same invocation identifiers. *)
Inductive WellPaired : list Message -> Prop :=
| paired_seed (prompt : string) :
    WellPaired [userTurn (Text prompt)]
| paired_exchange (conversation : list Message)
    (uses : list ToolUse) (results : list ToolResult) :
    WellPaired conversation ->
    uses <> [] ->
    map tr_toolUseId results = map use_toolUseId uses ->
    WellPaired (conversation ++
                [assistantTurn (ToolUses uses); userTurn (ToolResults results)]).

(** A conversation as the loop leaves it: well paired, possibly closed by
    one assistant turn of text. *)
Definition Finished (messages : list Message) : Prop :=
  WellPaired messages
  \/ exists conversation text,
       messages = conversation ++ [assistantTurn (Text text)]
       /\ WellPaired conversation.

(** What the loop maintains between iterations: the recorded tool calls
    and the results fed back are those of the requests made so far. *)
Definition paired (st : Bedrock.LoopState) : Prop :=
  Bedrock.st_toolCalls st
    = map Bedrock.recordedCall (requestsOf (Bedrock.st_messages st))
  /\ resultsOf (Bedrock.st_messages st)
     = map Bedrock.mockResult (requestsOf (Bedrock.st_messages st)).

(** A call that writes no incident status. *)
Definition notStatusUpdate (c : Call) : bool := negb (isStatusUpdate c).

(** The handler of [action] succeeds whenever it is run. *)
Definition alwaysSucceeds (env : Env) (action : RemediationAction) : Prop :=
  forall h result h',
    Agent.executeAction env action h = (Ok result, h') -> result_success result = true.

(** The lifecycle of an incident that went through the whole pipeline. *)
Definition finalStatusOf (verification : VerificationResult) : IncidentStatus :=
  if verification_success verification then Resolved else Failed.

(* ================================================================= *)
(** ** Further test doubles *)

Module MoreStubs.

(** An incident on a resource that is not a Lambda function. *)
Definition queueIncident : Incident :=
  {| incident_id := "incident-2";
     incident_timestamp := 0;
     incident_severity := Medium;
     incident_resourceArn := "arn:aws:sqs:us-east-1:123456789012:orders-queue";
     incident_resourceType := RtEc2;
     incident_description := "Queue depth keeps growing";
     incident_metrics := None;
     incident_logs := None;
     incident_status := Open |}.

(** The fallback action of the classifier. *)
Definition manualAction : RemediationAction :=
  {| action_id := "M";
     action_type := Custom;
     action_description := "Manual investigation required";
     action_parameters := [("note", VStr "Please look at the queue consumers")];
     action_rollbackPlan := None;
     action_order := 1 |}.

Definition restartAction : RemediationAction :=
  {| action_id := "R";
     action_type := RestartService;
     action_description := "Update function configuration to trigger restart";
     action_parameters := [("functionName", VStr "checkout")];
     action_rollbackPlan := None;
     action_order := 2 |}.

(** A function configuration with two environment variables. *)
Definition configWithVariables : JsValue :=
  VObj [ ("FunctionName", VStr "checkout");
         ("Timeout", VNum 30);
         ("Environment",
          VObj [ ("Variables",
                  VObj [ ("STAGE", VStr "prod"); ("LOG_LEVEL", VStr "info") ]) ]) ].

(** The environment of [Stubs.stubEnv] with a resource controller that
    returns [configWithVariables]. *)
Definition envWithVariables : Env :=
  let base := Stubs.stubEnv (Stubs.saying "") Stubs.updateSucceeds in
  {| bedrock_send := bedrock_send base;
     cw_getLambdaMetrics := cw_getLambdaMetrics base;
     cw_queryLogs := cw_queryLogs base;
     cw_getMetrics := cw_getMetrics base;
     lambda_getFunctionConfig := fun _ _ => Ok configWithVariables;
     lambda_updateFunctionConfig := lambda_updateFunctionConfig base;
     lambda_invokeFunction := lambda_invokeFunction base;
     lambda_checkFunctionHealth := lambda_checkFunctionHealth base;
     db_saveIncident := db_saveIncident base;
     db_updateIncidentStatus := db_updateIncidentStatus base;
     db_saveRemediationPlan := db_saveRemediationPlan base;
     db_logAudit := db_logAudit base;
     db_logActionExecution := db_logActionExecution base;
     sys_now := sys_now base;
     sys_uuid := sys_uuid base;
     js_stringify := js_stringify base;
     js_toISOString := js_toISOString base;
     js_parseDate := js_parseDate base;
     js_numberToString := js_numberToString base |}.

(** The environment of [Stubs.stubEnv] with a metrics source that is
    down. *)
Definition envNoMetrics : Env :=
  let base := Stubs.stubEnv (Stubs.saying "Timeout too low") Stubs.updateSucceeds in
  {| bedrock_send := bedrock_send base;
     cw_getLambdaMetrics := fun _ _ _ _ => Throw (ErrorObject "AccessDenied");
     cw_queryLogs := cw_queryLogs base;
     cw_getMetrics := cw_getMetrics base;
     lambda_getFunctionConfig := lambda_getFunctionConfig base;
     lambda_updateFunctionConfig := lambda_updateFunctionConfig base;
     lambda_invokeFunction := lambda_invokeFunction base;
     lambda_checkFunctionHealth := lambda_checkFunctionHealth base;
     db_saveIncident := db_saveIncident base;
     db_updateIncidentStatus := db_updateIncidentStatus base;
     db_saveRemediationPlan := db_saveRemediationPlan base;
     db_logAudit := db_logAudit base;
     db_logActionExecution := db_logActionExecution base;
     sys_now := sys_now base;
     sys_uuid := sys_uuid base;
     js_stringify := js_stringify base;
     js_toISOString := js_toISOString base;
     js_parseDate := js_parseDate base;
     js_numberToString := js_numberToString base |}.

(** The environment of [Stubs.stubEnv] with a resource controller whose
    configuration read is denied. *)
Definition envConfigDown : Env :=
  let base := Stubs.stubEnv (Stubs.saying "") Stubs.updateSucceeds in
  {| bedrock_send := bedrock_send base;
     cw_getLambdaMetrics := cw_getLambdaMetrics base;
     cw_queryLogs := cw_queryLogs base;
     cw_getMetrics := cw_getMetrics base;
     lambda_getFunctionConfig := fun _ _ => Throw (ErrorObject "AccessDenied");
     lambda_updateFunctionConfig := lambda_updateFunctionConfig base;
     lambda_invokeFunction := lambda_invokeFunction base;
     lambda_checkFunctionHealth := lambda_checkFunctionHealth base;
     db_saveIncident := db_saveIncident base;
     db_updateIncidentStatus := db_updateIncidentStatus base;
     db_saveRemediationPlan := db_saveRemediationPlan base;
     db_logAudit := db_logAudit base;
     db_logActionExecution := db_logActionExecution base;
     sys_now := sys_now base;
     sys_uuid := sys_uuid base;
     js_stringify := js_stringify base;
     js_toISOString := js_toISOString base;
     js_parseDate := js_parseDate base;
     js_numberToString := js_numberToString base |}.

(** A new incident on the checkout function, and a status query. *)
Definition checkoutEvent : Handler.IncidentEvent :=
  {| Handler.event_incidentId := None;
     Handler.event_severity := High;
     Handler.event_resourceArn := "arn:aws:lambda:us-east-1:123456789012:function:checkout";
     Handler.event_resourceType := RtLambda;
     Handler.event_description := "Timeouts on checkout";
     Handler.event_metrics := None;
     Handler.event_logs := None |}.

(** The two reads of a store that knows nothing. *)
Definition noRecord : string -> M JsValue := fun _ => ret VNull.

(** A document client that keeps what was put: a [GetCommand] is answered
    by the properties of the last object put, and the serialisation of the
    one cached value is read back. *)
Fixpoint lastFields (t : DynamoDBService.Trace) : option (list (string * JsValue)) :=
  match t with
  | [] => None
  | DynamoDBService.Sent (DynamoDBService.PutCommand _ (DynamoDBService.Fields fields))
      :: rest =>
      match lastFields rest with
      | Some later => Some later
      | None => Some fields
      end
  | _ :: rest => lastFields rest
  end.

Definition memoryClient : DynamoDBService.Client :=
  {| DynamoDBService.send := fun t command =>
       match command with
       | DynamoDBService.GetCommand _ _ =>
           Ok {| DynamoDBService.out_Item := lastFields t;
                 DynamoDBService.out_Items := None |}
       | _ => Ok {| DynamoDBService.out_Item := None; DynamoDBService.out_Items := None |}
       end;
     DynamoDBService.now := fun t => Z.of_nat (List.length t);
     DynamoDBService.uuid := fun _ => "uuid-1";
     DynamoDBService.toISOString := fun _ => "1970-01-01T00:00:00.000Z";
     DynamoDBService.stringify := fun _ => "{serialised}";
     DynamoDBService.parse := fun _ =>
       Ok (VObj [ ("plan", VObj [("intent", VStr "reduce_timeouts")]);
                  ("cachedAt", VStr "1970-01-01T00:00:00.000Z") ]);
     DynamoDBService.parseDate := fun _ => 0%Z |}.

(** No conversion of other values to numbers is needed by the doubles. *)
Definition noNumber : JsValue -> option Q := fun _ => None.

(** Every collaborator answers and every update is accepted. *)
Definition envAllFine : Env :=
  Stubs.stubEnv (Stubs.saying "Raise the timeout and redeploy") Stubs.updateSucceeds.

End MoreStubs.

(* ================================================================= *)
(** * Properties *)

Open Scope nat_scope.

(** ** Reasoning about [async] computations *)

Lemma bind_Ok {A B : Type} (m : M A) (k : A -> M B) (h h' : History) (b : B) :
  bind m k h = (Ok b, h') ->
  exists a h1, m h = (Ok a, h1) /\ k a h1 = (Ok b, h').
Proof.
  unfold bind. destruct (m h) as [[a | e] h1]; intros H.
  - exists a, h1. split; [reflexivity | exact H].
  - discriminate H.
Qed.

Lemma ret_Ok {A : Type} (a b : A) (h h' : History) :
  ret a h = (Ok b, h') -> a = b /\ h' = h.
Proof. unfold ret. intros H. inversion H. split; reflexivity. Qed.

Lemma makes_ret {A : Type} (P : Call -> bool) (a : A) : makes P (ret a).
Proof.
  intros h r h' H. inversion H. exists []. split; [symmetry; apply app_nil_r | reflexivity].
Qed.

Lemma makes_throw {A : Type} (P : Call -> bool) (e : Thrown) : makes P (@throw A e).
Proof.
  intros h r h' H. inversion H. exists []. split; [symmetry; apply app_nil_r | reflexivity].
Qed.

Lemma makes_perform {A : Type} (P : Call -> bool) (c : Call) (answer : History -> Res A) :
  P c = true -> makes P (perform c answer).
Proof.
  intros Hc h r h' H. inversion H. exists [c]. split; [reflexivity |].
  simpl. rewrite Hc. reflexivity.
Qed.

Lemma makes_bind {A B : Type} (P : Call -> bool) (m : M A) (k : A -> M B) :
  makes P m -> (forall a, makes P (k a)) -> makes P (bind m k).
Proof.
  intros Hm Hk h r h' H. unfold bind in H.
  destruct (m h) as [[a | e] h1] eqn:E.
  - destruct (Hm _ _ _ E) as [n1 [-> F1]].
    destruct (Hk a _ _ _ H) as [n2 [-> F2]].
    exists (n1 ++ n2). split; [symmetry; apply app_assoc |].
    rewrite forallb_app, F1, F2. reflexivity.
  - inversion H; subst. exact (Hm _ _ _ E).
Qed.

Lemma makes_try_catch {A : Type} (P : Call -> bool) (body : M A) (handler : Thrown -> M A) :
  makes P body -> (forall e, makes P (handler e)) -> makes P (try_catch body handler).
Proof.
  intros Hb Hh h r h' H. unfold try_catch in H.
  destruct (body h) as [[a | e] h1] eqn:E.
  - inversion H; subst. exact (Hb _ _ _ E).
  - destruct (Hb _ _ _ E) as [n1 [-> F1]].
    destruct (Hh e _ _ _ H) as [n2 [-> F2]].
    exists (n1 ++ n2). split; [symmetry; apply app_assoc |].
    rewrite forallb_app, F1, F2. reflexivity.
Qed.

Lemma makes_member (P : Call -> bool) (v : JsValue) (key : string) : makes P (member v key).
Proof. destruct v; simpl; first [apply makes_ret | apply makes_throw]. Qed.

Lemma makes_setMember (P : Call -> bool) (env : Env) (o : JsValue) (key : string)
    (v : JsValue) :
  makes P (setMember env o key v).
Proof. destruct o; simpl; first [apply makes_ret | apply makes_throw]. Qed.

(** Steps through a computation built from the monad's operations. *)
Ltac makes_step :=
  first
    [ apply makes_ret
    | apply makes_throw
    | apply makes_member
    | apply makes_setMember
    | apply makes_perform; reflexivity
    | apply makes_bind; [| intros ?]
    | apply makes_try_catch; [| intros ?] ].

Lemma sendCount_app (h1 h2 : History) : sendCount (h1 ++ h2) = sendCount h1 + sendCount h2.
Proof. unfold sendCount. rewrite filter_app, length_app. reflexivity. Qed.

Lemma loggedActions_app (h1 h2 : History) :
  loggedActions (h1 ++ h2) = loggedActions h1 ++ loggedActions h2.
Proof.
  induction h1 as [| c h1 IH]; simpl.
  - reflexivity.
  - destruct c; simpl; rewrite IH; reflexivity.
Qed.

(** ** Remediation planner and safety gate *)

Section PlannerFacts.

Import Agent.

Variable env : Env.

(** The classifier never throws and emits one or two actions. *)
Lemma parseRemediationActions_count (planText : string) (incident : Incident)
    (h : History) :
  exists actions h',
    parseRemediationActions env planText incident h = (Ok actions, h')
    /\ 1 <= List.length actions <= 2.
Proof.
  unfold parseRemediationActions, bind, uuidv4, perform, ret.
  destruct (includes (toLowerCase planText) "memory" || includes (toLowerCase planText) "timeout");
    destruct (includes (toLowerCase planText) "restart" || includes (toLowerCase planText) "redeploy");
    simpl; eexists; eexists; (split; [reflexivity | simpl; lia]).
Qed.

Lemma generateRemediationPlan_shape (incident : Incident) (diagnosis : DiagnosisResult)
    (h h' : History) (plan : RemediationPlan) :
  generateRemediationPlan env incident diagnosis h = (Ok plan, h') ->
  exists id actions createdAt,
    plan = assemblePlan id incident actions (performSafetyChecks actions incident) createdAt
    /\ 1 <= List.length actions <= 2.
Proof.
  unfold generateRemediationPlan. intros H.
  apply bind_Ok in H. destruct H as [currentConfig [h1 [_ H]]].
  apply bind_Ok in H. destruct H as [planText [h2 [_ H]]].
  apply bind_Ok in H. destruct H as [actions [h3 [Hparse H]]].
  apply bind_Ok in H. destruct H as [id [h4 [_ H]]].
  apply bind_Ok in H. destruct H as [createdAt [h5 [_ H]]].
  apply ret_Ok in H. destruct H as [<- _].
  exists id, actions, createdAt. split; [reflexivity |].
  destruct (parseRemediationActions_count planText incident h2) as [actions' [h3' [E L]]].
  rewrite E in Hparse. inversion Hparse; subst. exact L.
Qed.

End PlannerFacts.

Lemma assemblePlan_gate (id : string) (incident : Incident)
    (actions : list RemediationAction) (safetyChecks : list SafetyCheck) (createdAt : Date) :
  plan_approvalRequired (Agent.assemblePlan id incident actions safetyChecks createdAt) = true
  <-> exists check, In check safetyChecks /\ check_passed check = false.
Proof.
  unfold Agent.assemblePlan; simpl. rewrite existsb_exists.
  split; intros [check [Hin Hp]]; exists check; (split; [exact Hin |]).
  - apply negb_true_iff. exact Hp.
  - rewrite Hp. reflexivity.
Qed.

(** The rate limit passes exactly when there are at most five actions: it
    passes for five and fails for six. *)
Lemma rate_limit_threshold (actions : list RemediationAction) (incident : Incident)
    (check : SafetyCheck) :
  In check (Agent.performSafetyChecks actions incident) ->
  check_type check = RateLimit ->
  check_passed check = (List.length actions <=? 5).
Proof.
  unfold Agent.performSafetyChecks. simpl.
  intros [<- | [<- | [<- | []]]] Hty; simpl in *; congruence.
Qed.

(** C1: in every plan the planner assembles, [approvalRequired] is true if
    and only if at least one of the plan's safety checks has
    [passed = false]; the plan literal computes the flag this way whatever
    the list of checks is. *)
Theorem C1_approval_iff_some_check_failed
    (env : Env) (incident : Incident) (diagnosis : DiagnosisResult)
    (h h' : History) (plan : RemediationPlan) :
  (Agent.generateRemediationPlan env incident diagnosis h = (Ok plan, h') ->
   (plan_approvalRequired plan = true
    <-> exists check, In check (plan_safetyChecks plan) /\ check_passed check = false))
  /\ (forall id actions safetyChecks createdAt,
        plan_approvalRequired
          (Agent.assemblePlan id incident actions safetyChecks createdAt) = true
        <-> exists check, In check safetyChecks /\ check_passed check = false).
Proof.
  split.
  - intros H.
    destruct (generateRemediationPlan_shape _ _ _ _ H) as [id [actions [createdAt [-> _]]]].
    apply assemblePlan_gate.
  - intros id actions safetyChecks createdAt. apply assemblePlan_gate.
Qed.

(** C10: every plan the planner produces has [approvalRequired = false]:
    the classifier emits one or two actions, so the rate limit passes, and
    the two other checks are marked passed whatever the actions are. *)
Theorem C10_generated_plans_never_need_approval
    (env : Env) (incident : Incident) (diagnosis : DiagnosisResult)
    (h h' : History) (plan : RemediationPlan) :
  Agent.generateRemediationPlan env incident diagnosis h = (Ok plan, h') ->
  plan_approvalRequired plan = false
  /\ List.length (plan_actions plan) <= 2
  /\ Forall (fun check => check_passed check = true) (plan_safetyChecks plan)
  /\ (forall (actions : list RemediationAction) (check : SafetyCheck),
        In check (Agent.performSafetyChecks actions incident) ->
        check_type check <> RateLimit -> check_passed check = true).
Proof.
  intros H.
  destruct (generateRemediationPlan_shape _ _ _ _ H) as [id [actions [createdAt [-> L]]]].
  assert (R : (List.length actions <=? 5) = true) by (apply Nat.leb_le; lia).
  repeat split.
  - unfold Agent.assemblePlan, Agent.performSafetyChecks; simpl. rewrite R. reflexivity.
  - simpl. lia.
  - unfold Agent.assemblePlan, Agent.performSafetyChecks; simpl. rewrite R.
    repeat constructor.
  - intros actions' check Hin Hty. unfold Agent.performSafetyChecks in Hin. simpl in Hin.
    destruct Hin as [<- | [<- | [<- | []]]]; simpl in *; congruence.
Qed.

(** The planner at a narrative that mentions memory and a restart, and
    the plan literal at six actions, where the rate limit fails and the
    flag is set. *)
Lemma C1_planner_witness :
  (exists plan h',
      Agent.generateRemediationPlan Stubs.plannerEnv Stubs.incident Stubs.diagnosis []
        = (Ok plan, h')
      /\ (plan_approvalRequired plan = true
          <-> exists check, In check (plan_safetyChecks plan) /\ check_passed check = false))
  /\ (plan_approvalRequired Stubs.planOfSix = true
      /\ exists check,
           In check (plan_safetyChecks Stubs.planOfSix) /\ check_passed check = false).
Proof.
  split.
  - destruct (Agent.generateRemediationPlan Stubs.plannerEnv Stubs.incident Stubs.diagnosis [])
      as [[plan | e] h'] eqn:E.
    + exists plan, h'. split; [reflexivity |].
      exact (proj1 (@C1_approval_iff_some_check_failed
                      Stubs.plannerEnv Stubs.incident Stubs.diagnosis [] h' plan) E).
    + vm_compute in E. discriminate E.
  - split; [reflexivity |].
    apply (proj2 (@C1_approval_iff_some_check_failed
                    Stubs.plannerEnv Stubs.incident Stubs.diagnosis [] []
                    Stubs.planOfSix)
                 "plan-6" Stubs.sixActions
                 (Agent.performSafetyChecks Stubs.sixActions Stubs.incident) 0%Z).
    reflexivity.
Defined.

(** The same run of the planner: two actions, every check passed. *)
Lemma C10_planner_witness :
  exists plan h',
    Agent.generateRemediationPlan Stubs.plannerEnv Stubs.incident Stubs.diagnosis []
      = (Ok plan, h')
    /\ plan_approvalRequired plan = false
    /\ List.length (plan_actions plan) <= 2
    /\ Forall (fun check => check_passed check = true) (plan_safetyChecks plan)
    /\ (forall (actions : list RemediationAction) (check : SafetyCheck),
          In check (Agent.performSafetyChecks actions Stubs.incident) ->
          check_type check <> RateLimit -> check_passed check = true).
Proof.
  destruct (Agent.generateRemediationPlan Stubs.plannerEnv Stubs.incident Stubs.diagnosis [])
    as [[plan | e] h'] eqn:E.
  - exists plan, h'. split; [reflexivity |].
    exact (@C10_generated_plans_never_need_approval
             Stubs.plannerEnv Stubs.incident Stubs.diagnosis [] h' plan E).
  - vm_compute in E. discriminate E.
Defined.

(** ** Execution sequencer *)

(** C2: for every plan with [approvalRequired = true], [executeRemediation]
    returns the empty result list and leaves the history as it was: no
    action handler is invoked and no execution is recorded. *)
Theorem C2_approval_gate_blocks_execution
    (env : Env) (incident : Incident) (plan : RemediationPlan) (h : History) :
  plan_approvalRequired plan = true ->
  Agent.executeRemediation env incident plan h = (Ok [], h).
Proof.
  intros H. unfold Agent.executeRemediation. rewrite H. reflexivity.
Qed.

(** The plan of six actions is gated. *)
Lemma C2_six_actions_witness :
  plan_approvalRequired Stubs.planOfSix = true
  /\ Agent.executeRemediation Stubs.envBFails Stubs.incident Stubs.planOfSix []
     = (Ok [], []).
Proof.
  split.
  - reflexivity.
  - apply (@C2_approval_gate_blocks_execution
             Stubs.envBFails Stubs.incident Stubs.planOfSix []).
    reflexivity.
Defined.

(** *** The sort by [order] *)

Lemma insertByOrder_perm (a : RemediationAction) (l : list RemediationAction) :
  Permutation (a :: l) (Agent.insertByOrder a l).
Proof.
  induction l as [| b l IH]; simpl.
  - apply Permutation_refl.
  - destruct (action_order a <=? action_order b)%Z.
    + apply Permutation_refl.
    + apply perm_trans with (l' := b :: a :: l); [apply perm_swap |].
      apply perm_skip. exact IH.
Qed.

Lemma sortByOrder_perm (l : list RemediationAction) :
  Permutation l (Agent.sortByOrder l).
Proof.
  induction l as [| a l IH]; simpl.
  - apply perm_nil.
  - apply perm_trans with (l' := a :: Agent.sortByOrder l).
    + apply perm_skip. exact IH.
    + apply insertByOrder_perm.
Qed.

Lemma insertByOrder_sorted (a : RemediationAction) (l : list RemediationAction) :
  StronglySorted leOrder l -> StronglySorted leOrder (Agent.insertByOrder a l).
Proof.
  induction l as [| b l IH]; simpl; intros Hs.
  - constructor; constructor.
  - apply StronglySorted_inv in Hs. destruct Hs as [Hl Hb].
    destruct (Z.leb_spec (action_order a) (action_order b)) as [Hle | Hgt].
    + constructor.
      * constructor; assumption.
      * constructor; [exact Hle |].
        eapply Forall_impl; [| exact Hb]. unfold leOrder in *. intros c Hc. lia.
    + constructor.
      * apply IH. exact Hl.
      * eapply Permutation_Forall; [apply insertByOrder_perm |].
        constructor; [unfold leOrder; lia | exact Hb].
Qed.

Lemma sortByOrder_sorted (l : list RemediationAction) :
  StronglySorted leOrder (Agent.sortByOrder l).
Proof.
  induction l as [| a l IH]; simpl.
  - constructor.
  - apply insertByOrder_sorted. exact IH.
Qed.

(** A list in strictly ascending order is the only ascending arrangement
    of its elements. *)
Lemma ascending_unique (l1 : list RemediationAction) :
  forall l2,
    StronglySorted leOrder l1 -> StronglySorted ltOrder l2 ->
    Permutation l1 l2 -> l1 = l2.
Proof.
  induction l1 as [| a t1 IH]; intros l2 S1 S2 P.
  - apply Permutation_nil in P. subst. reflexivity.
  - destruct l2 as [| b t2].
    + apply Permutation_sym, Permutation_nil in P. discriminate P.
    + apply StronglySorted_inv in S1. destruct S1 as [S1 F1].
      apply StronglySorted_inv in S2. destruct S2 as [S2 F2].
      assert (E : a = b).
      { assert (Ia : In a (b :: t2)) by (eapply Permutation_in; [exact P | left; reflexivity]).
        assert (Ib : In b (a :: t1)).
        { eapply Permutation_in; [apply Permutation_sym; exact P | left; reflexivity]. }
        destruct Ia as [Ea | Ia]; [symmetry; exact Ea |].
        destruct Ib as [Eb | Ib]; [exact Eb |].
        rewrite Forall_forall in F1, F2.
        specialize (F1 _ Ib). specialize (F2 _ Ia).
        unfold leOrder, ltOrder in *. lia. }
      subst b. f_equal. apply IH; [exact S1 | exact S2 |].
      eapply Permutation_cons_inv. exact P.
Qed.

Lemma sortByOrder_three (actions : list RemediationAction) (A B C : RemediationAction) :
  Permutation actions [A; B; C] ->
  action_order A = 1%Z -> action_order B = 2%Z -> action_order C = 3%Z ->
  Agent.sortByOrder actions = [A; B; C].
Proof.
  intros P HA HB HC. apply ascending_unique.
  - apply sortByOrder_sorted.
  - unfold ltOrder. repeat constructor; lia.
  - eapply perm_trans; [apply Permutation_sym, sortByOrder_perm | exact P].
Qed.

(** *** The action loop *)

Section SequencerFacts.

Import Agent.

Variable env : Env.
Variable incident : Incident.

Lemma dispatch_makes (action : RemediationAction) : makes handlerCall (dispatch env action).
Proof.
  unfold dispatch. destruct (action_type action);
    unfold Lambda.updateFunctionConfig, Lambda.getFunctionConfig, newDate;
    repeat makes_step.
Qed.

Lemma executeAction_makes (action : RemediationAction) :
  makes handlerCall (executeAction env action).
Proof.
  unfold executeAction, newDate. repeat makes_step. apply dispatch_makes.
Qed.

(** [executeAction] catches every failure: it always returns a result, for
    the action it was given. *)
Lemma executeAction_total (action : RemediationAction) (h : History) :
  exists result new,
    executeAction env action h = (Ok result, h ++ new)
    /\ result_actionId result = action_id action
    /\ loggedActions new = [].
Proof.
  assert (T : exists result h',
             executeAction env action h = (Ok result, h')
             /\ result_actionId result = action_id action).
  { unfold executeAction, try_catch, bind, newDate, perform, ret.
    destruct (dispatch env action h) as [[output | e] h1];
      eexists; eexists; (split; reflexivity). }
  destruct T as [result [h' [E Hid]]].
  destruct (executeAction_makes action _ E) as [new [-> F]].
  exists result, new. split; [exact E |]. split; [exact Hid |].
  clear E. induction new as [| c new IH]; [reflexivity |].
  simpl in F. apply andb_true_iff in F. destruct F as [Fc Fn].
  destruct c; simpl in *; try discriminate Fc; apply IH; exact Fn.
Qed.

(** The loop attempts a prefix of its actions, one after the other: each
    attempt is recorded, every attempt but the last succeeded, and the loop
    stops before the end only after a failed attempt. *)
Lemma runActions_prefix (actions : list RemediationAction) :
  forall (results : list ExecutionResult) (h : History)
         (r : Res (list ExecutionResult)) (h' : History),
    runActions env incident actions results h = (r, h') ->
    exists k new,
      k <= List.length actions
      /\ h' = h ++ new
      /\ Attempts env incident h (firstn k actions) h'
      /\ loggedActions new = map action_id (firstn k actions)
      /\ (auditSinkAccepts env -> exists out, r = Ok out)
      /\ (forall out, r = Ok out ->
            exists fresh,
              out = results ++ fresh
              /\ map result_actionId fresh = map action_id (firstn k actions)
              /\ Forall (fun x => result_success x = true) (removelast fresh)
              /\ (k < List.length actions ->
                  exists init x, fresh = init ++ [x] /\ result_success x = false)).
Proof.
  induction actions as [| action rest IH]; intros results h r h' H.
  - simpl in H. inversion H; subst. exists 0, []. simpl.
    split; [lia |]. split; [symmetry; apply app_nil_r |]. split; [constructor |].
    split; [reflexivity |].
    split; [intros _; eexists; reflexivity |].
    intros out E. inversion E; subst. exists []. rewrite app_nil_r.
    repeat split; try constructor. intros Hlt. lia.
  - cbn [runActions] in H. unfold bind at 1 in H.
    destruct (executeAction_total action h) as [result [n1 [E1 [Hid L1]]]].
    rewrite E1 in H. unfold bind at 1 in H.
    unfold DynamoDB.logActionExecution, perform in H.
    set (c := LogActionExecution (incident_id incident) (action_id action)
                (if result_success result then AuditSuccess else AuditFailure)
                (VObj [("action", VStr (actionTypeName (action_type action)));
                       ("output", optionalValue (result_output result));
                       ("error", optionalString (result_error result))])) in *.
    assert (Lc : loggedActions (n1 ++ [c]) = [action_id action]).
    { rewrite loggedActions_app, L1. reflexivity. }
    destruct (db_logActionExecution env (h ++ n1) (incident_id incident) (action_id action)
                (if result_success result then AuditSuccess else AuditFailure)
                (VObj [("action", VStr (actionTypeName (action_type action)));
                       ("output", optionalValue (result_output result));
                       ("error", optionalString (result_error result))]))
      as [[] | e] eqn:Elog.
    + destruct (result_success result) eqn:Hs; simpl in H.
      * destruct (IH _ _ _ _ H) as [k [n2 [Hk [-> [A2 [L2 [T2 R2]]]]]]].
        exists (S k), ((n1 ++ [c]) ++ n2).
        split; [simpl; lia |].
        split; [rewrite !app_assoc; reflexivity |].
        split.
        { eapply attempts_next; [exact E1 |].
          unfold executionRecord. rewrite Hs. exact A2. }
        split; [rewrite loggedActions_app, Lc, L2; reflexivity |].
        split; [exact T2 |].
        intros out E. destruct (R2 out E) as [fresh [-> [Hm [Hf Hl]]]].
        exists (result :: fresh).
        split; [rewrite <- app_assoc; reflexivity |].
        split; [simpl; rewrite Hid, Hm; reflexivity |].
        split.
        { destruct fresh as [| y fresh]; [constructor |].
          change (removelast (result :: y :: fresh))
            with (result :: removelast (y :: fresh)).
          constructor; [exact Hs | exact Hf]. }
        intros Hlt. simpl in Hlt.
        destruct Hl as [init [x [-> Hx]]]; [lia |].
        exists (result :: init), x. split; [reflexivity | exact Hx].
      * unfold ret in H. inversion H; subst.
        exists 1, (n1 ++ [c]).
        split; [simpl; lia |].
        split; [rewrite app_assoc; reflexivity |].
        split.
        { eapply attempts_next; [exact E1 |].
          unfold executionRecord. rewrite Hs. constructor. }
        split; [exact Lc |].
        split; [intros _; eexists; reflexivity |].
        intros out E. inversion E; subst. exists [result].
        split; [reflexivity |].
        split; [simpl; rewrite Hid; reflexivity |].
        split; [constructor |].
        intros _. exists [], result. split; [reflexivity | exact Hs].
    + inversion H; subst.
      exists 1, (n1 ++ [c]).
      split; [simpl; lia |].
      split; [rewrite app_assoc; reflexivity |].
      split; [eapply attempts_next; [exact E1 | constructor] |].
      split; [exact Lc |].
      split.
      * intros Hacc. rewrite Hacc in Elog. discriminate Elog.
      * intros out E. discriminate E.
Qed.

End SequencerFacts.



(** ** Tool-calling loop *)

Section ToolLoopFacts.

Import Bedrock.

Variable env : Env.
Variable tools : ToolConfiguration.

(** One iteration makes exactly one call, to the reasoning service. *)
Lemma iteration_call (st : LoopState) (h : History)
    (r : Res (bool * LoopState)) (h' : History) :
  iteration env tools st h = (r, h') ->
  h' = h ++ [BedrockSend (iterationInput tools st)].
Proof.
  unfold iteration, bind, converse, perform. cbn [req_modelId req_messages req_temperature
    req_maxTokens req_toolConfig option_map].
  fold (iterationInput tools st).
  destruct (bedrock_send env h (iterationInput tools st)) as [response | e].
  - destruct (output_message response) as [message |]; [| intros H; inversion H; reflexivity].
    destruct (bmsg_content message) as [content |]; [| intros H; inversion H; reflexivity].
    destruct (List.length (collectToolUses content) =? 0);
      intros H; inversion H; reflexivity.
  - intros H; inversion H; reflexivity.
Qed.

(** An iteration in which the reasoning service asks for tools. *)
Lemma iteration_with_tools (st : LoopState) (h : History)
    (toolUse : ToolUse) (rest : list ToolUse) :
  requestedTools (bedrock_send env h (iterationInput tools st)) = Some (toolUse :: rest) ->
  iteration env tools st h =
    (Ok (true,
         {| st_messages :=
              (st_messages st ++ [assistantTurn (ToolUses (toolUse :: rest))]) ++
              [userTurn (ToolResults (map mockResult (toolUse :: rest)))];
            st_toolCalls := st_toolCalls st ++ map recordedCall (toolUse :: rest);
            st_iterations := S (st_iterations st) |}),
     h ++ [BedrockSend (iterationInput tools st)]).
Proof.
  unfold requestedTools, iteration, bind, converse, perform.
  cbn [req_modelId req_messages req_temperature req_maxTokens req_toolConfig option_map].
  fold (iterationInput tools st).
  destruct (bedrock_send env h (iterationInput tools st)) as [response | e]; [| discriminate].
  destruct (output_message response) as [message |]; [| discriminate].
  destruct (bmsg_content message) as [content |]; [| discriminate].
  intros H. inversion H as [Hc]. rewrite Hc. reflexivity.
Qed.

(** An iteration in which the reasoning service answers without asking
    for a tool. *)
Lemma iteration_without_tools (st : LoopState) (h : History) :
  requestedTools (bedrock_send env h (iterationInput tools st)) = Some [] ->
  exists text,
    iteration env tools st h =
      (Ok (false,
           {| st_messages := st_messages st ++ [assistantTurn (Text text)];
              st_toolCalls := st_toolCalls st;
              st_iterations := S (st_iterations st) |}),
       h ++ [BedrockSend (iterationInput tools st)]).
Proof.
  unfold requestedTools, iteration, bind, converse, perform.
  cbn [req_modelId req_messages req_temperature req_maxTokens req_toolConfig option_map].
  fold (iterationInput tools st).
  destruct (bedrock_send env h (iterationInput tools st)) as [response | e]; [| discriminate].
  destruct (output_message response) as [message |]; [| discriminate].
  destruct (bmsg_content message) as [content |]; [| discriminate].
  intros H. inversion H as [Hc]. rewrite Hc.
  exists (extractTextFromContent content). reflexivity.
Qed.

(** What an iteration that returns did to the loop variables. *)
Lemma iteration_effect (st : LoopState) (h : History)
    (continue : bool) (st' : LoopState) (h' : History) :
  iteration env tools st h = (Ok (continue, st'), h') ->
  st_iterations st' = S (st_iterations st)
  /\ (continue = true ->
      exists toolUse rest,
        requestedTools (bedrock_send env h (iterationInput tools st)) = Some (toolUse :: rest)
        /\ st_messages st' =
             (st_messages st ++ [assistantTurn (ToolUses (toolUse :: rest))]) ++
             [userTurn (ToolResults (map mockResult (toolUse :: rest)))]
        /\ st_toolCalls st' = st_toolCalls st ++ map recordedCall (toolUse :: rest))
  /\ (continue = false -> st_toolCalls st' = st_toolCalls st).
Proof.
  unfold requestedTools, iteration, bind, converse, perform.
  cbn [req_modelId req_messages req_temperature req_maxTokens req_toolConfig option_map].
  fold (iterationInput tools st).
  destruct (bedrock_send env h (iterationInput tools st)) as [response | e]; [| discriminate].
  destruct (output_message response) as [message |].
  2: { intros H; inversion H; subst.
       split; [reflexivity |]. split; [discriminate | intros _; reflexivity]. }
  destruct (bmsg_content message) as [content |].
  2: { intros H; inversion H; subst.
       split; [reflexivity |]. split; [discriminate | intros _; reflexivity]. }
  destruct (collectToolUses content) as [| toolUse rest];
    cbn [List.length Nat.eqb Nat.ltb Nat.leb]; intros H; inversion H; subst.
  - split; [reflexivity |]. split; [discriminate | intros _; reflexivity].
  - split; [reflexivity |]. split; [| discriminate].
    intros _. exists toolUse, rest. split; [reflexivity |]. split; reflexivity.
Qed.

(** The loop calls nothing but the reasoning service, at most once per
    unit of budget; [iterations] counts these calls, and every tool call it
    records carries the placeholder output. *)
Lemma loop_bound (remaining : nat) :
  forall (st : LoopState) (h : History) (r : Res LoopState) (h' : History),
    loop env tools remaining st h = (r, h') ->
    exists new,
      h' = h ++ new
      /\ forallb isBedrockSend new = true
      /\ List.length new <= remaining
      /\ (forall st', r = Ok st' ->
            st_iterations st' = st_iterations st + List.length new
            /\ (Forall placeholderOutput (st_toolCalls st) ->
                Forall placeholderOutput (st_toolCalls st'))).
Proof.
  induction remaining as [| remaining IH]; intros st h r h' H.
  - simpl in H. inversion H; subst. exists []. rewrite app_nil_r.
    split; [reflexivity |]. split; [reflexivity |]. split; [simpl; lia |].
    intros st' E. inversion E; subst. simpl. split; [lia | auto].
  - cbn [loop] in H. unfold bind at 1 in H.
    destruct (iteration env tools st h) as [[[continue st1] | e] h1] eqn:E.
    + pose proof (iteration_call _ _ E) as ->.
      destruct (iteration_effect _ _ E) as [Hi [Hc Hn]].
      destruct continue; cbn [fst snd] in H.
      * destruct (IH _ _ _ _ H) as [new [-> [F [L R]]]].
        exists (BedrockSend (iterationInput tools st) :: new).
        split; [rewrite <- app_assoc; reflexivity |].
        split; [simpl; exact F |]. split; [simpl; lia |].
        intros st' Er. destruct (R st' Er) as [R1 R2]. split; [simpl; lia |].
        intros Hp. apply R2.
        destruct (Hc eq_refl) as [toolUse [rest [_ [_ ->]]]].
        apply Forall_app. split; [exact Hp |].
        apply Forall_forall. intros c Hin. apply in_map_iff in Hin.
        destruct Hin as [u [<- _]]. reflexivity.
      * unfold ret in H. inversion H; subst.
        exists [BedrockSend (iterationInput tools st)].
        split; [reflexivity |]. split; [reflexivity |]. split; [simpl; lia |].
        intros st' Er. inversion Er; subst. split; [simpl; lia |].
        rewrite (Hn eq_refl). auto.
    + inversion H; subst. pose proof (iteration_call _ _ E) as ->.
      exists [BedrockSend (iterationInput tools st)].
      split; [reflexivity |]. split; [reflexivity |]. split; [simpl; lia |].
      intros st' Er. discriminate Er.
Qed.

Hypothesis always : alwaysRequestsTools env.

(** With a service that always asks for tools the loop uses its whole
    budget and ends on a user turn that carries tool results. *)
Lemma loop_exhausts (remaining : nat) :
  forall (st : LoopState) (h : History),
    exists st' new,
      loop env tools remaining st h = (Ok st', h ++ new)
      /\ forallb isBedrockSend new = true
      /\ List.length new = remaining
      /\ st_iterations st' = st_iterations st + remaining
      /\ (lastRole (st_messages st) = Some RoleUser ->
          lastRole (st_messages st') = Some RoleUser).
Proof.
  induction remaining as [| remaining IH]; intros st h.
  - exists st, []. simpl. rewrite app_nil_r.
    split; [reflexivity |]. split; [reflexivity |]. split; [reflexivity |].
    split; [lia | auto].
  - cbn [loop]. unfold bind at 1.
    destruct (always h (iterationInput tools st)) as [toolUse [rest Hreq]].
    rewrite (iteration_with_tools _ _ Hreq). cbn [fst snd].
    match goal with
    | |- context [loop env tools remaining ?s ?h0] =>
        destruct (IH s h0) as [st' [new [E [F [L [I R]]]]]]
    end.
    exists st', (BedrockSend (iterationInput tools st) :: new).
    split; [rewrite E, <- app_assoc; reflexivity |].
    split; [exact F |]. split; [simpl; lia |].
    split; [cbn [st_iterations] in I; lia |].
    intros _. apply R. cbn [st_messages]. unfold lastRole.
    rewrite map_app. cbn [map]. apply last_last.
Qed.

End ToolLoopFacts.

Lemma finalResponseOf_user_turn (messages : list Message) :
  lastRole messages = Some RoleUser ->
  Bedrock.finalResponseOf messages = "Workflow completed".
Proof.
  unfold lastRole, Bedrock.finalResponseOf.
  induction messages as [| m messages IH]; [discriminate |].
  destruct messages as [| m' messages].
  - simpl. intros H. inversion H as [Hr]. rewrite Hr. reflexivity.
  - intros H. apply IH. exact H.
Qed.

(** C4: [executeAgenticWorkflow] calls the reasoning service at most
    [maxIterations] times, and [iterations] counts these calls; with a
    service that asks for at least one tool in every reply it returns after
    exactly [maxIterations] calls; with a service that asks for one tool in
    its first reply and answers without tools in its second, and a budget of
    at least 2, it returns after exactly 2 calls with exactly one tool call
    recorded. *)
Theorem C4_iteration_budget
    (env : Env) (initialPrompt : string) (tools : ToolConfiguration)
    (maxIterations : nat) (h : History) :
  (forall r h',
      Bedrock.executeAgenticWorkflow env initialPrompt tools maxIterations h = (r, h') ->
      exists new,
        h' = h ++ new
        /\ forallb isBedrockSend new = true
        /\ List.length new <= maxIterations
        /\ (forall res, r = Ok res -> Bedrock.iterations res = List.length new))
  /\ (alwaysRequestsTools env ->
      exists res new,
        Bedrock.executeAgenticWorkflow env initialPrompt tools maxIterations h
          = (Ok res, h ++ new)
        /\ forallb isBedrockSend new = true
        /\ List.length new = maxIterations
        /\ Bedrock.iterations res = maxIterations)
  /\ (2 <= maxIterations ->
      (forall input, exists toolUse,
          requestedTools (bedrock_send env h input) = Some [toolUse]) ->
      (forall first input,
          requestedTools (bedrock_send env (h ++ [BedrockSend first]) input) = Some []) ->
      exists res new toolUse,
        Bedrock.executeAgenticWorkflow env initialPrompt tools maxIterations h
          = (Ok res, h ++ new)
        /\ forallb isBedrockSend new = true
        /\ List.length new = 2
        /\ Bedrock.iterations res = 2
        /\ Bedrock.toolCalls res = [Bedrock.recordedCall toolUse]).
Proof.
  split; [| split].
  - intros r h' H. unfold Bedrock.executeAgenticWorkflow, bind in H.
    destruct (Bedrock.loop env tools maxIterations (Bedrock.initialState initialPrompt) h)
      as [[st | e] h1] eqn:E;
      destruct (@loop_bound env tools _ _ _ _ _ E) as [new [-> [F [L R]]]];
      inversion H; subst; exists new;
      (split; [reflexivity |]); (split; [exact F |]); (split; [exact L |]).
    + intros res Er. inversion Er; subst. simpl.
      destruct (R st eq_refl) as [R1 _]. exact R1.
    + intros res Er. discriminate Er.
  - intros always.
    destruct (@loop_exhausts env tools always maxIterations (Bedrock.initialState initialPrompt) h)
      as [st [new [E [F [L [I _]]]]]].
    unfold Bedrock.executeAgenticWorkflow, bind. rewrite E.
    eexists. exists new. split; [reflexivity |]. split; [exact F |]. split; [exact L |].
    simpl. exact I.
  - intros Hbudget Hfirst Hsecond.
    destruct maxIterations as [| [| budget]]; [lia | lia |].
    unfold Bedrock.executeAgenticWorkflow.
    destruct (Hfirst (Bedrock.iterationInput tools (Bedrock.initialState initialPrompt)))
      as [toolUse Hreq].
    unfold bind at 1. cbn [Bedrock.loop]. unfold bind at 1.
    rewrite (@iteration_with_tools env tools _ _ _ _ Hreq). cbn [fst snd].
    unfold bind at 1.
    match goal with
    | |- context [Bedrock.iteration env tools ?s ?h0] =>
        destruct (@iteration_without_tools env tools s h0 (Hsecond _ _)) as [text Ei];
        rewrite Ei
    end.
    cbn [fst snd]. unfold ret. rewrite <- (app_assoc h [_] [_]).
    eexists. eexists. exists toolUse.
    split; [reflexivity |].
    split; [reflexivity |]. split; [reflexivity |]. split; reflexivity.
Qed.

(** The budget theorem at a stub that always asks for a tool (budget 3)
    and at a stub that asks once and then answers (budget 10). *)
Lemma C4_witness_stubs :
  (exists res new,
      Bedrock.executeAgenticWorkflow Stubs.envAlwaysTool "Investigate" Stubs.noTools 3 []
        = (Ok res, new)
      /\ List.length new = 3 /\ Bedrock.iterations res = 3)
  /\ (exists res new,
        Bedrock.executeAgenticWorkflow Stubs.envToolThenText "Investigate" Stubs.noTools 10 []
          = (Ok res, new)
        /\ List.length new = 2 /\ Bedrock.iterations res = 2
        /\ List.length (Bedrock.toolCalls res) = 1).
Proof.
  split.
  - destruct (@C4_iteration_budget Stubs.envAlwaysTool "Investigate" Stubs.noTools 3 [])
      as [_ [Always _]].
    destruct Always as [res [new [E [_ [L I]]]]].
    + intros h input. eexists. exists []. reflexivity.
    + exists res, new. split; [exact E |]. split; [exact L | exact I].
  - destruct (@C4_iteration_budget Stubs.envToolThenText "Investigate" Stubs.noTools 10 [])
      as [_ [_ Once]].
    destruct Once as [res [new [toolUse [E [_ [L [I T]]]]]]].
    + lia.
    + intros input. eexists. reflexivity.
    + intros first input. reflexivity.
    + exists res, new. split; [exact E |]. split; [exact L |]. split; [exact I |].
      rewrite T. reflexivity.
Defined.

(** C6 (amended): when the reasoning service asks for tools in every
    reply, so that the loop uses its whole budget without a final text
    answer, [executeAgenticWorkflow] still returns normally, after
    [maxIterations] iterations, and its [finalResponse] is the fixed text
    "Workflow completed". *)
Theorem C6_exhausted_budget_yields_placeholder
    (env : Env) (initialPrompt : string) (tools : ToolConfiguration)
    (maxIterations : nat) (h : History) :
  alwaysRequestsTools env ->
  exists res new,
    Bedrock.executeAgenticWorkflow env initialPrompt tools maxIterations h
      = (Ok res, h ++ new)
    /\ Bedrock.iterations res = maxIterations
    /\ Bedrock.finalResponse res = "Workflow completed".
Proof.
  intros always.
  destruct (@loop_exhausts env tools always maxIterations (Bedrock.initialState initialPrompt) h)
    as [st [new [E [_ [_ [I R]]]]]].
  unfold Bedrock.executeAgenticWorkflow, bind. rewrite E.
  eexists. exists new. split; [reflexivity |]. split; [exact I |].
  simpl. apply finalResponseOf_user_turn. apply R. reflexivity.
Qed.

(** A stub that always asks for a tool, with a budget of 2. *)
Lemma C6_witness_always_tool :
  exists res new,
    Bedrock.executeAgenticWorkflow Stubs.envAlwaysTool "Investigate" Stubs.noTools 2 []
      = (Ok res, new)
    /\ Bedrock.iterations res = 2
    /\ Bedrock.finalResponse res = "Workflow completed".
Proof.
  apply (@C6_exhausted_budget_yields_placeholder
           Stubs.envAlwaysTool "Investigate" Stubs.noTools 2 []).
  intros h input. eexists. exists []. reflexivity.
Defined.

(** C6, as stated, fails: with a service that always asks for a tool and a
    budget of 2, the last assistant turn of the conversation holds the
    tool requests, and [finalResponse] is not that content but
    "Workflow completed". *)
Lemma C6_counterexample_last_assistant_turn :
  exists st res h' content,
    Bedrock.loop Stubs.envAlwaysTool Stubs.noTools 2 (Bedrock.initialState "Investigate") []
      = (Ok st, h')
    /\ Bedrock.executeAgenticWorkflow Stubs.envAlwaysTool "Investigate" Stubs.noTools 2 []
       = (Ok res, h')
    /\ Bedrock.iterations res = 2
    /\ lastAssistantContent (Bedrock.st_messages st) = Some content
    /\ Bedrock.contentToString content = "[object Object]"
    /\ Bedrock.finalResponse res = "Workflow completed"
    /\ Bedrock.finalResponse res <> Bedrock.contentToString content.
Proof.
  eexists. eexists. eexists. eexists.
  split; [cbv; reflexivity |].
  split; [cbv; reflexivity |].
  split; [reflexivity |].
  split; [cbv; reflexivity |].
  split; [reflexivity |].
  split; [reflexivity |].
  cbv. discriminate.
Qed.




(** ** Orchestrator *)

Lemma returnsWith_ret {A : Type} (P : Call -> bool) (a : A) : returnsWith P (ret a).
Proof. intros h. exists a, []. rewrite app_nil_r. split; reflexivity. Qed.

Lemma returnsWith_bind {A B : Type} (P : Call -> bool) (m : M A) (k : A -> M B) :
  returnsWith P m -> (forall a, returnsWith P (k a)) -> returnsWith P (bind m k).
Proof.
  intros Hm Hk h. destruct (Hm h) as [a [n1 [E1 F1]]].
  destruct (Hk a (h ++ n1)) as [b [n2 [E2 F2]]].
  exists b, (n1 ++ n2). unfold bind. rewrite E1, E2, app_assoc.
  split; [reflexivity |]. rewrite forallb_app, F1, F2. reflexivity.
Qed.

Lemma returnsWith_try_catch {A : Type} (P : Call -> bool) (body : M A)
    (handler : Thrown -> M A) :
  makes P body -> (forall e, returnsWith P (handler e)) ->
  returnsWith P (try_catch body handler).
Proof.
  intros Hb Hh h. unfold try_catch.
  destruct (body h) as [[a | e] h1] eqn:E; destruct (Hb _ _ _ E) as [n1 [-> F1]].
  - exists a, n1. split; [reflexivity | exact F1].
  - destruct (Hh e (h ++ n1)) as [a [n2 [E2 F2]]].
    exists a, (n1 ++ n2). rewrite E2, app_assoc.
    split; [reflexivity |]. rewrite forallb_app, F1, F2. reflexivity.
Qed.

Lemma telemetry_is_investigation (new : History) :
  forallb telemetryCall new = true -> forallb investigationCall new = true.
Proof.
  induction new as [| c new IH]; simpl; [reflexivity |].
  intros H. apply andb_true_iff in H. destruct H as [Hc Hn].
  rewrite (IH Hn). destruct c; simpl in *; congruence.
Qed.

Lemma telemetry_sends_nothing (new : History) :
  forallb telemetryCall new = true -> sendCount new = 0.
Proof.
  unfold sendCount. induction new as [| c new IH]; simpl; [reflexivity |].
  intros H. apply andb_true_iff in H. destruct H as [Hc Hn].
  destruct c; simpl in *; try discriminate Hc; apply IH; exact Hn.
Qed.

Lemma statusUpdates_app (incidentId : string) (h1 h2 : History) :
  statusUpdates incidentId (h1 ++ h2)
  = statusUpdates incidentId h1 ++ statusUpdates incidentId h2.
Proof.
  induction h1 as [| c h1 IH]; simpl; [reflexivity |].
  destruct c; simpl; try exact IH.
  destruct (String.eqb incidentId0 incidentId); simpl; rewrite IH; reflexivity.
Qed.

Lemma statusUpdates_telemetry (incidentId : string) (new : History) :
  forallb telemetryCall new = true -> statusUpdates incidentId new = [].
Proof.
  induction new as [| c new IH]; simpl; [reflexivity |].
  intros H. apply andb_true_iff in H. destruct H as [Hc Hn].
  destruct c; simpl in *; try discriminate Hc; apply IH; exact Hn.
Qed.

Lemma statusUpdates_investigation (incidentId : string) (new : History) :
  forallb investigationCall new = true ->
  Forall (fun status => status = Investigating) (statusUpdates incidentId new).
Proof.
  induction new as [| c new IH]; simpl; [constructor |].
  intros H. apply andb_true_iff in H. destruct H as [Hc Hn].
  destruct c; simpl in *; try discriminate Hc; try (apply IH; exact Hn).
  destruct (String.eqb incidentId0 incidentId).
  - constructor; [destruct status; try discriminate Hc; reflexivity | apply IH; exact Hn].
  - apply IH. exact Hn.
Qed.

Section OrchestratorFacts.

Import Agent.

Variable env : Env.
Variable incident : Incident.
Variable e : Thrown.

(** The reasoning service fails whenever it is called. *)
Hypothesis unavailable : forall h input, bedrock_send env h input = Throw e.

(** The data gathering swallows its failures. *)
Lemma gatherTelemetry_returns (functionName : option string) (startTime endTime : Date) :
  returnsWith telemetryCall (gatherTelemetry env functionName startTime endTime).
Proof.
  unfold gatherTelemetry. destruct functionName as [name |]; [| apply returnsWith_ret].
  apply returnsWith_bind.
  - apply returnsWith_try_catch; [| intros ?; apply returnsWith_ret].
    unfold CloudWatch.getLambdaMetrics. repeat makes_step.
  - intros [metrics |]; [| apply returnsWith_ret].
    apply returnsWith_bind; [| intros ?; apply returnsWith_ret].
    apply returnsWith_try_catch; [| intros ?; apply returnsWith_ret].
    unfold CloudWatch.queryLogs. repeat makes_step.
Qed.

(** The diagnosis error leaves [investigate] as it is: after the data
    gathering and the one request to the reasoning service, before any
    audit entry. *)
Lemma investigate_throws (h : History) :
  exists gathering input,
    investigate env incident h = (Throw e, h ++ gathering ++ [BedrockSend input])
    /\ forallb telemetryCall gathering = true.
Proof.
  unfold investigate. unfold bind at 1. unfold newDate at 1, perform.
  unfold bind at 1.
  match goal with
  | |- context [gatherTelemetry env ?f ?s ?t ?h0] =>
      destruct (gatherTelemetry_returns f s t h0) as [gathered [n1 [E F]]]; rewrite E
  end.
  unfold bind at 1. unfold Bedrock.diagnoseIncident. unfold bind at 1.
  unfold Bedrock.converse, perform. rewrite unavailable.
  exists (NewDate :: n1). eexists. split.
  - rewrite <- !app_assoc. reflexivity.
  - simpl. exact F.
Qed.

End OrchestratorFacts.

(** C9 (amended): if the reasoning-service call made during diagnosis
    errors, [handleIncident] ends in a throw after calls of the
    investigation phase only, with at most one request to the reasoning
    service: nothing of planning, execution or verification is performed,
    and no status other than [investigating] is written, so the incident is
    not set to failed.  When the incident store accepts the two writes that
    precede the diagnosis, the thrown error is the reasoning service's own,
    [investigating] is the one status written, and the calls made are the
    two writes, the data gathering and the diagnosis request. *)
Theorem C9_diagnosis_error_halts_pipeline
    (env : Env) (incident : Incident) (e : Thrown) (h : History) :
  (forall h0 input, bedrock_send env h0 input = Throw e) ->
  exists e' new,
    Agent.handleIncident env incident h = (Throw e', h ++ new)
    /\ forallb investigationCall new = true
    /\ sendCount new <= 1
    /\ ~ In Failed (statusUpdates (incident_id incident) new)
    /\ ((forall h0, db_saveIncident env h0 incident = Ok tt) ->
        (forall h0 status details,
            db_updateIncidentStatus env h0 (incident_id incident) status details = Ok tt) ->
        e' = e
        /\ statusUpdates (incident_id incident) new = [Investigating]
        /\ exists gathering input,
             new = [SaveIncident incident;
                    UpdateIncidentStatus (incident_id incident) Investigating None]
                   ++ gathering ++ [BedrockSend input]
             /\ forallb telemetryCall gathering = true).
Proof.
  intros unavailable.
  assert (Shape :
    exists e' new,
      Agent.handleIncident env incident h = (Throw e', h ++ new)
      /\ forallb investigationCall new = true
      /\ sendCount new <= 1
      /\ ((forall h0, db_saveIncident env h0 incident = Ok tt) ->
          (forall h0 status details,
              db_updateIncidentStatus env h0 (incident_id incident) status details = Ok tt) ->
          e' = e
          /\ exists gathering input,
               new = [SaveIncident incident;
                      UpdateIncidentStatus (incident_id incident) Investigating None]
                     ++ gathering ++ [BedrockSend input]
               /\ forallb telemetryCall gathering = true)).
  { unfold Agent.handleIncident. unfold bind at 1.
    unfold DynamoDB.saveIncident, perform.
    destruct (db_saveIncident env h incident) as [[] | e1] eqn:Esave.
    - unfold bind at 1. unfold DynamoDB.updateIncidentStatus at 1, perform.
      destruct (db_updateIncidentStatus env (h ++ [SaveIncident incident])
                  (incident_id incident) Investigating None) as [[] | e2] eqn:Eupdate.
      + unfold bind at 1.
        match goal with
        | |- context [Agent.investigate env incident ?h0] =>
            destruct (@investigate_throws env incident e unavailable h0)
              as [gathering [input [Ei Fi]]]; rewrite Ei
        end.
        exists e. eexists. split; [rewrite <- !app_assoc; reflexivity |].
        split.
        { simpl. rewrite forallb_app, (telemetry_is_investigation _ Fi). reflexivity. }
        split.
        { rewrite !sendCount_app, (telemetry_sends_nothing _ Fi).
          unfold sendCount. simpl. lia. }
        intros _ _. split; [reflexivity |].
        exists gathering, input. split; [reflexivity | exact Fi].
      + exists e2. eexists. split; [rewrite <- !app_assoc; reflexivity |].
        split; [reflexivity |]. split; [unfold sendCount; simpl; lia |].
        intros _ Hupdate. rewrite Hupdate in Eupdate. discriminate Eupdate.
    - exists e1, [SaveIncident incident]. split; [reflexivity |].
      split; [reflexivity |]. split; [unfold sendCount; simpl; lia |].
      intros Hsave _. rewrite Hsave in Esave. discriminate Esave. }
  destruct Shape as [e' [new [E [F [S X]]]]].
  exists e', new. split; [exact E |]. split; [exact F |]. split; [exact S |]. split.
  - intros Hin.
    pose proof (statusUpdates_investigation (incident_id incident) _ F) as Hall.
    rewrite Forall_forall in Hall. specialize (Hall _ Hin). discriminate Hall.
  - intros Hsave Hupdate.
    destruct (X Hsave Hupdate) as [He [gathering [input [Hn Fg]]]].
    split; [exact He |]. split.
    + rewrite Hn, !statusUpdates_app, (statusUpdates_telemetry _ _ Fg).
      simpl. rewrite String.eqb_refl. reflexivity.
    + exists gathering, input. split; assumption.
Qed.

(** The orchestrator when the reasoning service is down and the incident
    store accepts every write. *)
Lemma C9_witness_service_unavailable :
  exists e' new,
    Agent.handleIncident Stubs.envUnavailable Stubs.incident [] = (Throw e', new)
    /\ forallb investigationCall new = true
    /\ sendCount new <= 1
    /\ ~ In Failed (statusUpdates "incident-1" new)
    /\ e' = ErrorObject "ServiceUnavailableException"
    /\ statusUpdates "incident-1" new = [Investigating].
Proof.
  destruct (@C9_diagnosis_error_halts_pipeline
              Stubs.envUnavailable Stubs.incident
              (ErrorObject "ServiceUnavailableException") [])
    as [e' [new [E [F [S [N X]]]]]].
  - intros h0 input. reflexivity.
  - destruct X as [He [Hs _]].
    + intros h0. reflexivity.
    + intros h0 status details. reflexivity.
    + exists e', new. repeat split; assumption.
Defined.

(** C9, as stated, fails: with the reasoning service down,
    [handleIncident] throws the service's error, the only status ever
    written for the incident is [investigating], and no call sets it to
    [failed]. *)
Lemma C9_counterexample_status_stays_investigating :
  exists new,
    Agent.handleIncident Stubs.envUnavailable Stubs.incident []
      = (Throw (ErrorObject "ServiceUnavailableException"), new)
    /\ statusUpdates "incident-1" new = [Investigating]
    /\ last (statusUpdates "incident-1" new) Open <> Failed
    /\ ~ (exists details, In (UpdateIncidentStatus "incident-1" Failed details) new).
Proof.
  eexists. split; [cbv; reflexivity |].
  split; [reflexivity |]. split; [discriminate |].
  intros [details Hin]. simpl in Hin.
  repeat (destruct Hin as [Hin | Hin]; [discriminate Hin |]). exact Hin.
Qed.

(** ** Telemetry analyzer *)

Section TelemetryFacts.

Import Telemetry.
Local Open Scope R_scope.

Lemma mean_1_2_1_10 : mean [1; 2; 1; 10] = 7 / 2.
Proof. unfold mean; simpl. lra. Qed.

Lemma variance_1_2_1_10 : variance [1; 2; 1; 10] = 57 / 4.
Proof. unfold variance. rewrite mean_1_2_1_10. simpl. lra. Qed.

Lemma stdDev_1_2_1_10_bounds :
  13 / 4 < stdDev [1; 2; 1; 10] /\ stdDev [1; 2; 1; 10] * stdDev [1; 2; 1; 10] = 57 / 4.
Proof.
  unfold stdDev. rewrite variance_1_2_1_10. split.
  - replace (13 / 4) with (sqrt ((13 / 4) * (13 / 4))) at 1 by (apply sqrt_square; lra).
    apply sqrt_lt_1_alt. lra.
  - apply sqrt_sqrt. lra.
Qed.

Lemma zscore_1_2_1_10_small (v : R) :
  0 <= v <= 10 -> zscoreOf [1; 2; 1; 10] v <= 2.
Proof.
  intros Hv. unfold zscoreOf.
  destruct stdDev_1_2_1_10_bounds as [Hlt Hsq].
  destruct (Req_dec_T (stdDev [1; 2; 1; 10]) 0) as [E | _]; [lra |].
  rewrite mean_1_2_1_10.
  set (s := stdDev [1; 2; 1; 10]) in *.
  unfold Rdiv. rewrite Rabs_mult.
  rewrite (Rabs_pos_eq (/ s)) by (left; apply Rinv_0_lt_compat; lra).
  apply Rmult_le_reg_r with (r := s); [lra |].
  rewrite Rmult_assoc, Rinv_l, Rmult_1_r by lra.
  apply Rle_trans with (r2 := 13 / 2); [| lra].
  apply Rabs_le. lra.
Qed.

Lemma exceeds_false (threshold : R) (item : Anomaly) :
  zscore item <= threshold -> exceeds threshold item = false.
Proof.
  intros H. unfold exceeds. destruct (Rgt_dec (zscore item) threshold); [lra | reflexivity].
Qed.

Lemma filter_mapi_from_none {A B : Type} (p : B -> bool) (f : A -> nat -> B) (l : list A) :
  (forall x i, In x l -> p (f x i) = false) ->
  forall i, filter p (mapi_from f i l) = [].
Proof.
  induction l as [| x l IH]; intros Hp i; simpl.
  - reflexivity.
  - rewrite Hp by (left; reflexivity). apply IH.
    intros y j Hy. apply Hp. right. exact Hy.
Qed.

(** C7: on the series [1,2,1,10] with threshold 2 the analyzer, which uses
    the population mean 3.5 and the population standard deviation
    sqrt(14.25), gives every point a z-score of at most 2 (the value 10
    scores about 1.72), so it flags nothing and reports
    [hasAnomaly = false]; the repository's unit test expects the value 10
    to be flagged. *)
Theorem C7_series_1_2_1_10_flags_nothing :
  analyzeMetricAnomalies series_1_2_1_10 2 =
    {| hasAnomaly := false; anomalies := [] |}
  /\ zscoreOf (values series_1_2_1_10) 10 <= 2.
Proof.
  split.
  - unfold analyzeMetricAnomalies, mapi.
    cbn [values series_1_2_1_10 List.length Nat.ltb Nat.leb].
    rewrite filter_mapi_from_none; [reflexivity |].
    intros x i Hx. apply exceeds_false. cbn [zscore].
    apply zscore_1_2_1_10_small.
    simpl in Hx. decompose [or] Hx; subst; try lra; contradiction.
  - apply zscore_1_2_1_10_small. lra.
Qed.

End TelemetryFacts.

(** *** The analyzer on doubles *)

Section Telemetry64Facts.

Import PrimFloat Telemetry64.
Local Open Scope float_scope.

(** On doubles too the series [1,2,1,10] with threshold 2 is not flagged:
    the value 10 scores about 1.72. *)
Lemma binary64_series_1_2_1_10 :
  analyzeMetricAnomalies product series_1_2_1_10 2
  = {| hasAnomaly := false; anomalies := [] |}
  /\ (zscoreOf product (values series_1_2_1_10) 10 <? 2) = true.
Proof. vm_compute. split; reflexivity. Qed.

(** C8, as stated, fails on the code in two ways.  The mean of
    [0.1, 0.1, 0.1] is rounded to 0.10000000000000002, so the standard
    deviation computed for this constant series is 2^-56 and not 0, the
    guarded branch is not taken, every point gets the z-score 1 and all
    three are flagged at the threshold 0.5.  And where the standard
    deviation is 0, as for [5, 5, 5], every z-score is 0, which exceeds a
    negative threshold: all three points are flagged at -1. *)
Lemma C8_counterexample_rounded_mean :
  values series_tenths = [tenth; tenth; tenth]
  /\ stdDev product (values series_tenths) = 0x1p-56
  /\ hasAnomaly (analyzeMetricAnomalies product series_tenths 0.5) = true
  /\ map zscore (anomalies (analyzeMetricAnomalies product series_tenths 0.5)) = [1; 1; 1]
  /\ stdDev product (values series_5_5_5) = 0
  /\ hasAnomaly (analyzeMetricAnomalies product series_5_5_5 (-1)) = true
  /\ map zscore (anomalies (analyzeMetricAnomalies product series_5_5_5 (-1))) = [0; 0; 0].
Proof. vm_compute. repeat split. Qed.

(** C8 (amended): for every series whose computed standard deviation is
    0, as it is for the constant series [5,5,5], and every threshold that
    is not negative, every point gets the z-score 0 through the guarded
    branch, no point is flagged and [hasAnomaly] is false, however
    [Math.pow] rounds. *)
Theorem C8_zero_deviation_never_flagged
    (square : float -> float) (metricData : MetricData float) (threshold : float) :
  (stdDev square (values metricData) =? 0) = true ->
  (threshold <? 0) = false ->
  analyzeMetricAnomalies square metricData threshold
  = {| hasAnomaly := false; anomalies := [] |}
  /\ (forall v, zscoreOf square (values metricData) v = 0).
Proof.
  intros Hsd Hth.
  assert (Hz : forall v, zscoreOf square (values metricData) v = 0).
  { intros v. unfold zscoreOf. rewrite Hsd. reflexivity. }
  split; [| exact Hz].
  unfold analyzeMetricAnomalies, Telemetry.mapi.
  destruct (List.length (values metricData) <? 3)%nat; [reflexivity |].
  rewrite filter_mapi_from_none; [reflexivity |].
  intros x i _. unfold exceeds. cbn [zscore]. rewrite Hz. exact Hth.
Qed.

(** The amended C8 at the constant series [5,5,5] with the default
    threshold 2. *)
Lemma C8_zero_deviation_witness :
  analyzeMetricAnomalies product series_5_5_5 2
  = {| hasAnomaly := false; anomalies := [] |}
  /\ (forall v, zscoreOf product (values series_5_5_5) v = 0).
Proof.
  apply (@C8_zero_deviation_never_flagged product series_5_5_5 2).
  - vm_compute. reflexivity.
  - vm_compute. reflexivity.
Defined.

End Telemetry64Facts.

(* ================================================================= *)
(** * Further properties of the modelled code *)

(** ** Verifier *)

Section VerifierFacts.

Import Agent.

Variable env : Env.
Variable incident : Incident.


(** For a resource whose ARN names no function, [verify] evaluates no
    check at all: it reads the clock once and reports success with an empty
    check list and [metricsImproved = false]. *)
Theorem verify_without_function_name (h : History) :
  extractFunctionName (incident_resourceArn incident) = None ->
  verify env incident h =
    (Ok {| verification_success := true;
           verification_timestamp := sys_now env h;
           verification_checks := [];
           verification_metricsImproved := false |},
     h ++ [NewDate]).
Proof.
  intros H. unfold verify. rewrite H. reflexivity.
Qed.

End VerifierFacts.

Lemma verify_without_function_name_witness :
  Agent.extractFunctionName (incident_resourceArn MoreStubs.queueIncident) = None
  /\ exists result,
       Agent.verify Stubs.plannerEnv MoreStubs.queueIncident [] = (Ok result, [NewDate])
       /\ verification_success result = true
       /\ verification_checks result = [].
Proof.
  split; [reflexivity |].
  eexists. split.
  - apply (@verify_without_function_name Stubs.plannerEnv MoreStubs.queueIncident []).
    reflexivity.
  - split; reflexivity.
Defined.

(** ** Action handlers *)

Lemma lookup_assign_same {A : Type} (key : string) (value : A) (fields : list (string * A)) :
  lookup key (assign key value fields) = Some value.
Proof.
  induction fields as [| [k v] fields IH]; simpl.
  - rewrite String.eqb_refl. reflexivity.
  - destruct (String.eqb k key) eqn:E; simpl; rewrite E; [reflexivity | exact IH].
Qed.

Lemma lookup_assign_other {A : Type} (key other : string) (value : A)
    (fields : list (string * A)) :
  other <> key ->
  lookup other (assign key value fields) = lookup other fields.
Proof.
  intros Hne. induction fields as [| [k v] fields IH]; simpl.
  - destruct (String.eqb_spec key other) as [E | _]; [congruence | reflexivity].
  - destruct (String.eqb_spec k key) as [E | Hk]; simpl.
    + subst k. destruct (String.eqb_spec key other) as [E | _]; [congruence | reflexivity].
    + destruct (String.eqb k other); [reflexivity | exact IH].
Qed.

Section HandlerFacts.

Import Agent.

Variable env : Env.

(** [executeAction] never throws: whatever the resource controller does,
    it returns a result for the action it was given, after calls to the
    resource controller and the clock only.  The handler ([dispatch])
    decides the result.  When the handler returns an output, the result is
    a success that carries this output and no error.  When the handler
    throws, the result is a failure that carries no output and, as its
    error, the message of the very error thrown ([error.message], or
    [String(error)] for a value that is not an [Error]).  So an update that
    the resource controller rejects fails the action with the controller's
    own message, and so does a configuration read rejected during a
    restart. *)
Theorem executeAction_never_throws (action : RemediationAction) (h : History) :
  exists result new,
    executeAction env action h = (Ok result, h ++ new)
    /\ forallb handlerCall new = true
    /\ result_actionId result = action_id action
    /\ match dispatch env action h with
       | (Ok output, h1) =>
           h ++ new = h1 ++ [NewDate]
           /\ result_success result = true
           /\ result_output result = Some output
           /\ result_error result = None
       | (Throw e, h1) =>
           h ++ new = h1 ++ [NewDate]
           /\ result_success result = false
           /\ result_output result = None
           /\ result_error result = Some (errorText e)
       end
    /\ (forall e,
          action_type action = UpdateConfig ->
          lambda_updateFunctionConfig env h
            (param "functionName" (action_parameters action))
            {| upd_timeout := param "timeout" (action_parameters action);
               upd_memorySize := param "memorySize" (action_parameters action);
               upd_environment := None |} = Throw e ->
          result_success result = false /\ result_error result = Some (errorText e))
    /\ (forall e,
          action_type action = RestartService ->
          lambda_getFunctionConfig env h
            (param "functionName" (action_parameters action)) = Throw e ->
          result_success result = false /\ result_error result = Some (errorText e)).
Proof.
  destruct (dispatch env action h) as [[output | e] h1] eqn:D;
    destruct (dispatch_makes env action _ D) as [n1 [-> F1]];
    unfold executeAction, try_catch, bind; rewrite D;
    unfold newDate, perform, ret;
    eexists; exists (n1 ++ [NewDate]);
    (split; [rewrite app_assoc; reflexivity |]);
    (split; [rewrite forallb_app, F1; reflexivity |]);
    (split; [reflexivity |]);
    (split; [repeat split; rewrite app_assoc; reflexivity |]);
    cbn [result_success result_error];
    (split; intros e' Ht Hthrow; unfold dispatch in D; rewrite Ht in D).
  - unfold Lambda.updateFunctionConfig, perform in D. rewrite Hthrow in D. discriminate D.
  - unfold bind, Lambda.getFunctionConfig, perform in D. rewrite Hthrow in D. discriminate D.
  - unfold Lambda.updateFunctionConfig, perform in D. rewrite Hthrow in D.
    inversion D. split; reflexivity.
  - unfold bind, Lambda.getFunctionConfig, perform in D. rewrite Hthrow in D.
    inversion D. split; reflexivity.
Qed.

(** An action whose type has no handler ([scale_resources], [rollback],
    [custom]) is reported as a success although nothing is done: the
    resource controller is not called, the only call is the clock read for
    [executedAt], and the output is the note that the type is not
    implemented. *)
Theorem unhandled_action_types_report_success (action : RemediationAction) (h : History) :
  action_type action <> UpdateConfig ->
  action_type action <> RestartService ->
  executeAction env action h =
    (Ok {| result_actionId := action_id action;
           result_success := true;
           result_executedAt := sys_now env h;
           result_output :=
             Some (VObj [("message", VStr "Action type not implemented for auto-execution")]);
           result_error := None;
           result_rollbackExecuted := None |},
     h ++ [NewDate]).
Proof.
  intros H1 H2. unfold executeAction, dispatch.
  destruct (action_type action); try congruence; reflexivity.
Qed.

(** The restart handler keeps the function's environment: when the
    configuration read back holds an [Environment.Variables] object, the
    handler reads the configuration, reads the clock and sends one update
    whose environment holds [LAST_RESTART], set to the clock's ISO text,
    and every other variable with the value it had; timeout and memory size
    are left out of the update. *)
Theorem restart_keeps_environment_variables
    (action : RemediationAction) (h : History)
    (config environment : list (string * JsValue)) (variables : list (string * JsValue)) :
  action_type action = RestartService ->
  lambda_getFunctionConfig env h (param "functionName" (action_parameters action))
    = Ok (VObj config) ->
  lookup "Environment" config = Some (VObj environment) ->
  lookup "Variables" environment = Some (VObj variables) ->
  exists sent,
    dispatch env action h =
      (lambda_updateFunctionConfig env
         (h ++ [GetFunctionConfig (param "functionName" (action_parameters action)); NewDate])
         (param "functionName" (action_parameters action))
         {| upd_timeout := VUndefined; upd_memorySize := VUndefined;
            upd_environment := Some (VObj sent) |},
       h ++ [GetFunctionConfig (param "functionName" (action_parameters action));
             NewDate;
             UpdateFunctionConfig (param "functionName" (action_parameters action))
               {| upd_timeout := VUndefined; upd_memorySize := VUndefined;
                  upd_environment := Some (VObj sent) |}])
    /\ lookup "LAST_RESTART" sent
       = Some (VStr (js_toISOString env
                       (sys_now env
                          (h ++ [GetFunctionConfig
                                   (param "functionName" (action_parameters action))]))))
    /\ (forall name, name <> "LAST_RESTART" -> lookup name sent = lookup name variables).
Proof.
  intros Hty Hcfg Henv Hvars.
  exists (assign "LAST_RESTART"
            (VStr (js_toISOString env
                     (sys_now env
                        (h ++ [GetFunctionConfig
                                 (param "functionName" (action_parameters action))]))))
            variables).
  split; [| split].
  - unfold dispatch. rewrite Hty.
    unfold bind, Lambda.getFunctionConfig, Lambda.updateFunctionConfig, newDate, perform.
    rewrite Hcfg. unfold member, ret, param. rewrite Henv.
    unfold optionalMember, param. rewrite Hvars. cbn [truthy setMember].
    unfold ret. rewrite <- !app_assoc. reflexivity.
  - apply lookup_assign_same.
  - intros name Hne. apply lookup_assign_other. exact Hne.
Qed.

End HandlerFacts.

Lemma unhandled_action_types_witness :
  action_type MoreStubs.manualAction <> UpdateConfig
  /\ action_type MoreStubs.manualAction <> RestartService
  /\ exists result,
       Agent.executeAction Stubs.envBFails MoreStubs.manualAction [] = (Ok result, [NewDate])
       /\ result_success result = true.
Proof.
  split; [discriminate |]. split; [discriminate |].
  eexists. split.
  - apply (@unhandled_action_types_report_success Stubs.envBFails MoreStubs.manualAction []);
      discriminate.
  - reflexivity.
Defined.

Lemma restart_keeps_environment_witness :
  exists sent,
    lookup "STAGE" sent = Some (VStr "prod")
    /\ lookup "LOG_LEVEL" sent = Some (VStr "info")
    /\ lookup "LAST_RESTART" sent = Some (VStr "2024-01-01T00:00:00.000Z")
    /\ snd (Agent.dispatch MoreStubs.envWithVariables MoreStubs.restartAction [])
       = [ GetFunctionConfig (VStr "checkout"); NewDate;
           UpdateFunctionConfig (VStr "checkout")
             {| upd_timeout := VUndefined; upd_memorySize := VUndefined;
                upd_environment := Some (VObj sent) |} ].
Proof.
  destruct (@restart_keeps_environment_variables
              MoreStubs.envWithVariables MoreStubs.restartAction []
              [ ("FunctionName", VStr "checkout"); ("Timeout", VNum 30);
                ("Environment",
                 VObj [ ("Variables",
                         VObj [ ("STAGE", VStr "prod"); ("LOG_LEVEL", VStr "info") ]) ]) ]
              [ ("Variables",
                 VObj [ ("STAGE", VStr "prod"); ("LOG_LEVEL", VStr "info") ]) ]
              [ ("STAGE", VStr "prod"); ("LOG_LEVEL", VStr "info") ])
    as [sent [Hrun [Hlast Hkeep]]]; try reflexivity.
  exists sent. split; [| split; [| split]].
  - rewrite Hkeep by discriminate. reflexivity.
  - rewrite Hkeep by discriminate. reflexivity.
  - rewrite Hlast. reflexivity.
  - rewrite Hrun. reflexivity.
Defined.

(** ** Function name of an ARN *)

Lemma dropPrefix_sound (p : string) :
  forall s r, dropPrefix p s = Some r -> s = (p ++ r)%string.
Proof.
  induction p as [| a p IH]; intros s r H; simpl in H.
  - inversion H. reflexivity.
  - destruct s as [| b s]; [discriminate H |].
    destruct (Ascii.eqb_spec a b) as [-> | _]; [| discriminate H].
    simpl. f_equal. apply IH. exact H.
Qed.

Lemma dropPrefix_complete (p : string) :
  forall r, dropPrefix p (p ++ r)%string = Some r.
Proof.
  induction p as [| a p IH]; intros r; simpl.
  - reflexivity.
  - rewrite Ascii.eqb_refl. apply IH.
Qed.

Lemma takeUntil_split (stop : ascii) (s : string) :
  exists rest,
    s = (takeUntil stop s ++ rest)%string
    /\ (rest = EmptyString \/ exists tail, rest = String stop tail).
Proof.
  induction s as [| c s [rest [E R]]]; simpl.
  - exists EmptyString. split; [reflexivity | left; reflexivity].
  - destruct (Ascii.eqb_spec c stop) as [-> | _].
    + exists (String stop s). split; [reflexivity | right; eexists; reflexivity].
    + exists rest. split; [simpl; f_equal; exact E | exact R].
Qed.

Lemma takeUntil_avoids (stop : ascii) (s : string) :
  forall c, In c (list_ascii_of_string (takeUntil stop s)) -> c <> stop.
Proof.
  induction s as [| a s IH]; simpl; intros c H.
  - contradiction.
  - destruct (Ascii.eqb_spec a stop) as [-> | Hne]; simpl in H.
    + contradiction.
    + destruct H as [<- | H]; [exact Hne | apply IH; exact H].
Qed.

(** What [extractFunctionName] returns is a function name found in the
    ARN: it is not empty, holds no colon, follows an occurrence of
    [function:] and runs up to the next colon or the end of the ARN. *)
Theorem extractFunctionName_sound (arn name : string) :
  Agent.extractFunctionName arn = Some name ->
  name <> EmptyString
  /\ (forall c, In c (list_ascii_of_string name) -> c <> ":"%char)
  /\ exists before after,
       arn = (before ++ "function:" ++ name ++ after)%string
       /\ (after = EmptyString \/ exists tail, after = String ":" tail).
Proof.
  induction arn as [| a arn IH]; intros H; [discriminate H |].
  cbn [Agent.extractFunctionName] in H.
  destruct (dropPrefix "function:" (String a arn)) as [rest |] eqn:D.
  - destruct (takeUntil ":" rest) as [| c taken] eqn:T.
    + destruct (IH H) as [Hne [Hc [before [after [E R]]]]].
      split; [exact Hne |]. split; [exact Hc |].
      exists (String a before), after. split; [simpl; f_equal; exact E | exact R].
    + inversion H; subst name. split; [discriminate |]. split.
      * rewrite <- T. apply takeUntil_avoids.
      * destruct (takeUntil_split ":" rest) as [after [E R]].
        exists EmptyString, after. split; [| exact R].
        rewrite (dropPrefix_sound _ _ D). rewrite T in E. rewrite E at 1. reflexivity.
  - destruct (IH H) as [Hne [Hc [before [after [E R]]]]].
    split; [exact Hne |]. split; [exact Hc |].
    exists (String a before), after. split; [simpl; f_equal; exact E | exact R].
Qed.

(** [extractFunctionName] returns [null] only when no name can be found:
    every occurrence of [function:] in the ARN is then at the very end or
    followed by a colon. *)
Theorem extractFunctionName_none (arn : string) :
  Agent.extractFunctionName arn = None ->
  forall before c tail,
    arn = (before ++ "function:" ++ String c tail)%string -> c = ":"%char.
Proof.
  induction arn as [| a arn IH]; intros H before c tail E.
  - destruct before; discriminate E.
  - assert (Hrest : Agent.extractFunctionName arn = None).
    { cbn [Agent.extractFunctionName] in H.
      destruct (dropPrefix "function:" (String a arn)) as [rest |]; [| exact H].
      destruct (takeUntil ":" rest); [exact H | discriminate H]. }
    destruct before as [| b before].
    + cbn [Agent.extractFunctionName] in H.
      change (EmptyString ++ "function:" ++ String c tail)%string
        with ("function:" ++ String c tail)%string in E.
      rewrite E, dropPrefix_complete in H. simpl in H.
      destruct (Ascii.eqb_spec c ":") as [-> | _]; [reflexivity | discriminate H].
    + simpl in E. inversion E; subst. eapply IH; [exact Hrest | reflexivity].
Qed.

Lemma extractFunctionName_sound_witness :
  Agent.extractFunctionName "arn:aws:lambda:us-east-1:123456789012:function:checkout:PROD"
    = Some "checkout"
  /\ "checkout" <> EmptyString
  /\ (forall c, In c (list_ascii_of_string "checkout") -> c <> ":"%char).
Proof.
  split; [reflexivity |].
  destruct (@extractFunctionName_sound
              "arn:aws:lambda:us-east-1:123456789012:function:checkout:PROD" "checkout"
              eq_refl) as [Hne [Hc _]].
  split; [exact Hne | exact Hc].
Defined.

Lemma extractFunctionName_none_witness :
  Agent.extractFunctionName "arn:aws:sqs:us-east-1:123456789012:function:" = None
  /\ (forall before c tail,
        "arn:aws:sqs:us-east-1:123456789012:function:"
          = (before ++ "function:" ++ String c tail)%string -> c = ":"%char).
Proof.
  split; [reflexivity |].
  exact (@extractFunctionName_none
           "arn:aws:sqs:us-east-1:123456789012:function:" eq_refl).
Defined.

(** ** Keyword classifier *)

Section ClassifierFacts.

Import Agent.

Variable env : Env.
Variable incident : Incident.

(** The actions of the classifier come out in strictly ascending [order]. *)
Lemma parseRemediationActions_ascending (planText : string) (h h' : History)
    (actions : list RemediationAction) :
  parseRemediationActions env planText incident h = (Ok actions, h') ->
  StronglySorted ltOrder actions.
Proof.
  unfold parseRemediationActions, bind, uuidv4, perform, ret.
  destruct (includes (toLowerCase planText) "memory"
            || includes (toLowerCase planText) "timeout");
    destruct (includes (toLowerCase planText) "restart"
              || includes (toLowerCase planText) "redeploy");
    simpl; intros H; inversion H; subst;
    repeat constructor; unfold ltOrder; simpl; lia.
Qed.

End ClassifierFacts.

(** ** The sort by [order], continued *)

Lemma insertByOrder_head (a : RemediationAction) (l : list RemediationAction) :
  Forall (leOrder a) l -> Agent.insertByOrder a l = a :: l.
Proof.
  destruct l as [| b l]; intros H; simpl; [reflexivity |].
  inversion H as [| ? ? Hab _]; subst. unfold leOrder in Hab.
  apply Z.leb_le in Hab. rewrite Hab. reflexivity.
Qed.

(** Sorting leaves a list that is already in ascending order as it is. *)
Lemma sortByOrder_fixes_ascending (l : list RemediationAction) :
  StronglySorted leOrder l -> Agent.sortByOrder l = l.
Proof.
  induction 1 as [| a l _ IH Ha]; simpl; [reflexivity |].
  rewrite IH. apply insertByOrder_head. exact Ha.
Qed.

Lemma ascending_weaken (l : list RemediationAction) :
  StronglySorted ltOrder l -> StronglySorted leOrder l.
Proof.
  induction 1 as [| a l _ IH Ha]; constructor; [exact IH |].
  eapply Forall_impl; [| exact Ha]. unfold ltOrder, leOrder. intros b Hb. lia.
Qed.

(** The planner hands over its actions in strictly ascending [order], so
    the in-place sort of [executeRemediation] changes nothing: the plan
    object after execution is the plan that was generated and saved. *)
Theorem generated_plan_is_already_sorted
    (env : Env) (incident : Incident) (diagnosis : DiagnosisResult)
    (h h' : History) (plan : RemediationPlan) :
  Agent.generateRemediationPlan env incident diagnosis h = (Ok plan, h') ->
  StronglySorted ltOrder (plan_actions plan)
  /\ Agent.sortByOrder (plan_actions plan) = plan_actions plan
  /\ Agent.planAfterExecution plan = plan.
Proof.
  unfold Agent.generateRemediationPlan. intros H.
  apply bind_Ok in H. destruct H as [currentConfig [h1 [_ H]]].
  apply bind_Ok in H. destruct H as [planText [h2 [_ H]]].
  apply bind_Ok in H. destruct H as [actions [h3 [Hparse H]]].
  apply bind_Ok in H. destruct H as [id [h4 [_ H]]].
  apply bind_Ok in H. destruct H as [createdAt [h5 [_ H]]].
  apply ret_Ok in H. destruct H as [<- _].
  pose proof (parseRemediationActions_ascending _ _ _ _ Hparse) as Hs.
  pose proof (sortByOrder_fixes_ascending (ascending_weaken Hs)) as Hfix.
  split; [exact Hs |]. split; [exact Hfix |].
  unfold Agent.planAfterExecution, Agent.assemblePlan. simpl.
  destruct (negb (List.length actions <=? 5) || false); [reflexivity |].
  rewrite Hfix. reflexivity.
Qed.

Lemma generated_plan_is_already_sorted_witness :
  exists plan h',
    Agent.generateRemediationPlan Stubs.plannerEnv Stubs.incident Stubs.diagnosis []
      = (Ok plan, h')
    /\ map action_order (plan_actions plan) = [1%Z; 2%Z]
    /\ Agent.sortByOrder (plan_actions plan) = plan_actions plan
    /\ Agent.planAfterExecution plan = plan.
Proof.
  destruct (Agent.generateRemediationPlan Stubs.plannerEnv Stubs.incident Stubs.diagnosis [])
    as [[plan | e] h'] eqn:E.
  - destruct (@generated_plan_is_already_sorted
                Stubs.plannerEnv Stubs.incident Stubs.diagnosis [] h' plan E)
      as [_ [Hfix Hsame]].
    exists plan, h'. split; [reflexivity |]. split; [| split; assumption].
    vm_compute in E. inversion E. reflexivity.
  - vm_compute in E. discriminate E.
Defined.

(** ** Execution sequencer, continued *)

Section SequencerMore.

Import Agent.

Variable env : Env.
Variable incident : Incident.

Hypothesis sink : auditSinkAccepts env.

Lemma runActions_all_succeed (actions : list RemediationAction) :
  Forall (alwaysSucceeds env) actions ->
  forall (results : list ExecutionResult) (h : History),
    exists fresh new,
      runActions env incident actions results h = (Ok (results ++ fresh), h ++ new)
      /\ map result_actionId fresh = map action_id actions
      /\ Forall (fun x => result_success x = true) fresh
      /\ loggedActions new = map action_id actions.
Proof.
  induction 1 as [| action rest Hok _ IH]; intros results h.
  - exists [], []. simpl. rewrite !app_nil_r. repeat split; constructor.
  - cbn [runActions]. unfold bind at 1.
    destruct (executeAction_total env action h) as [result [n1 [E1 [Hid L1]]]].
    rewrite E1. pose proof (Hok _ _ _ E1) as Hs.
    unfold bind at 1. unfold DynamoDB.logActionExecution, perform.
    rewrite sink, Hs. cbn [negb].
    match goal with
    | |- context [runActions env incident rest ?rs ?h0] =>
        destruct (IH rs h0) as [fresh [n2 [E2 [Hm [Hf L2]]]]]
    end.
    rewrite E2. exists (result :: fresh). eexists.
    split; [rewrite <- !app_assoc; reflexivity |].
    split; [simpl; rewrite Hid, Hm; reflexivity |].
    split; [constructor; assumption |].
    rewrite !loggedActions_app, L1, L2. reflexivity.
Qed.

(** When the plan is approved, the audit sink accepts the records and no
    handler fails, every action of the plan is executed: the results are
    one success per action, in ascending [order], and each execution is
    recorded. *)
Theorem all_actions_run_when_none_fails (plan : RemediationPlan) (h : History) :
  plan_approvalRequired plan = false ->
  Forall (alwaysSucceeds env) (plan_actions plan) ->
  exists results new,
    executeRemediation env incident plan h = (Ok results, h ++ new)
    /\ map result_actionId results = map action_id (sortByOrder (plan_actions plan))
    /\ Forall (fun x => result_success x = true) results
    /\ loggedActions new = map action_id (sortByOrder (plan_actions plan)).
Proof.
  intros Happ Hall. unfold executeRemediation. rewrite Happ.
  assert (Hsorted : Forall (alwaysSucceeds env) (sortByOrder (plan_actions plan))).
  { eapply Permutation_Forall; [apply sortByOrder_perm | exact Hall]. }
  destruct (runActions_all_succeed Hsorted [] h) as [fresh [new [E [Hm [Hf L]]]]].
  exists fresh, new. simpl in E. repeat split; assumption.
Qed.

End SequencerMore.

Lemma all_actions_run_witness :
  exists results new,
    Agent.executeRemediation MoreStubs.envAllFine Stubs.incident Stubs.planCAB []
      = (Ok results, new)
    /\ map result_actionId results = ["A"; "B"; "C"]
    /\ Forall (fun x => result_success x = true) results
    /\ loggedActions new = ["A"; "B"; "C"].
Proof.
  destruct (@all_actions_run_when_none_fails
              MoreStubs.envAllFine Stubs.incident) with (plan := Stubs.planCAB) (h := @nil Call)
    as [results [new [E [Hm [Hf L]]]]].
  - intros h0 incidentId actionId outcome details. reflexivity.
  - reflexivity.
  - repeat constructor; intros h0 x h1 Hx; cbv in Hx; inversion Hx; reflexivity.
  - exists results, new. split; [exact E |]. split; [exact Hm |]. split; [exact Hf | exact L].
Defined.

(** ** Orchestrator, continued *)

Lemma bind_inv {A B : Type} (m : M A) (k : A -> M B) (h h' : History) (r : Res B) :
  bind m k h = (r, h') ->
  (exists a h1, m h = (Ok a, h1) /\ k a h1 = (r, h'))
  \/ (exists e, m h = (Throw e, h') /\ r = Throw e).
Proof.
  unfold bind. destruct (m h) as [[a | e] h1]; intros H.
  - left. exists a, h1. split; [reflexivity | exact H].
  - right. inversion H; subst. exists e. split; reflexivity.
Qed.

Lemma statusUpdates_quiet (incidentId : string) (new : History) :
  forallb notStatusUpdate new = true -> statusUpdates incidentId new = [].
Proof.
  induction new as [| c new IH]; simpl; [reflexivity |].
  intros H. apply andb_true_iff in H. destruct H as [Hc Hn].
  destruct c; simpl in *; try discriminate Hc; apply IH; exact Hn.
Qed.

Section LifecycleFacts.

Import Agent.

Variable env : Env.
Variable incident : Incident.

Lemma investigate_quiet : makes notStatusUpdate (investigate env incident).
Proof.
  unfold investigate, gatherTelemetry, Bedrock.diagnoseIncident, Bedrock.converse,
    CloudWatch.getLambdaMetrics, CloudWatch.queryLogs, DynamoDB.logAudit, newDate.
  destruct (extractFunctionName (incident_resourceArn incident));
    repeat (makes_step; try match goal with
                            | x : option _ |- _ => destruct x
                            end).
Qed.

Lemma generateRemediationPlan_quiet (diagnosis : DiagnosisResult) :
  makes notStatusUpdate (generateRemediationPlan env incident diagnosis).
Proof.
  unfold generateRemediationPlan, parseRemediationActions, Bedrock.generateRemediationPlan,
    Bedrock.converse, Lambda.getFunctionConfig, newDate, uuidv4.
  destruct (extractFunctionName (incident_resourceArn incident));
    repeat (makes_step;
            try match goal with
                | |- makes _ (if ?b then _ else _) => destruct b
                end).
Qed.

Lemma handlerCall_quiet (new : History) :
  forallb handlerCall new = true -> forallb notStatusUpdate new = true.
Proof.
  induction new as [| c new IH]; simpl; [reflexivity |].
  intros H. apply andb_true_iff in H. destruct H as [Hc Hn].
  rewrite (IH Hn). destruct c; simpl in *; congruence.
Qed.

Lemma executeAction_quiet (action : RemediationAction) :
  makes notStatusUpdate (executeAction env action).
Proof.
  intros h r h' H. destruct (executeAction_makes env action _ H) as [new [-> F]].
  exists new. split; [reflexivity | apply handlerCall_quiet; exact F].
Qed.

Lemma runActions_quiet (actions : list RemediationAction) :
  forall results, makes notStatusUpdate (runActions env incident actions results).
Proof.
  induction actions as [| action rest IH]; intros results; cbn [runActions].
  - apply makes_ret.
  - apply makes_bind; [apply executeAction_quiet |]. intros result.
    unfold DynamoDB.logActionExecution.
    apply makes_bind; [apply makes_perform; reflexivity |]. intros _.
    destruct (negb (result_success result)); [apply makes_ret | apply IH].
Qed.

Lemma executeRemediation_quiet (plan : RemediationPlan) :
  makes notStatusUpdate (executeRemediation env incident plan).
Proof.
  unfold executeRemediation.
  destruct (plan_approvalRequired plan); [apply makes_ret | apply runActions_quiet].
Qed.

Lemma verify_quiet : makes notStatusUpdate (verify env incident).
Proof.
  unfold verify, Lambda.checkFunctionHealth, Lambda.invokeFunction,
    CloudWatch.getLambdaMetrics, newDate.
  destruct (extractFunctionName (incident_resourceArn incident)); repeat makes_step.
Qed.

(** The statuses written between the start and the end of a run. *)
Lemma handleIncident_lifecycle
    (h : History) (r : Res IncidentOutcome) (h' : History) :
  handleIncident env incident h = (r, h') ->
  exists new,
    h' = h ++ new
    /\ match r with
       | Ok outcome =>
           statusUpdates (incident_id incident) new
           = [Investigating; Remediating; finalStatusOf (out_verification outcome)]
       | Throw _ =>
           statusUpdates (incident_id incident) new = []
           \/ statusUpdates (incident_id incident) new = [Investigating]
           \/ statusUpdates (incident_id incident) new = [Investigating; Remediating]
           \/ exists final,
                statusUpdates (incident_id incident) new
                = [Investigating; Remediating; final]
                /\ (final = Resolved \/ final = Failed)
       end.
Proof.
  unfold handleIncident. intros H.
  (* saveIncident *)
  apply bind_inv in H. unfold DynamoDB.saveIncident at 1, perform in H.
  destruct H as [[u0 [h0 [E0 H]]] | [e [E0 ->]]]; inversion E0; subst; clear E0.
  2: { eexists. split; [reflexivity |]. left. reflexivity. }
  (* status: investigating *)
  apply bind_inv in H. unfold DynamoDB.updateIncidentStatus at 1, perform in H.
  destruct H as [[u1 [h1 [E1 H]]] | [e [E1 ->]]]; inversion E1; subst; clear E1.
  2: { eexists. split; [rewrite <- !app_assoc; reflexivity |].
       right. left. simpl. rewrite String.eqb_refl. reflexivity. }
  (* investigate *)
  apply bind_inv in H.
  destruct H as [[diagnosis [h2 [E2 H]]] | [e [E2 ->]]];
    destruct (investigate_quiet _ E2) as [n2 [-> F2]].
  2: { eexists. split; [rewrite <- !app_assoc; reflexivity |].
       right. left. simpl. rewrite String.eqb_refl.
       rewrite (statusUpdates_quiet _ _ F2). reflexivity. }
  (* generateRemediationPlan *)
  apply bind_inv in H.
  destruct H as [[plan [h3 [E3 H]]] | [e [E3 ->]]];
    destruct (generateRemediationPlan_quiet _ _ E3) as [n3 [-> F3]].
  2: { eexists. split; [rewrite <- !app_assoc; reflexivity |].
       right. left. simpl. rewrite String.eqb_refl.
       rewrite statusUpdates_app, (statusUpdates_quiet _ _ F2), (statusUpdates_quiet _ _ F3).
       reflexivity. }
  (* saveRemediationPlan *)
  apply bind_inv in H. unfold DynamoDB.saveRemediationPlan at 1, perform in H.
  destruct H as [[u4 [h4 [E4 H]]] | [e [E4 ->]]]; inversion E4; subst; clear E4.
  2: { eexists. split; [rewrite <- !app_assoc; reflexivity |].
       right. left. simpl. rewrite String.eqb_refl.
       rewrite !statusUpdates_app, (statusUpdates_quiet _ _ F2), (statusUpdates_quiet _ _ F3).
       reflexivity. }
  (* status: remediating *)
  apply bind_inv in H. unfold DynamoDB.updateIncidentStatus at 1, perform in H.
  destruct H as [[u5 [h5 [E5 H]]] | [e [E5 ->]]]; inversion E5; subst; clear E5.
  2: { eexists. split; [rewrite <- !app_assoc; reflexivity |].
       right. right. left. simpl. rewrite String.eqb_refl.
       rewrite !statusUpdates_app, (statusUpdates_quiet _ _ F2), (statusUpdates_quiet _ _ F3).
       simpl. rewrite String.eqb_refl. reflexivity. }
  (* executeRemediation *)
  apply bind_inv in H.
  destruct H as [[results [h6 [E6 H]]] | [e [E6 ->]]];
    destruct (executeRemediation_quiet _ _ E6) as [n6 [-> F6]].
  2: { eexists. split; [rewrite <- !app_assoc; reflexivity |].
       right. right. left. simpl. rewrite String.eqb_refl.
       rewrite !statusUpdates_app, (statusUpdates_quiet _ _ F2), (statusUpdates_quiet _ _ F3).
       simpl. rewrite String.eqb_refl, (statusUpdates_quiet _ _ F6). reflexivity. }
  (* verify *)
  apply bind_inv in H.
  destruct H as [[verification [h7 [E7 H]]] | [e [E7 ->]]];
    destruct (verify_quiet _ E7) as [n7 [-> F7]].
  2: { eexists. split; [rewrite <- !app_assoc; reflexivity |].
       right. right. left. simpl. rewrite String.eqb_refl.
       rewrite !statusUpdates_app, (statusUpdates_quiet _ _ F2), (statusUpdates_quiet _ _ F3).
       simpl. rewrite String.eqb_refl, !statusUpdates_app,
         (statusUpdates_quiet _ _ F6), (statusUpdates_quiet _ _ F7). reflexivity. }
  (* final status *)
  apply bind_inv in H. unfold DynamoDB.updateIncidentStatus at 1, perform in H.
  assert (Hall :
    statusUpdates (incident_id incident)
      ([SaveIncident incident] ++
       [UpdateIncidentStatus (incident_id incident) Investigating None] ++
       n2 ++ n3 ++ [SaveRemediationPlan plan] ++
       [UpdateIncidentStatus (incident_id incident) Remediating None] ++
       n6 ++ n7 ++
       [UpdateIncidentStatus (incident_id incident)
          (if verification_success verification then Resolved else Failed)
          (Some (VObj [ ("diagnosis", VStr (diag_rootCause diagnosis));
                        ("actionsExecuted",
                         VNum (inject_Z (Z.of_nat (List.length results))));
                        ("verified", VBool (verification_success verification)) ]))])
    = [Investigating; Remediating; finalStatusOf verification]).
  { simpl. rewrite String.eqb_refl.
    rewrite !statusUpdates_app, (statusUpdates_quiet _ _ F2), (statusUpdates_quiet _ _ F3).
    simpl. rewrite String.eqb_refl, !statusUpdates_app,
      (statusUpdates_quiet _ _ F6), (statusUpdates_quiet _ _ F7).
    simpl. rewrite String.eqb_refl. reflexivity. }
  destruct H as [[u8 [h8 [E8 H]]] | [e [E8 ->]]]; inversion E8; subst; clear E8.
  - unfold ret in H. inversion H; subst.
    eexists. split; [rewrite <- !app_assoc; reflexivity |].
    cbn [out_verification]. exact Hall.
  - eexists. split; [rewrite <- !app_assoc; reflexivity |].
    right. right. right. exists (finalStatusOf verification).
    split; [exact Hall |]. unfold finalStatusOf.
    destruct (verification_success verification); [left | right]; reflexivity.
Qed.

(** The statuses [handleIncident] writes follow the lifecycle: whatever
    happens, they are an initial part of investigating, remediating and
    one final status; when the pipeline returns, all three were written
    and the final one is resolved exactly when the verification
    succeeded, failed otherwise.  A pipeline that stops on an error wrote at most
    these, in this order. *)
Theorem handleIncident_status_lifecycle
    (h : History) (r : Res IncidentOutcome) (h' : History) :
  handleIncident env incident h = (r, h') ->
  exists new,
    h' = h ++ new
    /\ match r with
       | Ok outcome =>
           statusUpdates (incident_id incident) new
           = [Investigating; Remediating; finalStatusOf (out_verification outcome)]
       | Throw _ =>
           statusUpdates (incident_id incident) new = []
           \/ statusUpdates (incident_id incident) new = [Investigating]
           \/ statusUpdates (incident_id incident) new = [Investigating; Remediating]
           \/ exists final,
                statusUpdates (incident_id incident) new
                = [Investigating; Remediating; final]
                /\ (final = Resolved \/ final = Failed)
       end.
Proof. exact (@handleIncident_lifecycle h r h'). Qed.

End LifecycleFacts.

Lemma handleIncident_status_lifecycle_witness :
  exists outcome new,
    Agent.handleIncident MoreStubs.envAllFine Stubs.incident [] = (Ok outcome, new)
    /\ statusUpdates "incident-1" new = [Investigating; Remediating; Resolved].
Proof.
  destruct (Agent.handleIncident MoreStubs.envAllFine Stubs.incident [])
    as [[outcome | e] h'] eqn:E.
  - destruct (@handleIncident_status_lifecycle
                MoreStubs.envAllFine Stubs.incident [] (Ok outcome) h' E)
      as [new [Hh Hs]].
    simpl in Hh, Hs. subst h'. exists outcome, new. split; [reflexivity |].
    rewrite Hs. vm_compute in E. inversion E. reflexivity.
  - vm_compute in E. discriminate E.
Defined.

(** ** Investigation *)

Lemma perform_inv {A : Type} (c : Call) (answer : History -> Res A)
    (h h' : History) (r : Res A) :
  perform c answer h = (r, h') -> r = answer h /\ h' = h ++ [c].
Proof. unfold perform. intros H. inversion H. split; reflexivity. Qed.

Section InvestigationFacts.

Import Agent.

Variable env : Env.
Variable incident : Incident.

(** A diagnosis that [investigate] returns has a root cause that is never
    empty (the first line of the reasoning service's text, or "Unknown"
    when that line is empty), the fixed confidence 0.85, the full text as
    reasoning and one affected component; the last call made is the audit
    entry [diagnosis_completed] for the incident, with result success. *)
Theorem investigate_result_shape (h h' : History) (diagnosis : DiagnosisResult) :
  investigate env incident h = (Ok diagnosis, h') ->
  diag_rootCause diagnosis <> EmptyString
  /\ diag_rootCause diagnosis = orDefault (firstLine (diag_reasoning diagnosis)) "Unknown"
  /\ diag_confidence diagnosis = 85 # 100
  /\ List.length (diag_affectedComponents diagnosis) = 1
  /\ exists before entry,
       h' = h ++ before ++ [LogAudit entry]
       /\ audit_incidentId entry = incident_id incident
       /\ audit_action entry = "diagnosis_completed"
       /\ audit_result entry = AuditSuccess
       /\ audit_details entry
          = VObj [ ("rootCause", VStr (diag_rootCause diagnosis));
                   ("confidence", VNum (diag_confidence diagnosis)) ].
Proof.
  intros H. pose proof H as Hq. apply investigate_quiet in Hq.
  unfold investigate in H.
  apply bind_Ok in H. destruct H as [endTime [h1 [E1 H]]].
  apply bind_Ok in H. destruct H as [gathered [h2 [E2 H]]].
  apply bind_Ok in H. destruct H as [diagnosisText [h3 [E3 H]]].
  apply bind_Ok in H. destruct H as [timestamp [h4 [E4 H]]].
  apply bind_Ok in H. destruct H as [auditTime [h5 [E5 H]]].
  apply bind_Ok in H. destruct H as [u [h6 [E6 H]]].
  apply ret_Ok in H. destruct H as [<- ->].
  unfold DynamoDB.logAudit in E6. apply perform_inv in E6. destruct E6 as [_ ->].
  cbn [diag_rootCause diag_confidence diag_reasoning diag_affectedComponents].
  split.
  { unfold orDefault. destruct (String.eqb_spec (firstLine diagnosisText) "") as [_ | Hne];
      [discriminate | exact Hne]. }
  split; [reflexivity |]. split; [reflexivity |]. split; [reflexivity |].
  destruct Hq as [new [Hnew _]].
  assert (Hpre : exists before, h5 = h ++ before).
  { unfold newDate in E1, E4, E5.
    apply perform_inv in E1, E4, E5.
    destruct E1 as [_ ->], E4 as [_ ->], E5 as [_ ->].
    destruct (gatherTelemetry_returns env
                (extractFunctionName (incident_resourceArn incident))
                (endTime - 3600000)%Z endTime (h ++ [NewDate]))
      as [g [n2 [Eg _]]].
    rewrite Eg in E2. inversion E2; subst.
    unfold Bedrock.diagnoseIncident in E3. apply bind_Ok in E3.
    destruct E3 as [response [h3' [Ec E3]]]. apply ret_Ok in E3. destruct E3 as [_ ->].
    unfold Bedrock.converse in Ec. apply perform_inv in Ec. destruct Ec as [_ ->].
    eexists. rewrite <- !app_assoc. reflexivity. }
  destruct Hpre as [before ->].
  exists before. eexists. split; [rewrite <- app_assoc; reflexivity |].
  repeat split.
Qed.

(** A failure of the metrics fetch does not fail the investigation: the
    log query is skipped, the reasoning service is asked with no metrics
    and no logs, and, when it answers and the audit sink accepts the
    entry, a diagnosis without related metrics is returned. *)
Theorem investigate_survives_metrics_failure (h : History) (name : string) :
  extractFunctionName (incident_resourceArn incident) = Some name ->
  (forall h0 start finish, exists e, cw_getLambdaMetrics env h0 name start finish = Throw e) ->
  (forall h0 input, exists response, bedrock_send env h0 input = Ok response) ->
  (forall h0 entry, db_logAudit env h0 entry = Ok tt) ->
  exists diagnosis new,
    investigate env incident h = (Ok diagnosis, h ++ new)
    /\ diag_relatedMetrics diagnosis = []
    /\ forallb (fun c => negb (isQueryLogs c)) new = true
    /\ sendCount new = 1.
Proof.
  intros Hname Hmetrics Hbedrock Haudit.
  unfold investigate, gatherTelemetry. rewrite Hname.
  unfold bind at 1. unfold newDate at 1, perform.
  unfold bind at 1. unfold bind at 1. unfold try_catch at 1. unfold bind at 1.
  unfold CloudWatch.getLambdaMetrics, perform.
  match goal with
  | |- context [cw_getLambdaMetrics env ?h0 name ?s ?f] =>
      destruct (Hmetrics h0 s f) as [e Em]; rewrite Em
  end.
  unfold ret at 1. unfold ret at 1.
  unfold bind at 1. unfold Bedrock.diagnoseIncident. unfold bind at 1.
  unfold Bedrock.converse, perform.
  match goal with
  | |- context [bedrock_send env ?h0 ?i] =>
      destruct (Hbedrock h0 i) as [response Eb]; rewrite Eb
  end.
  unfold ret at 1. unfold bind at 1. unfold newDate at 1, perform.
  unfold bind at 1. unfold newDate at 1, perform.
  unfold bind at 1. unfold DynamoDB.logAudit, perform. rewrite Haudit.
  unfold ret. eexists. eexists.
  split; [rewrite <- !app_assoc; reflexivity |].
  split; [reflexivity |]. split; reflexivity.
Qed.

End InvestigationFacts.

Lemma investigate_result_shape_witness :
  exists diagnosis h',
    Agent.investigate MoreStubs.envAllFine Stubs.incident [] = (Ok diagnosis, h')
    /\ diag_rootCause diagnosis = "Raise the timeout and redeploy"
    /\ diag_rootCause diagnosis <> EmptyString
    /\ diag_confidence diagnosis = 85 # 100.
Proof.
  destruct (Agent.investigate MoreStubs.envAllFine Stubs.incident [])
    as [[diagnosis | e] h'] eqn:E.
  - destruct (@investigate_result_shape
                MoreStubs.envAllFine Stubs.incident [] h' diagnosis E)
      as [Hne [_ [Hc _]]].
    exists diagnosis, h'. split; [reflexivity |].
    split; [vm_compute in E; inversion E; reflexivity |].
    split; [exact Hne | exact Hc].
  - vm_compute in E. discriminate E.
Defined.

Lemma investigate_survives_metrics_failure_witness :
  exists diagnosis new,
    Agent.investigate MoreStubs.envNoMetrics Stubs.incident [] = (Ok diagnosis, new)
    /\ diag_relatedMetrics diagnosis = []
    /\ forallb (fun c => negb (isQueryLogs c)) new = true
    /\ sendCount new = 1.
Proof.
  apply (@investigate_survives_metrics_failure
           MoreStubs.envNoMetrics Stubs.incident [] "checkout").
  - reflexivity.
  - intros h0 start finish. eexists. reflexivity.
  - intros h0 input. eexists. reflexivity.
  - intros h0 entry. reflexivity.
Defined.

(** Only the first ten log lines reach the reasoning service: log lines
    beyond the tenth change nothing in what [diagnoseIncident] does. *)
Theorem diagnoseIncident_reads_ten_log_lines
    (env : Env) (incidentDescription : string) (metrics : JsValue)
    (logs : list string) (tools : option ToolConfiguration) (h : History) :
  Bedrock.diagnoseIncident env incidentDescription metrics logs tools h
  = Bedrock.diagnoseIncident env incidentDescription metrics (firstn 10 logs) tools h.
Proof.
  unfold Bedrock.diagnoseIncident, Bedrock.diagnosisUserMessage.
  rewrite firstn_firstn. reflexivity.
Qed.

(** ** Tool-calling loop, continued *)

Lemma requestsOf_app (l1 l2 : list Message) :
  requestsOf (l1 ++ l2) = requestsOf l1 ++ requestsOf l2.
Proof.
  induction l1 as [| m l1 IH]; simpl; [reflexivity |].
  destruct (msg_role m); destruct (msg_content m); rewrite IH;
    try reflexivity; apply app_assoc.
Qed.

Lemma resultsOf_app (l1 l2 : list Message) :
  resultsOf (l1 ++ l2) = resultsOf l1 ++ resultsOf l2.
Proof.
  induction l1 as [| m l1 IH]; simpl; [reflexivity |].
  destruct (msg_role m); destruct (msg_content m); rewrite IH;
    try reflexivity; apply app_assoc.
Qed.

Section ConversationFacts.

Import Bedrock.

Variable env : Env.
Variable tools : ToolConfiguration.

(** An iteration that leaves the loop adds at most one assistant turn of
    text and records no tool call. *)
Lemma iteration_break (st : LoopState) (h : History) (st' : LoopState) (h' : History) :
  iteration env tools st h = (Ok (false, st'), h') ->
  st_toolCalls st' = st_toolCalls st
  /\ (st_messages st' = st_messages st
      \/ exists text, st_messages st' = st_messages st ++ [assistantTurn (Text text)]).
Proof.
  unfold iteration, bind, converse, perform.
  cbn [req_modelId req_messages req_temperature req_maxTokens req_toolConfig option_map].
  destruct (bedrock_send env h _) as [response | e]; [| discriminate].
  destruct (output_message response) as [message |].
  2: { intros H; inversion H; subst. split; [reflexivity | left; reflexivity]. }
  destruct (bmsg_content message) as [content |].
  2: { intros H; inversion H; subst. split; [reflexivity | left; reflexivity]. }
  destruct (collectToolUses content) as [| toolUse rest];
    cbn [List.length Nat.eqb Nat.ltb Nat.leb]; intros H; inversion H; subst.
  split; [reflexivity |]. right. eexists. reflexivity.
Qed.

Lemma loop_keeps_paired (remaining : nat) :
  forall (st : LoopState) (h : History) (st' : LoopState) (h' : History),
    loop env tools remaining st h = (Ok st', h') ->
    WellPaired (st_messages st) -> paired st ->
    Finished (st_messages st') /\ paired st'.
Proof.
  induction remaining as [| remaining IH]; intros st h st' h' H W P.
  - simpl in H. inversion H; subst. split; [left; exact W | exact P].
  - cbn [loop] in H. apply bind_Ok in H.
    destruct H as [[continue st1] [h1 [E H]]]. cbn [fst snd] in H.
    destruct continue.
    + destruct (@iteration_effect env tools _ _ _ _ _ E) as [_ [Hc _]].
      destruct (Hc eq_refl) as [toolUse [rest [_ [Hm Ht]]]].
      destruct P as [P1 P2].
      apply (@IH _ _ _ _ H).
      * rewrite Hm, <- app_assoc. apply paired_exchange; [exact W | discriminate |].
        rewrite !map_map. reflexivity.
      * split.
        { rewrite Ht, Hm, !requestsOf_app. simpl. rewrite !app_nil_r, map_app, P1.
          reflexivity. }
        { rewrite Hm, !requestsOf_app, !resultsOf_app. simpl.
          rewrite !app_nil_r, map_app, P2. reflexivity. }
    + apply ret_Ok in H. destruct H as [<- _].
      destruct (@iteration_break _ _ _ _ E) as [Ht [Hm | [text Hm]]]; destruct P as [P1 P2].
      * split; [left; rewrite Hm; exact W |].
        split; [rewrite Ht, Hm; exact P1 | rewrite Hm; exact P2].
      * split; [right; exists (st_messages st), text; split; [exact Hm | exact W] |].
        split.
        { rewrite Ht, Hm, requestsOf_app. simpl. rewrite app_nil_r. exact P1. }
        { rewrite Hm, requestsOf_app, resultsOf_app. simpl. rewrite !app_nil_r. exact P2. }
Qed.

(** The conversation the loop builds keeps requests and results paired:
    it is the task prompt followed by exchanges of one assistant turn of
    tool requests and one user turn holding one result per request under
    the same invocation identifier, closed by at most one assistant turn
    of text; the tool calls recorded are the requests of the conversation,
    in order, one for one. *)
Theorem tool_loop_keeps_requests_and_results_paired
    (initialPrompt : string) (maxIterations : nat)
    (h : History) (st : LoopState) (h' : History) :
  loop env tools maxIterations (initialState initialPrompt) h = (Ok st, h') ->
  Finished (st_messages st)
  /\ st_toolCalls st = map recordedCall (requestsOf (st_messages st))
  /\ resultsOf (st_messages st) = map mockResult (requestsOf (st_messages st))
  /\ map tr_toolUseId (resultsOf (st_messages st))
     = map use_toolUseId (requestsOf (st_messages st)).
Proof.
  intros H.
  destruct (@loop_keeps_paired maxIterations _ _ _ _ H) as [F [P1 P2]].
  - apply (paired_seed initialPrompt).
  - split; reflexivity.
  - split; [exact F |]. split; [exact P1 |]. split; [exact P2 |].
    rewrite P2, map_map. reflexivity.
Qed.

(** The first reply decides a run with a budget of at least one
    iteration.  An error of the reasoning service is not caught: the
    workflow throws it.  A reply without a message ends the run with the
    text "Workflow completed".  A reply whose content requests no tool
    ends the run with that reply's text as the final response.  In the
    last two cases the run took one iteration and recorded no tool call. *)
Theorem first_reply_decides
    (initialPrompt : string) (budget : nat) (h : History) :
  match bedrock_send env h (iterationInput tools (initialState initialPrompt)) with
  | Throw e =>
      executeAgenticWorkflow env initialPrompt tools (S budget) h
      = (Throw e, h ++ [BedrockSend (iterationInput tools (initialState initialPrompt))])
  | Ok response =>
      match requestedTools (Ok response) with
      | None =>
          executeAgenticWorkflow env initialPrompt tools (S budget) h
          = (Ok {| finalResponse := "Workflow completed"; toolCalls := [];
                   iterations := 1 |},
             h ++ [BedrockSend (iterationInput tools (initialState initialPrompt))])
      | Some [] =>
          executeAgenticWorkflow env initialPrompt tools (S budget) h
          = (Ok {| finalResponse := extractTextFromResponse response; toolCalls := [];
                   iterations := 1 |},
             h ++ [BedrockSend (iterationInput tools (initialState initialPrompt))])
      | Some (_ :: _) => True
      end
  end.
Proof.
  unfold executeAgenticWorkflow, requestedTools, extractTextFromResponse.
  cbn [loop]. unfold iteration, bind, converse, perform.
  cbn [req_modelId req_messages req_temperature req_maxTokens req_toolConfig option_map].
  fold (iterationInput tools (initialState initialPrompt)).
  destruct (bedrock_send env h (iterationInput tools (initialState initialPrompt)))
    as [response | e]; [| reflexivity].
  destruct (output_message response) as [message |]; [| reflexivity].
  destruct (bmsg_content message) as [content |]; [| reflexivity].
  destruct (collectToolUses content) as [| toolUse rest]; [| exact I].
  cbn [List.length Nat.eqb Nat.ltb Nat.leb fst snd]. unfold ret.
  cbn [st_messages st_toolCalls st_iterations initialState].
  unfold finalResponseOf. simpl. reflexivity.
Qed.

End ConversationFacts.

Lemma tool_loop_paired_witness :
  exists st h',
    Bedrock.loop Stubs.envToolThenText Stubs.noTools 10
      (Bedrock.initialState "Investigate") [] = (Ok st, h')
    /\ List.length (requestsOf (Bedrock.st_messages st)) = 1
    /\ Finished (Bedrock.st_messages st)
    /\ map tr_toolUseId (resultsOf (Bedrock.st_messages st))
       = map use_toolUseId (requestsOf (Bedrock.st_messages st)).
Proof.
  destruct (Bedrock.loop Stubs.envToolThenText Stubs.noTools 10
              (Bedrock.initialState "Investigate") []) as [[st | e] h'] eqn:E.
  - destruct (@tool_loop_keeps_requests_and_results_paired
                Stubs.envToolThenText Stubs.noTools "Investigate" 10 [] st h' E)
      as [F [_ [_ Hids]]].
    exists st, h'. split; [reflexivity |]. split; [| split; assumption].
    vm_compute in E. inversion E. reflexivity.
  - vm_compute in E. discriminate E.
Defined.

(** ** Health check of the resource controller *)

Section HealthCheckFacts.

Import LambdaService.

Variable env : Env.
Variable toNumber : JsValue -> option Q.
Variable functionName : string.

(** [checkFunctionHealth] never throws: it reads the configuration, then
    at most tries one dry-run invocation, and always returns a verdict in
    which [healthy] holds exactly when no issue is listed. *)
Theorem checkFunctionHealth_never_throws (h : History) :
  exists health new,
    checkFunctionHealth env toNumber functionName h = (Ok health, h ++ new)
    /\ (healthy health = true <-> issues health = [])
    /\ (new = [GetFunctionConfig (VStr functionName)]
        \/ new = [GetFunctionConfig (VStr functionName);
                  InvokeFunction (VStr functionName) (VObj []) DryRun]).
Proof.
  unfold checkFunctionHealth, try_catch, bind, Lambda.getFunctionConfig,
    Lambda.invokeFunction, perform.
  destruct (lambda_getFunctionConfig env h (VStr functionName)) as [config | e].
  - destruct config; cbn [member throw ret];
      try (eexists; eexists; split; [reflexivity |];
           split; [split; intros H; discriminate H | left; reflexivity]);
      match goal with
      | |- context [lambda_invokeFunction env ?h0 ?f ?p ?t] =>
          destruct (lambda_invokeFunction env h0 f p t) as [r | e]
      end;
      cbn [ret];
      (eexists; eexists; split; [rewrite <- app_assoc; reflexivity |];
       split; [| right; reflexivity]);
      cbn [healthy issues];
      match goal with
      | |- context [List.length ?l =? 0] => destruct l; simpl; split; congruence
      end.
  - eexists. eexists. split; [reflexivity |].
    split; [split; intros H; discriminate H | left; reflexivity].
Qed.

(** When the configuration cannot be read the function is reported
    unhealthy with the single issue that names the error, and no
    invocation is attempted. *)
Theorem checkFunctionHealth_when_config_unreadable (h : History) (e : Thrown) :
  lambda_getFunctionConfig env h (VStr functionName) = Throw e ->
  checkFunctionHealth env toNumber functionName h =
    (Ok {| healthy := false;
           issues := [("Failed to check function health: " ++ errorText e)%string] |},
     h ++ [GetFunctionConfig (VStr functionName)]).
Proof.
  intros H. unfold checkFunctionHealth, try_catch, bind, Lambda.getFunctionConfig, perform.
  rewrite H. reflexivity.
Qed.

(** The two configuration tests.  For a configuration with a numeric
    timeout [t] and memory size [m] whose dry run succeeds, the issues
    listed are the low timeout when [t] is not 0 and below 3, then the low
    memory size when [m] is not 0 and below 256: a value of 0 is skipped by
    the truthiness test and raises no issue. *)
Theorem checkFunctionHealth_thresholds
    (h : History) (config : list (string * JsValue)) (t m : Q) (invoked : InvokeResult) :
  lambda_getFunctionConfig env h (VStr functionName) = Ok (VObj config) ->
  lookup "Timeout" config = Some (VNum t) ->
  lookup "MemorySize" config = Some (VNum m) ->
  lambda_invokeFunction env (h ++ [GetFunctionConfig (VStr functionName)])
    (VStr functionName) (VObj []) DryRun = Ok invoked ->
  exists health new,
    checkFunctionHealth env toNumber functionName h = (Ok health, h ++ new)
    /\ issues health =
         (if negb (Qeq_bool t 0) && negb (Qle_bool 3 t)
          then ["Timeout is very low (< 3 seconds)"] else [])
         ++ (if negb (Qeq_bool m 0) && negb (Qle_bool 256 m)
             then ["Memory size is very low (< 256 MB)"] else [])
    /\ (healthy health = true
        <-> (t == 0 \/ 3 <= t)%Q /\ (m == 0 \/ 256 <= m)%Q).
Proof.
  intros Hc Ht Hm Hi.
  unfold checkFunctionHealth, try_catch, bind, Lambda.getFunctionConfig,
    Lambda.invokeFunction, perform.
  rewrite Hc. cbn [member ret]. unfold param. rewrite Ht, Hm, Hi.
  cbn [truthy lessThan ret]. unfold numberLess.
  eexists. eexists. split; [rewrite <- app_assoc; reflexivity |].
  cbn [healthy issues].
  destruct (Qeq_bool t 0) eqn:Et0; destruct (Qle_bool 3 t) eqn:Et3;
    destruct (Qeq_bool m 0) eqn:Em0; destruct (Qle_bool 256 m) eqn:Em3;
    cbn [negb andb app List.length Nat.eqb];
    (split; [reflexivity |]);
    try apply Qeq_bool_iff in Et0; try apply Qeq_bool_iff in Em0;
    try apply Qle_bool_iff in Et3; try apply Qle_bool_iff in Em3;
    split; intros H; try discriminate H; try reflexivity; try tauto.
  all: exfalso; destruct H as [[H1 | H1] [H2 | H2]];
    try (apply Qeq_bool_iff in H1; congruence);
    try (apply Qeq_bool_iff in H2; congruence);
    try (apply Qle_bool_iff in H1; congruence);
    try (apply Qle_bool_iff in H2; congruence).
Qed.

End HealthCheckFacts.

Lemma checkFunctionHealth_unreadable_witness :
  exists health,
    LambdaService.checkFunctionHealth MoreStubs.envConfigDown MoreStubs.noNumber
      "checkout" []
    = (Ok health, [GetFunctionConfig (VStr "checkout")])
    /\ healthy health = false
    /\ issues health = ["Failed to check function health: AccessDenied"].
Proof.
  eexists. split.
  - apply (@checkFunctionHealth_when_config_unreadable
             MoreStubs.envConfigDown MoreStubs.noNumber "checkout" []
             (ErrorObject "AccessDenied")).
    reflexivity.
  - split; reflexivity.
Defined.

Lemma checkFunctionHealth_thresholds_witness :
  exists health new,
    LambdaService.checkFunctionHealth
      (Stubs.stubEnv (Stubs.saying "") Stubs.updateSucceeds) MoreStubs.noNumber "checkout" []
    = (Ok health, new)
    /\ issues health
       = ["Timeout is very low (< 3 seconds)"; "Memory size is very low (< 256 MB)"]
    /\ healthy health = false.
Proof.
  destruct (@checkFunctionHealth_thresholds
              (Stubs.stubEnv (Stubs.saying "") Stubs.updateSucceeds) MoreStubs.noNumber
              "checkout" []
              [ ("FunctionName", VStr "checkout"); ("Timeout", VNum 1);
                ("MemorySize", VNum 128) ]
              1 128
              {| inv_statusCode := 200; inv_payload := VNull;
                 inv_executedVersion := None; inv_functionError := None |})
    as [health [new [E [Hi Hh]]]]; try reflexivity.
  exists health, new. split; [exact E |]. split; [exact Hi |].
  destruct (healthy health) eqn:Hb; [| reflexivity].
  destruct (proj1 Hh eq_refl) as [[H | H] _]; vm_compute in H; [discriminate H |].
  exfalso. apply H. reflexivity.
Defined.

(** ** The Lambda entry point *)

Section EntryPointFacts.

Import Handler.

Variable env : Env.
Variable getIncident getAuditTrail : string -> M JsValue.

(** The incident built from an event: it is open, carries the event's
    resource and the event's identifier when that is given and not empty;
    building it reads the clock only. *)
Lemma incidentOf_returns (event : IncidentEvent) (h : History) :
  exists incident pre,
    incidentOf env event h = (Ok incident, h ++ pre)
    /\ incident_status incident = Open
    /\ incident_resourceArn incident = event_resourceArn event
    /\ forallb notStatusUpdate pre = true.
Proof.
  unfold incidentOf, bind, newDate, perform, ret.
  destruct (truthy (Agent.optionalString (event_incidentId event))).
  - eexists. eexists. split; [reflexivity |]. repeat split.
  - eexists. eexists. split; [rewrite <- app_assoc; reflexivity |]. repeat split.
Qed.

(** The handler never throws, whatever the event and whatever the store
    and the pipeline do, and its answer is decided by the first step that
    throws.  For a status query the two reads are made in turn: if one
    throws, the answer is 500 with the message of that error (and a failed
    first read leaves the second unmade); otherwise it is 200 with the
    incident and its audit trail.  For any other event the incident is
    built and the pipeline run: if the pipeline throws, the answer is 500
    with the message of the error it threw; otherwise it is 200 with the
    summary of the outcome. *)
Theorem handler_never_throws (event : IncidentEvent) (h : History) :
  exists response h',
    handler env getIncident getAuditTrail event h = (Ok response, h')
    /\ if isStatusQuery event
       then
         match getIncident (orEmpty (event_incidentId event)) h with
         | (Throw e, h1) =>
             h' = h1
             /\ response = {| statusCode := 500;
                              body := js_stringify env (failureBody e) |}
         | (Ok incident, h1) =>
             match getAuditTrail (orEmpty (event_incidentId event)) h1 with
             | (Throw e, h2) =>
                 h' = h2
                 /\ response = {| statusCode := 500;
                                  body := js_stringify env (failureBody e) |}
             | (Ok auditTrail, h2) =>
                 h' = h2
                 /\ response
                    = {| statusCode := 200;
                         body := js_stringify env (statusQueryBody incident auditTrail) |}
             end
         end
       else
         exists incident pre,
           incidentOf env event h = (Ok incident, h ++ pre)
           /\ match Agent.handleIncident env incident (h ++ pre) with
              | (Throw e, h2) =>
                  h' = h2
                  /\ response = {| statusCode := 500;
                                   body := js_stringify env (failureBody e) |}
              | (Ok outcome, h2) =>
                  h' = h2
                  /\ response
                     = {| statusCode := 200;
                          body := js_stringify env (processedBody incident outcome) |}
              end.
Proof.
  unfold handler, try_catch. destruct (isStatusQuery event).
  - unfold bind.
    destruct (getIncident (orEmpty (event_incidentId event)) h) as [[i | e] h1].
    + destruct (getAuditTrail (orEmpty (event_incidentId event)) h1) as [[a | e] h2];
        eexists; eexists; (split; [reflexivity |]); split; reflexivity.
    + eexists. eexists. split; [reflexivity |]. split; reflexivity.
  - destruct (incidentOf_returns event h) as [incident [pre [E _]]].
    unfold bind. rewrite E.
    destruct (Agent.handleIncident env incident (h ++ pre)) as [[o | e] h2] eqn:Ep;
      eexists; eexists; (split; [reflexivity |]);
      exists incident, pre; (split; [reflexivity |]);
      rewrite Ep; split; reflexivity.
Qed.

(** For an event that is not a status query the handler builds an open
    incident and runs the pipeline on it.  When the pipeline returns, the
    answer is 200 and the status in its body is the final status written
    to the incident store, after investigating and remediating; when the
    pipeline throws, the answer is 500 with the message of that error. *)
Theorem handler_answer_matches_stored_status (event : IncidentEvent) (h : History) :
  isStatusQuery event = false ->
  exists incident pre new response,
    incidentOf env event h = (Ok incident, h ++ pre)
    /\ incident_status incident = Open
    /\ handler env getIncident getAuditTrail event h = (Ok response, h ++ pre ++ new)
    /\ ((exists outcome,
           Agent.handleIncident env incident (h ++ pre) = (Ok outcome, h ++ pre ++ new)
           /\ statusCode response = 200%Z
           /\ body response = js_stringify env (processedBody incident outcome)
           /\ statusUpdates (incident_id incident) new
              = [Investigating; Remediating;
                 finalStatusOf (Agent.out_verification outcome)]
           /\ optionalMember (processedBody incident outcome) "status"
              = VStr (statusName (finalStatusOf (Agent.out_verification outcome))))
        \/ (exists e,
              Agent.handleIncident env incident (h ++ pre) = (Throw e, h ++ pre ++ new)
              /\ statusCode response = 500%Z
              /\ body response = js_stringify env (failureBody e))).
Proof.
  intros Hq. unfold handler, try_catch. rewrite Hq.
  destruct (incidentOf_returns event h) as [incident [pre [E [Hopen _]]]].
  unfold bind. rewrite E.
  destruct (Agent.handleIncident env incident (h ++ pre)) as [[outcome | e] h2] eqn:Ep;
    destruct (@handleIncident_lifecycle env incident _ _ _ Ep) as [new [-> Hs]];
    exists incident, pre, new; eexists;
    (split; [reflexivity |]); (split; [exact Hopen |]);
    (split; [rewrite <- app_assoc; reflexivity |]).
  - left. exists outcome.
    split; [rewrite Ep, <- app_assoc; reflexivity |].
    split; [reflexivity |]. split; [reflexivity |].
    split; [exact Hs |].
    unfold processedBody, finalStatusOf. cbn.
    destruct (verification_success (Agent.out_verification outcome)); reflexivity.
  - right. exists e.
    split; [rewrite Ep, <- app_assoc; reflexivity |]. split; reflexivity.
Qed.

(** The outage of the reasoning service as the caller of the Lambda sees
    it: with an incident store that accepts its writes, a new incident is
    answered by 500 with the reasoning service's own error message, after
    exactly one request to that service, and the incident is left in the
    status investigating. *)
Theorem handler_reports_reasoning_outage
    (event : IncidentEvent) (e : Thrown) (h : History) :
  (forall h0 input, bedrock_send env h0 input = Throw e) ->
  (forall h0 incident, db_saveIncident env h0 incident = Ok tt) ->
  (forall h0 incidentId status details,
      db_updateIncidentStatus env h0 incidentId status details = Ok tt) ->
  isStatusQuery event = false ->
  exists incident pre new,
    incidentOf env event h = (Ok incident, h ++ pre)
    /\ handler env getIncident getAuditTrail event h
       = (Ok {| statusCode := 500; body := js_stringify env (failureBody e) |},
          h ++ pre ++ new)
    /\ statusUpdates (incident_id incident) new = [Investigating]
    /\ sendCount new = 1.
Proof.
  intros unavailable Hsave Hupdate Hq. unfold handler, try_catch. rewrite Hq.
  destruct (incidentOf_returns event h) as [incident [pre [E _]]].
  unfold bind at 1. rewrite E.
  unfold Agent.handleIncident. unfold bind at 1. unfold bind at 1.
  unfold DynamoDB.saveIncident, perform. rewrite Hsave.
  unfold bind at 1. unfold DynamoDB.updateIncidentStatus at 1, perform. rewrite Hupdate.
  unfold bind at 1.
  match goal with
  | |- context [Agent.investigate env incident ?h0] =>
      destruct (@investigate_throws env incident e unavailable h0)
        as [gathering [input [Ei Fi]]]; rewrite Ei
  end.
  exists incident, pre. eexists. split; [reflexivity |]. split.
  - unfold ret. rewrite <- !app_assoc. reflexivity.
  - split.
    + simpl. rewrite String.eqb_refl.
      rewrite statusUpdates_app, (statusUpdates_telemetry _ _ Fi). reflexivity.
    + rewrite !sendCount_app, (telemetry_sends_nothing _ Fi). reflexivity.
Qed.

End EntryPointFacts.

Lemma handler_answer_witness :
  Handler.isStatusQuery MoreStubs.checkoutEvent = false
  /\ exists incident pre new response,
       Handler.incidentOf MoreStubs.envAllFine MoreStubs.checkoutEvent []
       = (Ok incident, [] ++ pre)
       /\ incident_status incident = Open
       /\ Handler.handler MoreStubs.envAllFine MoreStubs.noRecord MoreStubs.noRecord
            MoreStubs.checkoutEvent [] = (Ok response, [] ++ pre ++ new).
Proof.
  split; [reflexivity |].
  destruct (@handler_answer_matches_stored_status
              MoreStubs.envAllFine MoreStubs.noRecord MoreStubs.noRecord
              MoreStubs.checkoutEvent [] eq_refl)
    as [incident [pre [new [response [Ei [Ho [Eh _]]]]]]].
  exists incident, pre, new, response.
  split; [exact Ei |]. split; [exact Ho | exact Eh].
Defined.

Lemma handler_outage_witness :
  exists new,
    Handler.handler Stubs.envUnavailable MoreStubs.noRecord MoreStubs.noRecord
      MoreStubs.checkoutEvent []
    = (Ok {| Handler.statusCode := 500;
             Handler.body :=
               js_stringify Stubs.envUnavailable
                 (Handler.failureBody (ErrorObject "ServiceUnavailableException")) |},
       new).
Proof.
  destruct (@handler_reports_reasoning_outage
              Stubs.envUnavailable MoreStubs.noRecord MoreStubs.noRecord
              MoreStubs.checkoutEvent (ErrorObject "ServiceUnavailableException") [])
    as [incident [pre [new [_ [Eh _]]]]]; try reflexivity.
  exists (pre ++ new). exact Eh.
Defined.

(** ** The incident store over its document client *)

Lemma lookup_app {A : Type} (key : string) (a b : list (string * A)) :
  lookup key (a ++ b)
  = match lookup key a with
    | Some v => Some v
    | None => lookup key b
    end.
Proof.
  induction a as [| [k v] a IH]; simpl; [reflexivity |].
  destruct (String.eqb k key); [reflexivity | exact IH].
Qed.

(** In [{ ...base, ...over }] the last property of [over] with a given key
    wins, and a key that [over] lacks keeps its value of [base]. *)
Lemma lookup_spread (key : string) (over base : list (string * JsValue)) :
  lookup key (spread base over)
  = match lookup key (List.rev over) with
    | Some v => Some v
    | None => lookup key base
    end.
Proof.
  unfold spread. revert base.
  induction over as [| [k v] over IH]; intros base; simpl; [reflexivity |].
  rewrite IH, lookup_app. destruct (lookup key (List.rev over)); [reflexivity |].
  simpl. destruct (String.eqb k key) eqn:E.
  - apply String.eqb_eq in E. subst k. apply lookup_assign_same.
  - apply lookup_assign_other. intros ->. rewrite String.eqb_refl in E. discriminate E.
Qed.

Lemma pair_eq {A B : Type} (a a' : A) (b b' : B) :
  b = b' -> a = a' -> (a, b) = (a', b').
Proof. intros -> ->. reflexivity. Qed.

Section StoreFacts.

Import DynamoDBService.

Variable c : Client.
Variable tableName : string.

Lemma logAudit_run (entry : AuditEntry) (t : Trace) :
  logAudit c tableName entry t
  = (match send c (t ++ [UuidDrawn])
             (PutCommand tableName
                (AuditItem (uuid c t) entry (toISOString c (audit_timestamp entry)))) with
     | Ok _ => Ok {| stored_id := uuid c t; stored_entry := entry |}
     | Throw e => Throw e
     end,
     t ++ [UuidDrawn;
           Sent (PutCommand tableName
                   (AuditItem (uuid c t) entry (toISOString c (audit_timestamp entry))))]).
Proof.
  unfold logAudit, andThen, uuidv4, sendCommand, pure.
  rewrite <- app_assoc.
  destruct (send c (t ++ [UuidDrawn]) _); reflexivity.
Qed.

(** Every write of the store is followed by its audit entry, and only when
    the write was accepted: [saveIncident], [updateIncidentStatus] and
    [saveRemediationPlan] first send their own command; a rejected command
    is thrown on with nothing more sent, and an accepted one is followed by
    one put on the audit table, for the incident, named [incident_created],
    [status_updated] or [plan_created], with result success.  The write
    then ends as that put ends, so a rejected audit entry makes the write
    throw although its own command was accepted. *)
Theorem store_writes_are_audited
    (incident : Incident) (incidentId : string) (status : IncidentStatus)
    (details : option (list (string * JsValue))) (plan : RemediationPlan) :
  auditedWrite c tableName "incident_created" (incident_id incident)
    (fun _ =>
       PutCommand (incidentsTable tableName)
         (IncidentItem incident (toISOString c (incident_timestamp incident))))
    (saveIncident c tableName incident)
  /\ auditedWrite c tableName "status_updated" incidentId
       (fun t =>
          UpdateCommand (incidentsTable tableName) [("id", VStr incidentId)]
            "SET #status = :status, updatedAt = :updatedAt"
            [("#status", "status")]
            [ (":status", VStr (statusName status));
              (":updatedAt", VStr (toISOString c (now c t))) ])
       (updateIncidentStatus c tableName incidentId status details)
  /\ auditedWrite c tableName "plan_created" (plan_incidentId plan)
       (fun _ =>
          PutCommand (plansTable tableName)
            (PlanItem plan (toISOString c (plan_createdAt plan))))
       (saveRemediationPlan c tableName plan).
Proof.
  split; [| split]; intros t.
  - exists []. split; [reflexivity |]. rewrite app_nil_r. cbn [app].
    destruct (send c t _) as [out | e] eqn:Es.
    + eexists. split; cycle 1.
      * unfold saveIncident, andThen, sendCommand, newDate. rewrite Es.
        rewrite logAudit_run. rewrite <- !app_assoc. cbn [app].
        lazymatch goal with
        | |- match match send c ?a ?p with Ok _ => _ | Throw _ => _ end with
             | Ok _ => _ | Throw _ => _ end = _ =>
            destruct (send c a p) eqn:Ea;
            (apply pair_eq; [reflexivity |]);
            match goal with
            | |- _ = match ?s with Ok _ => _ | Throw _ => _ end =>
                replace s with (send c a p) by reflexivity
            end;
            rewrite Ea; reflexivity
        end.
      * cbn. rewrite !String.eqb_refl. reflexivity.
    + unfold saveIncident, andThen, sendCommand. rewrite Es. reflexivity.
  - exists [ClockRead]. split; [reflexivity |]. cbn [app].
    destruct (send c (t ++ [ClockRead]) _) as [out | e] eqn:Es.
    + eexists. split; cycle 1.
      * unfold updateIncidentStatus, andThen, sendCommand, newDate. rewrite Es.
        rewrite logAudit_run. rewrite <- !app_assoc. cbn [app].
        lazymatch goal with
        | |- match match send c ?a ?p with Ok _ => _ | Throw _ => _ end with
             | Ok _ => _ | Throw _ => _ end = _ =>
            destruct (send c a p) eqn:Ea;
            (apply pair_eq; [reflexivity |]);
            match goal with
            | |- _ = match ?s with Ok _ => _ | Throw _ => _ end =>
                replace s with (send c a p) by reflexivity
            end;
            rewrite Ea; reflexivity
        end.
      * cbn. rewrite !String.eqb_refl. reflexivity.
    + unfold updateIncidentStatus, andThen, sendCommand, newDate. rewrite Es.
      rewrite <- app_assoc. reflexivity.
  - exists []. split; [reflexivity |]. rewrite app_nil_r. cbn [app].
    destruct (send c t _) as [out | e] eqn:Es.
    + eexists. split; cycle 1.
      * unfold saveRemediationPlan, andThen, sendCommand, newDate. rewrite Es.
        rewrite logAudit_run. rewrite <- !app_assoc. cbn [app].
        lazymatch goal with
        | |- match match send c ?a ?p with Ok _ => _ | Throw _ => _ end with
             | Ok _ => _ | Throw _ => _ end = _ =>
            destruct (send c a p) eqn:Ea;
            (apply pair_eq; [reflexivity |]);
            match goal with
            | |- _ = match ?s with Ok _ => _ | Throw _ => _ end =>
                replace s with (send c a p) by reflexivity
            end;
            rewrite Ea; reflexivity
        end.
      * cbn. rewrite !String.eqb_refl. reflexivity.
    + unfold saveRemediationPlan, andThen, sendCommand. rewrite Es. reflexivity.
Qed.

(** The details of the audit entry written by [updateIncidentStatus] are
    [{ newStatus: status, ...details }]: every property of the caller's
    [details] is carried, the last one of each key; [newStatus] is the
    status written unless [details] has a property of that name, which
    then replaces it. *)
Theorem status_audit_details
    (status : IncidentStatus) (given : list (string * JsValue)) (key : string) :
  exists merged,
    statusDetails status (Some given) = VObj merged
    /\ lookup key merged
       = match lookup key (List.rev given) with
         | Some value => Some value
         | None =>
             if String.eqb key "newStatus" then Some (VStr (statusName status)) else None
         end
    /\ statusDetails status None = VObj [("newStatus", VStr (statusName status))].
Proof.
  eexists. split; [reflexivity |]. split; [| reflexivity].
  rewrite lookup_spread. destruct (lookup key (List.rev given)); [reflexivity |].
  simpl. rewrite String.eqb_sym. reflexivity.
Qed.

(** [getCachedPlan] never throws and only reads: it sends the one
    [GetCommand] for the cache key; it returns [null] when the read is
    rejected, when there is no item or no payload, when the payload does
    not parse and when the parsed value is [null]; otherwise the [plan]
    property of the parsed payload, [undefined] when it has none. *)
Theorem getCachedPlan_never_throws (t : Trace) :
  exists plan,
    getCachedPlan c tableName t
    = (Ok plan, t ++ [Sent (GetCommand tableName cacheKey)])
    /\ match send c t (GetCommand tableName cacheKey) with
       | Throw _ => plan = VNull
       | Ok response =>
           if truthy (payloadOf response)
           then match parse c (payloadOf response) with
                | Throw _ => plan = VNull
                | Ok VNull | Ok VUndefined => plan = VNull
                | Ok (VObj fields) | Ok (VAugmented _ fields) => plan = param "plan" fields
                | Ok _ => plan = VUndefined
                end
           else plan = VNull
       end.
Proof.
  unfold getCachedPlan, attempt, andThen, sendCommand, outcome, pure.
  destruct (send c t (GetCommand tableName cacheKey)) as [response | e].
  - destruct (truthy (payloadOf response)).
    + destruct (parse c (payloadOf response)) as [cached | e].
      * destruct cached; cbn [property]; eexists; split; reflexivity.
      * eexists. split; reflexivity.
    + eexists. split; reflexivity.
  - eexists. split; reflexivity.
Qed.

(** A plan cached by [cachePlan] is the plan [getCachedPlan] returns next,
    when the client accepts the put and then answers the read of the cache
    key by the item put, and [JSON.parse] reads back the serialised value,
    whose text is not empty. *)
Theorem cached_plan_round_trip (plan : JsValue) (t : Trace) (accepted : Output)
    (response : Output) :
  let payload := stringify c (cachedValue c plan (now c t)) in
  let item := cacheKey ++ [("payload", VStr payload)] in
  let put := PutCommand tableName (Fields item) in
  send c (t ++ [ClockRead]) put = Ok accepted ->
  send c (t ++ [ClockRead; Sent put]) (GetCommand tableName cacheKey) = Ok response ->
  out_Item response = Some item ->
  payload <> EmptyString ->
  parse c (VStr payload) = Ok (cachedValue c plan (now c t)) ->
  andThen (cachePlan c tableName plan) (fun _ => getCachedPlan c tableName) t
  = (Ok plan, t ++ [ClockRead; Sent put; Sent (GetCommand tableName cacheKey)]).
Proof.
  intros payload item put Hput Hget Hitem Hpayload Hparse.
  unfold cachePlan, getCachedPlan, attempt, andThen, sendCommand, newDate, outcome, pure.
  fold payload. fold item. fold put. rewrite Hput.
  replace ((t ++ [ClockRead]) ++ [Sent put]) with (t ++ [ClockRead; Sent put])
    by (rewrite <- app_assoc; reflexivity).
  rewrite Hget.
  unfold payloadOf. rewrite Hitem.
  replace (param "payload" item) with (VStr payload) by reflexivity.
  cbn [truthy].
  destruct (String.eqb payload "") eqn:E.
  - apply String.eqb_eq in E. contradiction.
  - cbn [negb]. rewrite Hparse. cbn. rewrite <- app_assoc. reflexivity.
Qed.

(** [getAuditTrail] returns the entries in the order of the store's
    answer and as many of them (none when the answer has no [Items]); each
    keeps every attribute of its item but [timestamp], which becomes the
    date read from the item's.  The one command sent is the query of the
    incident's index in ascending order; a rejected query is thrown on. *)
Theorem getAuditTrail_keeps_store_order (incidentId : string) (t : Trace) :
  let query :=
    QueryCommand tableName "IncidentIdIndex" "incidentId = :incidentId"
      [(":incidentId", VStr incidentId)] true in
  match send c t query with
  | Throw e => getAuditTrail c tableName incidentId t = (Throw e, t ++ [Sent query])
  | Ok response =>
      exists entries,
        getAuditTrail c tableName incidentId t = (Ok entries, t ++ [Sent query])
        /\ Forall2
             (fun item entry =>
                lookup "timestamp" entry
                = Some (VDate (parseDate c (param "timestamp" item)))
                /\ forall key, key <> "timestamp" -> lookup key entry = lookup key item)
             (match out_Items response with Some items => items | None => [] end)
             entries
  end.
Proof.
  intros query. unfold getAuditTrail, andThen, sendCommand, pure. fold query.
  destruct (send c t query) as [response | e]; [| reflexivity].
  eexists. split; [reflexivity |]. unfold datedItems.
  induction (match out_Items response with Some items => items | None => [] end)
    as [| item items IH]; simpl; constructor; [| exact IH].
  unfold withDate. split.
  - apply lookup_assign_same.
  - intros key Hk. apply lookup_assign_other. exact Hk.
Qed.

(** The four reads of the store send one command each, a read, whatever
    they return: none of them writes. *)
Theorem store_reads_never_write (incidentId : string) (t : Trace) :
  (exists command, isRead command = true
     /\ snd (getIncident c tableName incidentId t) = t ++ [Sent command])
  /\ (exists command, isRead command = true
        /\ snd (getAuditTrail c tableName incidentId t) = t ++ [Sent command])
  /\ (exists command, isRead command = true
        /\ snd (getOpenIncidents c tableName t) = t ++ [Sent command])
  /\ (exists command, isRead command = true
        /\ snd (getCachedPlan c tableName t) = t ++ [Sent command]).
Proof.
  split; [| split; [| split]].
  - eexists. split; cycle 1.
    + unfold getIncident, andThen, sendCommand, pure.
      destruct (send c t _) as [response | e]; [| reflexivity].
      destruct (out_Item response); reflexivity.
    + reflexivity.
  - eexists. split; cycle 1.
    + unfold getAuditTrail, andThen, sendCommand, pure.
      destruct (send c t _) as [response | e]; reflexivity.
    + reflexivity.
  - eexists. split; cycle 1.
    + unfold getOpenIncidents, andThen, sendCommand, pure.
      destruct (send c t _) as [response | e]; reflexivity.
    + reflexivity.
  - eexists. split; cycle 1.
    + unfold getCachedPlan, attempt, andThen, sendCommand, outcome, pure.
      destruct (send c t _) as [response | e]; [| reflexivity].
      destruct (truthy (payloadOf response)); [| reflexivity].
      destruct (parse c (payloadOf response)) as [cached | e]; [| reflexivity].
      destruct (property cached "plan"); reflexivity.
    + reflexivity.
Qed.

End StoreFacts.

Lemma cached_plan_round_trip_witness :
  exists t',
    DynamoDBService.andThen
      (DynamoDBService.cachePlan MoreStubs.memoryClient "OpsPilotAuditTrail"
         (VObj [("intent", VStr "reduce_timeouts")]))
      (fun _ => DynamoDBService.getCachedPlan MoreStubs.memoryClient "OpsPilotAuditTrail")
      []
    = (Ok (VObj [("intent", VStr "reduce_timeouts")]), t').
Proof.
  eexists.
  apply (@cached_plan_round_trip MoreStubs.memoryClient "OpsPilotAuditTrail"
           (VObj [("intent", VStr "reduce_timeouts")]) []
           {| DynamoDBService.out_Item := None; DynamoDBService.out_Items := None |}
           {| DynamoDBService.out_Item :=
                Some (DynamoDBService.cacheKey ++ [("payload", VStr "{serialised}")]);
              DynamoDBService.out_Items := None |}).
  - reflexivity.
  - reflexivity.
  - reflexivity.
  - discriminate.
  - reflexivity.
Defined.
